(** * Academic records manager: the object graph and its JSON persistence

    A shallow embedding of [_Case#3.py]: the entity classes ([Person],
    [Student], [Instructor], [Course], [Enrollment], [Grade], [Schedule],
    [Assignment], [Announcement], [DiscussionThread]) and the repository
    ([PlatformAdmin.load_data] / [PlatformAdmin.save_data] and
    [PlatformAdmin.admin_login]).

    Python objects with identity live in a heap and are referred to by
    address; methods are computations in a small state / output / exception
    monad, so that a mutation made before an exception is raised stays
    visible afterwards, exactly as in the source. *)

From Stdlib Require Import QArith Ascii.
From stdpp Require Import base option list strings.

Local Open Scope string_scope.
Local Open Scope list_scope.

(** ** Python values

    The values that [json.load] produces and [json.dump] accepts.  Numbers
    ([int] and finite [float]) are embedded as rationals; a dictionary is the
    list of its entries in insertion order (keys are pairwise distinct, so
    looking up the first entry with a given key is [dict.__getitem__]). *)

#[local] Set Warnings "-register-all".
Inductive pyval : Type :=
  | PNone
  | PBool (b : bool)
  | PNum (q : Q)
  | PStr (s : string)
  | PList (l : list pyval)
  | PDict (d : list (string * pyval)).

#[local] Set Warnings "+register-all".

Fixpoint assoc {A : Type} (k : string) (d : list (string * A)) : option A :=
  match d with
  | [] => None
  | (k', v) :: d' => if String.eqb k k' then Some v else assoc k d'
  end.

Definition bool_num (b : bool) : Q := if b then 1%Q else 0%Q.

(** Python's [==] on JSON values: numbers compare by value ([1 == 1.0]),
    [bool] is a subtype of [int] ([True == 1]), lists compare element-wise
    and dictionaries as finite maps. *)
Fixpoint py_eq (a b : pyval) {struct a} : bool :=
  match a, b with
  | PNone, PNone => true
  | PBool x, PBool y => Bool.eqb x y
  | PBool x, PNum q => Qeq_bool (bool_num x) q
  | PNum q, PBool x => Qeq_bool q (bool_num x)
  | PNum p, PNum q => Qeq_bool p q
  | PStr s, PStr t => String.eqb s t
  | PList l, PList m =>
      (fix go (l m : list pyval) {struct l} : bool :=
         match l, m with
         | [], [] => true
         | x :: l', y :: m' => py_eq x y && go l' m'
         | _, _ => false
         end) l m
  | PDict d, PDict e =>
      Nat.eqb (length d) (length e) &&
      forallb (fun kv => match assoc (fst kv) e with
                         | Some w => py_eq (snd kv) w
                         | None => false
                         end) d
  | _, _ => false
  end.

(** ** Exceptions and printed messages *)

Inductive exn : Type :=
  | KeyError (key : string)
  | TypeError
  | AttributeError
  | ValueError (message : string)
  | JSONDecodeError
  | FileNotFoundError.

(** Every [print] of the modelled methods is one constructor, carrying the
    values that the source interpolates into the text. *)
Inductive Msg : Type :=
  (* Course.add_student *)
  | MsgStudentAdded (student_name course_name : pyval)
  | MsgStudentAlreadyInCourse (student_name course_name : pyval)
  (* Course.assign_assignment *)
  | MsgInvalidDateFormat
  | MsgDueDateNotFuture
  | MsgAssignmentExists (title due_date : string)
  | MsgAssignmentAdded (title : string) (course_name : pyval)
  (* Enrollment *)
  | MsgEnrolled (student_name course_name : pyval)
  | MsgAlreadyEnrolled (student_name course_name : pyval)
  | MsgUnenrolled (student_name course_name : pyval)
  | MsgNotEnrolled (student_name course_name : pyval)
  (* Announcement.add_recipient_group *)
  | MsgGroupInvalid (group : string)
  | MsgGroupAdded (group : string)
  | MsgGroupAlready (group : string)
  (* DiscussionThread.add_post *)
  | MsgEmptyPost
  | MsgPostAdded (person_name : pyval) (message : string)
  (* PlatformAdmin.load_data *)
  | MsgFileNotFoundStartEmpty (filename : string)
  | MsgWarnInstructorNotFound (instructor_id course_name : pyval)
  | MsgWarnStudentNotFound (student_id : pyval)
  | MsgWarnCourseNotFound (course_code : pyval)
  | MsgWarnScheduleCourseNotFound (course_code : pyval)
  | MsgLoadJSONDecodeError
  | MsgLoadFileNotFound (filename : string)
  | MsgLoadUnexpected (e : exn)
  (* PlatformAdmin.save_data *)
  | MsgSaved (filename : string)
  | MsgSaveError (e : exn).

(** ** The effect monad

    A computation reads and updates a state of type [S], prints messages and
    either returns a value or raises.  The state reached when an exception
    is raised is kept. *)

Inductive result (A : Type) : Type :=
  | Ok (a : A)
  | Raise (e : exn).
Arguments Ok {A} a.
Arguments Raise {A} e.

Record run (S A : Type) : Type := Run {
  final : S;
  printed : list Msg;
  outcome : result A
}.
Arguments Run {S A} final printed outcome.
Arguments final {S A} r.
Arguments printed {S A} r.
Arguments outcome {S A} r.

Definition M (S A : Type) : Type := S -> run S A.

Definition ret {S A} (a : A) : M S A := fun s => Run s [] (Ok a).

Definition bind {S A B} (m : M S A) (k : A -> M S B) : M S B :=
  fun s =>
    let r := m s in
    match outcome r with
    | Ok a => let r' := k a (final r) in
              Run (final r') (printed r ++ printed r') (outcome r')
    | Raise e => Run (final r) (printed r) (Raise e)
    end.

Definition raise {S A} (e : exn) : M S A := fun s => Run s [] (Raise e).
Definition print {S} (m : Msg) : M S unit := fun s => Run s [m] (Ok tt).
Definition get {S} : M S S := fun s => Run s [] (Ok s).
Definition put {S} (s : S) : M S unit := fun _ => Run s [] (Ok tt).
Definition modify {S} (f : S -> S) : M S unit := fun s => Run (f s) [] (Ok tt).

(** [try: m except e: h e] *)
Definition try_except {S A} (m : M S A) (h : exn -> M S A) : M S A :=
  fun s =>
    let r := m s in
    match outcome r with
    | Ok a => r
    | Raise e => let r' := h e (final r) in
                 Run (final r') (printed r ++ printed r') (outcome r')
    end.

(** A pure step that may raise. *)
Definition lift {S A} (r : result A) : M S A :=
  match r with Ok a => ret a | Raise e => raise e end.

(** Run a computation on a component of the state. *)
Definition zoom {S T A} (proj : S -> T) (inj : T -> S -> S) (m : M T A) : M S A :=
  fun s => let r := m (proj s) in Run (inj (final r) s) (printed r) (outcome r).

Declare Scope eff_scope.
Delimit Scope eff_scope with eff.
Notation "x <~ m ;; k" := (bind m (fun x => k))
  (at level 20, m at level 99, k at level 200, only parsing) : eff_scope.
Notation "m ;;; k" := (bind m (fun _ => k))
  (at level 100, k at level 200, right associativity, only parsing) : eff_scope.
Local Open Scope eff_scope.

(** [for x in l: body x] *)
Fixpoint for_each {S A} (body : A -> M S unit) (l : list A) : M S unit :=
  match l with
  | [] => ret tt
  | x :: l' => body x ;;; for_each body l'
  end.

(** The pure part: results form an error monad. *)
Definition rbind {A B} (r : result A) (k : A -> result B) : result B :=
  match r with Ok a => k a | Raise e => Raise e end.

(** [[f(x) for x in l]]: the first exception abandons the list. *)
Fixpoint rmap {A B} (f : A -> result B) (l : list A) : result (list B) :=
  match l with
  | [] => Ok []
  | x :: l' => rbind (f x) (fun y => rbind (rmap f l') (fun ys => Ok (y :: ys)))
  end.

(** [next((x for x in l if test(x)), None)]: the test is evaluated lazily,
    element by element, and may raise. *)
Fixpoint next_where {A} (test : A -> result bool) (l : list A) : result (option A) :=
  match l with
  | [] => Ok None
  | x :: l' => rbind (test x) (fun b => if b then Ok (Some x) else next_where test l')
  end.

(** ** Operations of the Python runtime on JSON values *)

(** [v[key]] for a string key. *)
Definition py_subscript (v : pyval) (key : string) : result pyval :=
  match v with
  | PDict d => match assoc key d with Some x => Ok x | None => Raise (KeyError key) end
  | _ => Raise TypeError
  end.

(** [d.get(key, default)] on the entries of a dictionary. *)
Definition dict_get (d : list (string * pyval)) (key : string) (default : pyval) : pyval :=
  match assoc key d with Some x => x | None => default end.

(** [v.get(key, default)]; only dictionaries have [get]. *)
Definition py_get (v : pyval) (key : string) (default : pyval) : result pyval :=
  match v with
  | PDict d => Ok (dict_get d key default)
  | _ => Raise AttributeError
  end.

(** [iter(v)]: a list yields its elements, a dictionary its keys, a string
    its characters; the other values are not iterable. *)
Definition py_iter (v : pyval) : result (list pyval) :=
  match v with
  | PList l => Ok l
  | PDict d => Ok (map (fun kv => PStr (fst kv)) d)
  | PStr s => Ok (map (fun c => PStr (String c EmptyString)) (String.list_ascii_of_string s))
  | _ => Raise TypeError
  end.

(** ** Strings

    A string is a sequence of code points; the character classes are those
    of Python's Unicode tables on the code points below 256. *)

Definition code (c : ascii) : nat := nat_of_ascii c.

Definition between (lo hi n : nat) : bool := Nat.leb lo n && Nat.leb n hi.

(** [c.isspace()] *)
Definition isspace (c : ascii) : bool :=
  let n := code c in
  between 9 13 n || between 28 32 n || Nat.eqb n 133 || Nat.eqb n 160.

(** [c.isdigit()]: the decimal digits and the superscripts 1, 2, 3. *)
Definition isdigit (c : ascii) : bool :=
  let n := code c in
  between 48 57 n || Nat.eqb n 178 || Nat.eqb n 179 || Nat.eqb n 185.

(** [c.isalpha()] *)
Definition isalpha (c : ascii) : bool :=
  let n := code c in
  between 65 90 n || between 97 122 n || Nat.eqb n 170 || Nat.eqb n 181 ||
  Nat.eqb n 186 || between 192 214 n || between 216 246 n || between 248 255 n.

(** [c.isalnum()]: alphabetic, digit, or numeric (the vulgar fractions). *)
Definition isalnum (c : ascii) : bool :=
  isalpha c || isdigit c || between 188 190 (code c).

Definition chars (s : string) : list ascii := String.list_ascii_of_string s.

(** [not s.strip()]: nothing is left once the white space is stripped. *)
Definition is_blank (s : string) : bool := forallb isspace (chars s).

(** [s.isdigit()] and [s.isalnum()] are false on the empty string. *)
Definition str_isdigit (s : string) : bool :=
  negb (Nat.eqb (String.length s) 0) && forallb isdigit (chars s).
Definition str_isalnum (s : string) : bool :=
  negb (Nat.eqb (String.length s) 0) && forallb isalnum (chars s).

(** ["c" in s] for a one-character needle. *)
Definition contains_char (c : ascii) (s : string) : bool :=
  existsb (Ascii.eqb c) (chars s).

(** ** Objects

    An address identifies an object of its class; Python's default [==]
    and [in] on objects compare addresses. *)

Abbreviation addr := nat (only parsing).

Definition addr_in (a : addr) (l : list addr) : bool := existsb (Nat.eqb a) l.

(** [datetime]: a point of the local time line in microseconds, naive or
    carrying a UTC offset. *)
Record datetime : Type := mkDatetime {
  ticks : Z;
  utcoffset : option Z
}.

Record Person : Type := mkPerson {
  name : pyval;
  email : pyval;
  contact_number : pyval;
  address : pyval
}.

Record Student : Type := mkStudent {
  s_person : Person;
  student_id : pyval;
  year_level : pyval;
  program : pyval;
  gpa : pyval;
  birth_date : pyval;
  s_role : pyval;
  enrolled_courses : list addr;      (* Course references *)
  s_course : list addr;
  s_grades : list pyval
}.

Record Instructor : Type := mkInstructor {
  i_person : Person;
  instructor_id : pyval;
  i_role : pyval;
  courses_taught : list addr;        (* Course references *)
  i_assignments : list addr;         (* Assignment references *)
  i_course : list addr
}.

Record Schedule : Type := mkSchedule {
  sch_course : addr;
  day : pyval;
  time : pyval
}.

Record Grade : Type := mkGrade {
  g_student : addr;
  g_assignment : addr;
  score : Q;
  feedback : option string
}.

Record Course : Type := mkCourse {
  course_name : pyval;
  course_code : pyval;
  instructor : addr;                 (* Instructor reference *)
  c_students : list addr;            (* _students *)
  units : pyval;
  assignments : list addr;           (* Assignment references *)
  c_grades : list (pyval * string * Grade);
  enrolled_students : list addr;     (* Student references *)
  discussion_threads : list addr;
  schedule : option Schedule         (* None: the attribute is not set *)
}.

Record Assignment : Type := mkAssignment {
  title : string;
  description : string;
  due_date : datetime;
  a_course : addr;
  a_grades : list pyval
}.

Record Announcement : Type := mkAnnouncement {
  an_title : string;
  an_content : string;
  an_date : string;
  recipient_groups : list string
}.

Record Post : Type := mkPost {
  post_person : pyval;
  post_timestamp : datetime;
  post_message : string
}.

Record DiscussionThread : Type := mkThread {
  th_course : addr;
  th_title : string;
  th_creator : Person;
  posts : list Post;
  th_timestamp : datetime
}.

(** [Enrollment._enrollments]: the (student, course) pairs in order. *)
Record Enrollment : Type := mkEnrollment {
  enrollments_ : list (addr * addr)
}.

Record Heap : Type := mkHeap {
  instructor_objs : list Instructor;
  course_objs : list Course;
  student_objs : list Student;
  assignment_objs : list Assignment
}.

Definition set_course_objs (cs : list Course) (h : Heap) : Heap :=
  mkHeap (instructor_objs h) cs (student_objs h) (assignment_objs h).
Definition set_student_objs (ss : list Student) (h : Heap) : Heap :=
  mkHeap (instructor_objs h) (course_objs h) ss (assignment_objs h).
Definition set_instructor_objs (xs : list Instructor) (h : Heap) : Heap :=
  mkHeap xs (course_objs h) (student_objs h) (assignment_objs h).
Definition set_assignment_objs (xs : list Assignment) (h : Heap) : Heap :=
  mkHeap (instructor_objs h) (course_objs h) (student_objs h) xs.

(** Dereferencing: an address that denotes no object of the class stands for
    a value of another type (such as [None]), on which the attribute access
    raises. *)
Definition deref {A} (objs : list A) (a : addr) : result A :=
  match objs !! a with Some x => Ok x | None => Raise AttributeError end.

Notation "x <- r ;; k" := (rbind r (fun x => k))
  (at level 20, r at level 99, k at level 200, only parsing) : eff_scope.

(** ** Person: validated setters

    [Person.__init__] stores its four arguments as they are; only the
    property setters validate. *)

Definition Person_init (name email contact_number address : pyval) : Person :=
  mkPerson name email contact_number address.

Definition Person_set_name (value : string) : M Person unit :=
  if is_blank value then raise (ValueError "Name cannot be empty.")
  else modify (fun p => mkPerson (PStr value) (email p) (contact_number p) (address p)).

Definition Person_set_email (value : string) : M Person unit :=
  if negb (contains_char "@"%char value) || negb (contains_char "."%char value)
  then raise (ValueError "Invalid email address.")
  else modify (fun p => mkPerson (name p) (PStr value) (contact_number p) (address p)).

Definition Person_set_contact_number (value : string) : M Person unit :=
  if negb (str_isdigit value) || Nat.ltb (String.length value) 10
  then raise (ValueError "Contact number must be at least 10 digits.")
  else modify (fun p => mkPerson (name p) (email p) (PStr value) (address p)).

Definition Person_set_address (value : string) : M Person unit :=
  if is_blank value then raise (ValueError "Address cannot be empty.")
  else modify (fun p => mkPerson (name p) (email p) (contact_number p) (PStr value)).

(** ** Student *)

(** [Student.__init__]; [enrolled_courses=None] gives a fresh empty list. *)
Definition Student_init (name email contact_number address
                         student_id year_level program gpa birth_date : pyval)
                        (enrolled : option (list addr)) (role : pyval) : Student :=
  mkStudent (Person_init name email contact_number address)
            student_id year_level program gpa birth_date role
            (match enrolled with Some l => l | None => [] end) [] [].

Definition set_enrolled_courses (l : list addr) (s : Student) : Student :=
  mkStudent (s_person s) (student_id s) (year_level s) (program s) (gpa s)
            (birth_date s) (s_role s) l (s_course s) (s_grades s).

Definition set_s_person (p : Person) (s : Student) : Student :=
  mkStudent p (student_id s) (year_level s) (program s) (gpa s)
            (birth_date s) (s_role s) (enrolled_courses s) (s_course s) (s_grades s).

Definition set_gpa (v : pyval) (s : Student) : Student :=
  mkStudent (s_person s) (student_id s) (year_level s) (program s) v
            (birth_date s) (s_role s) (enrolled_courses s) (s_course s) (s_grades s).

(** The [gpa] setter: [0 <= value <= 4.0]. *)
Definition Student_set_gpa (value : Q) : M Student unit :=
  if Qle_bool 0 value && Qle_bool value 4
  then modify (set_gpa (PNum value))
  else raise (ValueError "GPA must be between 0 and 4.0").

(** The inherited setters act on the [Person] part of a student. *)
Definition Student_set_name (value : string) : M Student unit :=
  zoom s_person set_s_person (Person_set_name value).
Definition Student_set_email (value : string) : M Student unit :=
  zoom s_person set_s_person (Person_set_email value).
Definition Student_set_contact_number (value : string) : M Student unit :=
  zoom s_person set_s_person (Person_set_contact_number value).
Definition Student_set_address (value : string) : M Student unit :=
  zoom s_person set_s_person (Person_set_address value).

(** [Student.enroll]: append unless the very same course object is there. *)
Definition Student_enroll (course : addr) (s : Student) : Student :=
  if addr_in course (enrolled_courses s) then s
  else set_enrolled_courses (enrolled_courses s ++ [course]) s.

(** ** Instructor *)

Definition Instructor_init (name email contact_number address instructor_id role : pyval)
  : Instructor :=
  mkInstructor (Person_init name email contact_number address) instructor_id role [] [] [].

Definition instructor_params : list string :=
  ["name"; "email"; "contact_number"; "address"; "instructor_id"; "role"].

Definition str_in (k : string) (l : list string) : bool := existsb (String.eqb k) l.

(** [Instructor] called with [inst_data] unpacked as keyword arguments: the
    argument must be a mapping, every key must
    name a parameter, and the five parameters without a default must be
    given; anything else is a [TypeError]. *)
Definition Instructor_kwargs (inst_data : pyval) : result Instructor :=
  match inst_data with
  | PDict d =>
      if forallb (fun kv => str_in (fst kv) instructor_params) d then
        match assoc "name" d, assoc "email" d, assoc "contact_number" d,
              assoc "address" d, assoc "instructor_id" d with
        | Some n, Some e, Some c, Some a, Some i =>
            Ok (Instructor_init n e c a i
                  (match assoc "role" d with Some r => r | None => PStr "Instructor" end))
        | _, _, _, _, _ => Raise TypeError
        end
      else Raise TypeError
  | _ => Raise TypeError
  end.

(** ** Course *)

Definition Course_init (course_name course_code : pyval) (instructor : addr) (units : pyval)
  : Course :=
  mkCourse course_name course_code instructor [] units [] [] [] [] None.

Definition set_c_students (l : list addr) (c : Course) : Course :=
  mkCourse (course_name c) (course_code c) (instructor c) l (units c) (assignments c)
           (c_grades c) (enrolled_students c) (discussion_threads c) (schedule c).
Definition set_assignments (l : list addr) (c : Course) : Course :=
  mkCourse (course_name c) (course_code c) (instructor c) (c_students c) (units c) l
           (c_grades c) (enrolled_students c) (discussion_threads c) (schedule c).
Definition set_enrolled_students (l : list addr) (c : Course) : Course :=
  mkCourse (course_name c) (course_code c) (instructor c) (c_students c) (units c)
           (assignments c) (c_grades c) l (discussion_threads c) (schedule c).
Definition set_schedule (x : option Schedule) (c : Course) : Course :=
  mkCourse (course_name c) (course_code c) (instructor c) (c_students c) (units c)
           (assignments c) (c_grades c) (enrolled_students c) (discussion_threads c) x.

(** [Course.to_dict] reads the instructor's id through the reference. *)
Definition Course_to_dict (h : Heap) (c : Course) : result pyval :=
  i <- deref (instructor_objs h) (instructor c) ;;
  Ok (PDict [("course_name", course_name c); ("course_code", course_code c);
             ("instructor_id", instructor_id i); ("units", units c)]).

(** Update the course at an address in place. *)
Definition update_course (a : addr) (f : Course -> Course) (h : Heap) : Heap :=
  match course_objs h !! a with
  | Some c => set_course_objs (<[a := f c]> (course_objs h)) h
  | None => h
  end.

Definition update_student (a : addr) (f : Student -> Student) (h : Heap) : Heap :=
  match student_objs h !! a with
  | Some s => set_student_objs (<[a := f s]> (student_objs h)) h
  | None => h
  end.

(** [Course.add_student] keeps the roster [_students]. *)
Definition Course_add_student (self student : addr) : M Heap unit :=
  h <~ get ;;
  c <~ lift (deref (course_objs h) self) ;;
  if negb (addr_in student (c_students c)) then
    modify (update_course self (set_c_students (c_students c ++ [student]))) ;;;
    s <~ lift (deref (student_objs h) student) ;;
    print (MsgStudentAdded (name (s_person s)) (course_name c))
  else
    s <~ lift (deref (student_objs h) student) ;;
    print (MsgStudentAlreadyInCourse (name (s_person s)) (course_name c)).

(** [Course.remove_student]: the body is [pass]. *)
Definition Course_remove_student (self student : addr) : M Heap unit :=
  ret tt.

(** [datetime.__le__]: a naive and an aware value do not compare. *)
Definition datetime_le (a b : datetime) : result bool :=
  match utcoffset a, utcoffset b with
  | None, None => Ok (Z.leb (ticks a) (ticks b))
  | Some x, Some y => Ok (Z.leb (ticks a - x) (ticks b - y))
  | _, _ => Raise TypeError
  end.

(** [datetime.__eq__]: a naive and an aware value are simply different. *)
Definition datetime_eq (a b : datetime) : bool :=
  match utcoffset a, utcoffset b with
  | None, None => Z.eqb (ticks a) (ticks b)
  | Some x, Some y => Z.eqb (ticks a - x) (ticks b - y)
  | _, _ => false
  end.

(* the parameters [title] and [due_date] of [assign_assignment] shadow the
   accessors *)
Definition Assignment_title (a : Assignment) : string := title a.
Definition Assignment_due_date (a : Assignment) : datetime := due_date a.

Section Clock.
(** [datetime.fromisoformat]: [None] stands for its [ValueError]. *)
Variable fromisoformat : string -> option datetime.
(** The reading of [datetime.now()] at the call: a naive local time. *)
Variable now : Z.

Definition datetime_now : datetime := mkDatetime now None.

(** [Course.assign_assignment] *)
Definition Course_assign_assignment (self : addr) (title description due_date : string)
  : M Heap unit :=
  match fromisoformat due_date with
  | None => print MsgInvalidDateFormat
  | Some due_datetime =>
      past <~ lift (datetime_le due_datetime datetime_now) ;;
      if past then print MsgDueDateNotFuture
      else
        h <~ get ;;
        c <~ lift (deref (course_objs h) self) ;;
        dup <~ lift (next_where
                       (fun a => x <- deref (assignment_objs h) a ;;
                                 Ok (String.eqb (Assignment_title x) title
                                     && datetime_eq (Assignment_due_date x) due_datetime))
                       (assignments c)) ;;
        match dup with
        | Some _ => print (MsgAssignmentExists title due_date)
        | None =>
            let new_assignment := mkAssignment title description due_datetime self [] in
            let a := length (assignment_objs h) in
            modify (set_assignment_objs (assignment_objs h ++ [new_assignment])) ;;;
            modify (update_course self (set_assignments (assignments c ++ [a]))) ;;;
            print (MsgAssignmentAdded title (course_name c))
        end
  end.

(** [DiscussionThread.add_post] *)
Definition DiscussionThread_add_post (person : Person) (message : string)
  : M DiscussionThread unit :=
  if is_blank message then print MsgEmptyPost
  else
    modify (fun t => mkThread (th_course t) (th_title t) (th_creator t)
                              (posts t ++ [mkPost (name person) datetime_now message])
                              (th_timestamp t)) ;;;
    print (MsgPostAdded (name person) message).
End Clock.

(** ** Enrollment

    The state of its methods is the [Enrollment] object together with the
    heap. *)

Definition pair_is (student course : addr) (e : addr * addr) : bool :=
  Nat.eqb (fst e) student && Nat.eqb (snd e) course.

Definition Enrollment_is_student_enrolled (self : Enrollment) (student course : addr) : bool :=
  existsb (pair_is student course) (enrollments_ self).

Definition on_heap {A} (m : M Heap A) : M (Enrollment * Heap) A :=
  zoom snd (fun h s => (fst s, h)) m.
Definition on_self {A} (m : M Enrollment A) : M (Enrollment * Heap) A :=
  zoom fst (fun e s => (e, snd s)) m.

(** The names interpolated into the messages of [Enrollment]. *)
Definition names_of (student course : addr) : M (Enrollment * Heap) (pyval * pyval) :=
  st <~ get ;;
  s <~ lift (deref (student_objs (snd st)) student) ;;
  c <~ lift (deref (course_objs (snd st)) course) ;;
  ret (name (s_person s), course_name c).

Definition Enrollment_enroll_student (student course : addr) : M (Enrollment * Heap) unit :=
  st <~ get ;;
  if negb (Enrollment_is_student_enrolled (fst st) student course) then
    on_heap (Course_add_student course student) ;;;
    on_self (modify (fun e => mkEnrollment (enrollments_ e ++ [(student, course)]))) ;;;
    n <~ names_of student course ;;
    print (MsgEnrolled (fst n) (snd n))
  else
    n <~ names_of student course ;;
    print (MsgAlreadyEnrolled (fst n) (snd n)).

(** [list.remove]: drop the first element equal to the given one. *)
Fixpoint remove_first (student course : addr) (l : list (addr * addr)) : list (addr * addr) :=
  match l with
  | [] => []
  | e :: l' => if pair_is student course e then l' else e :: remove_first student course l'
  end.

Definition Enrollment_unenroll_student (student course : addr) : M (Enrollment * Heap) unit :=
  st <~ get ;;
  if Enrollment_is_student_enrolled (fst st) student course then
    _ <~ lift (deref (course_objs (snd st)) course) ;;
    on_heap (Course_remove_student course student) ;;;
    on_self (modify (fun e => mkEnrollment (remove_first student course (enrollments_ e)))) ;;;
    n <~ names_of student course ;;
    print (MsgUnenrolled (fst n) (snd n))
  else
    n <~ names_of student course ;;
    print (MsgNotEnrolled (fst n) (snd n)).

(** ** Grade *)

Definition set_score (v : Q) (g : Grade) : Grade :=
  mkGrade (g_student g) (g_assignment g) v (feedback g).

(** [Grade.validate_score]: [0 <= score <= 100]. *)
Definition Grade_validate_score : M Grade unit :=
  g <~ get ;;
  if negb (Qle_bool 0 (score g) && Qle_bool (score g) 100)
  then raise (ValueError "Score must be between 0 and 100.")
  else ret tt.

(** The [score] setter assigns, then validates. *)
Definition Grade_set_score (value : Q) : M Grade unit :=
  modify (set_score value) ;;;
  Grade_validate_score.

(** [Grade.__init__]: the object is returned only if the score validates. *)
Definition Grade_init (student assignment : addr) (score : Q) (feedback : option string)
  : result Grade :=
  let r := Grade_validate_score (mkGrade student assignment score feedback) in
  _ <- outcome r ;; Ok (final r).

(** ** Announcement *)

Definition Announcement_add_recipient_group (group : string) : M Announcement unit :=
  if negb (str_isalnum group) then print (MsgGroupInvalid group)
  else
    a <~ get ;;
    if negb (str_in group (recipient_groups a)) then
      modify (fun a => mkAnnouncement (an_title a) (an_content a) (an_date a)
                                      (recipient_groups a ++ [group])) ;;;
      print (MsgGroupAdded group)
    else print (MsgGroupAlready group).

(** ** Serialization of students and instructors *)

Definition Student_to_dict (h : Heap) (s : Student) : result pyval :=
  cs <- rmap (fun a => c <- deref (course_objs h) a ;; Course_to_dict h c)
             (enrolled_courses s) ;;
  Ok (PDict [("name", name (s_person s));
             ("email", email (s_person s));
             ("contact_number", contact_number (s_person s));
             ("address", address (s_person s));
             ("student_id", student_id s);
             ("year_level", year_level s);
             ("program", program s);
             ("gpa", gpa s);
             ("birth_date", birth_date s);
             ("enrolled_courses", PList cs)]).

(** The generator [(c for c in all_courses if c.course_code == key_of())]
    taken at its first element. *)
Definition find_course (h : Heap) (all_courses : list addr) (key_of : unit -> result pyval)
  : result (option addr) :=
  next_where (fun a => c <- deref (course_objs h) a ;;
                       k <- key_of tt ;;
                       Ok (py_eq (course_code c) k))
             all_courses.

(** The loop of [Student.from_dict] over the nested course summaries. *)
Fixpoint enroll_listed (h : Heap) (all_courses : list addr) (items : list pyval)
                       (student : Student) : result Student :=
  match items with
  | [] => Ok student
  | course_data :: rest =>
      found <- find_course h all_courses
                 (fun _ => py_subscript course_data "course_code") ;;
      enroll_listed h all_courses rest
        (match found with
         | Some course => Student_enroll course student
         | None => student
         end)
  end.

Definition Student_from_dict (h : Heap) (data : pyval) (all_courses : list addr)
  : result Student :=
  n <- py_subscript data "name" ;;
  e <- py_subscript data "email" ;;
  c <- py_subscript data "contact_number" ;;
  a <- py_subscript data "address" ;;
  i <- py_subscript data "student_id" ;;
  y <- py_subscript data "year_level" ;;
  p <- py_subscript data "program" ;;
  g <- py_get data "gpa" (PNum 0) ;;
  b <- py_get data "birth_date" PNone ;;
  let student := Student_init n e c a i y p g b None (PStr "Student") in
  l <- py_get data "enrolled_courses" (PList []) ;;
  items <- py_iter l ;;
  enroll_listed h all_courses items student.

Definition Instructor_to_dict (h : Heap) (i : Instructor) : result pyval :=
  codes <- rmap (fun a => c <- deref (course_objs h) a ;; Ok (course_code c))
                (courses_taught i) ;;
  Ok (PDict [("instructor_id", instructor_id i);
             ("name", name (i_person i));
             ("email", email (i_person i));
             ("contact_number", contact_number (i_person i));
             ("address", address (i_person i));
             ("role", i_role i);
             ("courses_taught", PList codes)]).

(** ** PlatformAdmin: the repository *)

Record PlatformAdmin : Type := mkAdmin {
  students : list addr;
  instructors : list addr;
  courses : list addr;
  enrollments : list pyval
}.

(** [PlatformAdmin.__init__] *)
Definition PlatformAdmin_init : PlatformAdmin := mkAdmin [] [] [] [].

(** What a path holds: no file, text that is not JSON, or a JSON document.
    [json.dump] followed by [json.load] is the identity on [pyval].  The
    model stops at regular files that can be opened: a path that exists but
    cannot be opened, or whose bytes do not decode, has no counterpart. *)
Inductive File : Type :=
  | Absent
  | Malformed
  | Document (data : pyval).

(** What [load_data] works on: the objects and the repository [self]. *)
Record Repo : Type := mkRepo {
  heap : Heap;
  admin : PlatformAdmin
}.

Record Platform : Type := mkPlatform {
  repo : Repo;
  disk : string -> File
}.

Definition set_heap (h : Heap) (w : Repo) : Repo := mkRepo h (admin w).
Definition set_admin (a : PlatformAdmin) (w : Repo) : Repo := mkRepo (heap w) a.
Definition set_repo (r : Repo) (w : Platform) : Platform := mkPlatform r (disk w).
Definition write_file (filename : string) (f : File) (w : Platform) : Platform :=
  mkPlatform (repo w) (fun p => if String.eqb p filename then f else disk w p).

Definition set_students (l : list addr) (a : PlatformAdmin) : PlatformAdmin :=
  mkAdmin l (instructors a) (courses a) (enrollments a).
Definition set_instructors (l : list addr) (a : PlatformAdmin) : PlatformAdmin :=
  mkAdmin (students a) l (courses a) (enrollments a).
Definition set_courses (l : list addr) (a : PlatformAdmin) : PlatformAdmin :=
  mkAdmin (students a) (instructors a) l (enrollments a).
Definition set_enrollments (l : list pyval) (a : PlatformAdmin) : PlatformAdmin :=
  mkAdmin (students a) (instructors a) (courses a) l.

Definition on_admin (f : PlatformAdmin -> PlatformAdmin) : M Repo unit :=
  modify (fun w => set_admin (f (admin w)) w).
Definition on_objects (f : Heap -> Heap) : M Repo unit :=
  modify (fun w => set_heap (f (heap w)) w).

(** The addresses of [n] objects allocated after [base] existing ones. *)
Definition fresh (base n : nat) : list addr := seq base n.

(** *** Phase 1: instructors *)
Definition load_instructors (data : pyval) : M Repo unit :=
  recs <~ lift (py_get data "instructors" (PList [])) ;;
  items <~ lift (py_iter recs) ;;
  objs <~ lift (rmap Instructor_kwargs items) ;;
  w <~ get ;;
  on_objects (set_instructor_objs (instructor_objs (heap w) ++ objs)) ;;;
  on_admin (set_instructors (fresh (length (instructor_objs (heap w))) (length objs))).

(** [next((i for i in self.instructors if i.instructor_id == instructor_id), None)] *)
Definition find_instructor (h : Heap) (all : list addr) (instructor_id_ : pyval)
  : result (option addr) :=
  next_where (fun a => i <- deref (instructor_objs h) a ;;
                       Ok (py_eq (instructor_id i) instructor_id_))
             all.

(** *** Phase 2: courses *)
Definition load_course (course_data : pyval) : M Repo unit :=
  instructor_id_ <~ lift (py_get course_data "instructor_id" PNone) ;;
  w <~ get ;;
  instructor_obj <~ lift (find_instructor (heap w) (instructors (admin w)) instructor_id_) ;;
  match instructor_obj with
  | None =>
      nm <~ lift (py_get course_data "course_name" (PStr "Unknown")) ;;
      print (MsgWarnInstructorNotFound instructor_id_ nm)
  | Some i =>
      cn <~ lift (py_subscript course_data "course_name") ;;
      cc <~ lift (py_subscript course_data "course_code") ;;
      un <~ lift (py_subscript course_data "units") ;;
      let course_obj := Course_init cn cc i un in
      on_objects (set_course_objs (course_objs (heap w) ++ [course_obj])) ;;;
      on_admin (fun a => set_courses (courses a ++ [length (course_objs (heap w))]) a)
  end.

Definition load_courses (data : pyval) : M Repo unit :=
  on_admin (set_courses []) ;;;
  recs <~ lift (py_get data "courses" (PList [])) ;;
  items <~ lift (py_iter recs) ;;
  for_each load_course items.

(** *** Phase 3: students *)
Definition load_students (data : pyval) : M Repo unit :=
  recs <~ lift (py_get data "students" (PList [])) ;;
  items <~ lift (py_iter recs) ;;
  w <~ get ;;
  objs <~ lift (rmap (fun student_data =>
                        Student_from_dict (heap w) student_data (courses (admin w)))
                     items) ;;
  on_objects (set_student_objs (student_objs (heap w) ++ objs)) ;;;
  on_admin (set_students (fresh (length (student_objs (heap w))) (length objs))).

(** [next((s for s in self.students if s.student_id == key_of()), None)] *)
Definition find_student (h : Heap) (all : list addr) (key_of : unit -> result pyval)
  : result (option addr) :=
  next_where (fun a => s <- deref (student_objs h) a ;;
                       k <- key_of tt ;;
                       Ok (py_eq (student_id s) k))
             all.

(** *** Phase 4: enrollments *)
Definition load_enrollment (enrollment_data : pyval) : M Repo unit :=
  w <~ get ;;
  student_obj <~ lift (find_student (heap w) (students (admin w))
                         (fun _ => py_subscript enrollment_data "student_id")) ;;
  course_obj <~ lift (find_course (heap w) (courses (admin w))
                        (fun _ => py_subscript enrollment_data "course_code")) ;;
  match student_obj, course_obj with
  | Some s, Some c =>
      on_objects (update_student s (Student_enroll c)) ;;;
      on_objects (update_course c (fun co =>
                    set_enrolled_students (enrolled_students co ++ [s]) co))
  | _, _ =>
      (if student_obj is None then
         k <~ lift (py_subscript enrollment_data "student_id") ;;
         print (MsgWarnStudentNotFound k)
       else ret tt) ;;;
      (if course_obj is None then
         k <~ lift (py_subscript enrollment_data "course_code") ;;
         print (MsgWarnCourseNotFound k)
       else ret tt)
  end.

Definition load_enrollments (data : pyval) : M Repo unit :=
  on_admin (set_enrollments []) ;;;
  recs <~ lift (py_get data "enrollments" (PList [])) ;;
  items <~ lift (py_iter recs) ;;
  for_each load_enrollment items.

(** *** Phase 5: schedules *)
Definition load_schedule (schedule_data : pyval) : M Repo unit :=
  w <~ get ;;
  course_obj <~ lift (find_course (heap w) (courses (admin w))
                        (fun _ => py_subscript schedule_data "course_code")) ;;
  match course_obj with
  | Some c =>
      d <~ lift (py_subscript schedule_data "day") ;;
      t <~ lift (py_subscript schedule_data "time") ;;
      on_objects (update_course c (set_schedule (Some (mkSchedule c d t))))
  | None =>
      k <~ lift (py_subscript schedule_data "course_code") ;;
      print (MsgWarnScheduleCourseNotFound k)
  end.

Definition load_schedules (data : pyval) : M Repo unit :=
  recs <~ lift (py_get data "schedules" (PList [])) ;;
  items <~ lift (py_iter recs) ;;
  for_each load_schedule items.

(** The five phases, in the order of the source. *)
Definition load_document (data : pyval) : M Repo unit :=
  load_instructors data ;;;
  load_courses data ;;;
  load_students data ;;;
  load_enrollments data ;;;
  load_schedules data.

(** [PlatformAdmin.load_data]: one [try] around the whole load. *)
Definition load_data (filename : string) : M Platform unit :=
  try_except
    (w <~ get ;;
     match disk w filename with
     | Absent => print (MsgFileNotFoundStartEmpty filename)
     | Malformed => raise JSONDecodeError
     | Document data => zoom repo set_repo (load_document data)
     end)
    (fun e => match e with
              | JSONDecodeError => print MsgLoadJSONDecodeError
              | FileNotFoundError => print (MsgLoadFileNotFound filename)
              | _ => print (MsgLoadUnexpected e)
              end).

(** *** Saving *)

(** [[{...} for student in self.students for course in student.enrolled_courses]] *)
Definition enrollment_rows (h : Heap) (all : list addr) : result (list pyval) :=
  rows <- rmap (fun a =>
                  s <- deref (student_objs h) a ;;
                  rmap (fun ca => c <- deref (course_objs h) ca ;;
                                  Ok (PDict [("student_id", student_id s);
                                             ("course_code", course_code c)]))
                       (enrolled_courses s))
               all ;;
  Ok (concat rows).

(** [[{...} for course in self.courses if hasattr(course, 'schedule') and course.schedule]] *)
Definition schedule_rows (h : Heap) (all : list addr) : result (list pyval) :=
  rows <- rmap (fun a =>
                  c <- deref (course_objs h) a ;;
                  Ok (match schedule c with
                      | Some sch => [PDict [("course_code", course_code c);
                                            ("day", day sch); ("time", time sch)]]
                      | None => []
                      end))
               all ;;
  Ok (concat rows).

Definition saved_document (h : Heap) (a : PlatformAdmin) : result pyval :=
  ss <- rmap (fun x => s <- deref (student_objs h) x ;; Student_to_dict h s) (students a) ;;
  is_ <- rmap (fun x => i <- deref (instructor_objs h) x ;; Instructor_to_dict h i)
              (instructors a) ;;
  cs <- rmap (fun x => c <- deref (course_objs h) x ;; Course_to_dict h c) (courses a) ;;
  es <- enrollment_rows h (students a) ;;
  sch <- schedule_rows h (courses a) ;;
  Ok (PDict [("students", PList ss); ("instructors", PList is_); ("courses", PList cs);
             ("enrollments", PList es); ("schedules", PList sch)]).

(** [PlatformAdmin.save_data].  The document is built before the file is
    opened.  The path is taken to be writable, and [json.dump] does not
    fail on values of [pyval], so that the write is one step; a write that
    fails after the file was truncated has no counterpart. *)
Definition save_data (filename : string) : M Platform unit :=
  try_except
    (w <~ get ;;
     data <~ lift (saved_document (heap (repo w)) (admin (repo w))) ;;
     modify (write_file filename (Document data)) ;;;
     print (MsgSaved filename))
    (fun e => print (MsgSaveError e)).

(** ** Object creation

    [Student(...)] and [Instructor(...)]: a new object is allocated and
    initialised by [__init__]; the call returns its address. *)

Definition Student_new (name email contact_number address
                        student_id year_level program gpa birth_date : pyval)
                       (enrolled : option (list addr)) (role : pyval) : M Heap addr :=
  h <~ get ;;
  modify (set_student_objs
            (student_objs h ++ [Student_init name email contact_number address student_id
                                             year_level program gpa birth_date enrolled role])) ;;;
  ret (length (student_objs h)).

Definition Instructor_new (name email contact_number address instructor_id role : pyval)
  : M Heap addr :=
  h <~ get ;;
  modify (set_instructor_objs
            (instructor_objs h ++ [Instructor_init name email contact_number address
                                                   instructor_id role])) ;;;
  ret (length (instructor_objs h)).

(** [d[key] = v] on the entries of a dictionary. *)
Fixpoint dict_set (key : string) (v : pyval) (d : list (string * pyval))
  : list (string * pyval) :=
  match d with
  | [] => [(key, v)]
  | (k, x) :: d' => if String.eqb key k then (k, v) :: d' else (k, x) :: dict_set key v d'
  end.

(** The parameters of [Student.from_dict] that it reads with a subscript. *)
Definition student_required : list string :=
  ["name"; "email"; "contact_number"; "address"; "student_id"; "year_level"; "program"].

(** The course code behind a reference, if the reference is live. *)
Definition code_at (h : Heap) (a : addr) : option pyval :=
  course_code <$> course_objs h !! a.

Definition empty_heap : Heap := mkHeap [] [] [] [].

(** A computation keeps [f] when the final state has the value of [f] it
    started with, whether it returns or raises. *)
Definition keeps {S A T} (f : S -> T) (m : M S A) : Prop :=
  forall s, f (final (m s)) = f s.

(** What the handlers of [load_data] print for the outcome of the load. *)
Definition load_report (filename : string) (res : result unit) : list Msg :=
  match res with
  | Ok _ => []
  | Raise JSONDecodeError => [MsgLoadJSONDecodeError]
  | Raise FileNotFoundError => [MsgLoadFileNotFound filename]
  | Raise e => [MsgLoadUnexpected e]
  end.

(** The phases after the courses. *)
Definition load_rest (data : pyval) : M Repo unit :=
  load_students data ;;;
  load_enrollments data ;;;
  load_schedules data.

(** The exceptions that the generic handler of [load_data] reports. *)
Definition ordinary (e : exn) : Prop :=
  match e with
  | JSONDecodeError | FileNotFoundError => False
  | _ => True
  end.

Definition raises_ordinary {A} (r : result A) : Prop :=
  match r with Ok _ => True | Raise e => ordinary e end.

(** What the schedules phase cannot change, whether it completes or raises. *)
Definition links (s : Repo) :=
  (admin s, instructor_objs (heap s), student_objs (heap s),
   (fun c => (course_code c, instructor c, enrolled_students c)) <$> course_objs (heap s)).

(** [all(k in d for k in keys)] *)
Definition has_keys (d : list (string * pyval)) (keys : list string) : bool :=
  forallb (fun k => match assoc k d with Some _ => true | None => false end) keys.

(** ** Further methods of the classes above *)

(** [Enrollment.get_courses_by_student] and [Enrollment.get_students_by_course] *)
Definition Enrollment_get_courses_by_student (self : Enrollment) (student : addr)
  : list addr :=
  map snd (List.filter (fun e => Nat.eqb (fst e) student) (enrollments_ self)).

Definition Enrollment_get_students_by_course (self : Enrollment) (course : addr)
  : list addr :=
  map fst (List.filter (fun e => Nat.eqb (snd e) course) (enrollments_ self)).

(** [Announcement.is_recipient] *)
Definition Announcement_is_recipient (self : Announcement) (group : string) : bool :=
  str_in group (recipient_groups self).

(** [Announcement.add_recipient_groups] *)
Definition Announcement_add_recipient_groups (groups : list string) : M Announcement unit :=
  for_each Announcement_add_recipient_group groups.

Section Formatting.
(** [str(v)] as an f-string interpolates it. *)
Variable py_str : pyval -> string.

(** [Schedule.to_dict] *)
Definition Schedule_to_dict (h : Heap) (s : Schedule) : result pyval :=
  c <- deref (course_objs h) (sch_course s) ;;
  Ok (PDict [("course", course_code c); ("day", day s); ("time", time s)]).

(** [Schedule.from_dict] *)
Definition Schedule_from_dict (h : Heap) (data : pyval) (all_courses : list addr)
  : result Schedule :=
  course <- find_course h all_courses (fun _ => py_subscript data "course") ;;
  match course with
  | None =>
      k <- py_subscript data "course" ;;
      Raise (ValueError ("Course with code " ++ py_str k ++ " not found.")%string)
  | Some c =>
      d <- py_subscript data "day" ;;
      t <- py_subscript data "time" ;;
      Ok (mkSchedule c d t)
  end.
End Formatting.

(** A computation preserves [P] when [P] holds of the final state whenever it
    held of the initial one, whether the computation returns or raises. *)
Definition preserves {S A} (P : S -> Prop) (m : M S A) : Prop :=
  forall s, P s -> P (final (m s)).

(** Referential integrity of a repository: every course of the collection
    is a live object whose instructor is in the instructor collection, and
    every student of the collection is a live object enrolled only in
    courses of the collection, in each at most once. *)
Definition courses_have_instructors (s : Repo) : Prop :=
  forall ca, ca ∈ courses (admin s) ->
    exists c, course_objs (heap s) !! ca = Some c /\ instructor c ∈ instructors (admin s).

Definition students_enrolled_in_collection (s : Repo) : Prop :=
  forall sa, sa ∈ students (admin s) ->
    exists st, student_objs (heap s) !! sa = Some st /\
               NoDup (enrolled_courses st) /\
               forall ca, ca ∈ enrolled_courses st -> ca ∈ courses (admin s).

(** What a loaded student is: the persisted fields, the default role and no
    enrolled course. *)
Definition as_loaded (s : Student) : Student :=
  Student_init (name (s_person s)) (email (s_person s)) (contact_number (s_person s))
               (address (s_person s)) (student_id s) (year_level s) (program s)
               (gpa s) (birth_date s) None (PStr "Student").

(** What [Student.to_dict] yields for a student enrolled in nothing. *)
Definition student_record (s : Student) : pyval :=
  PDict [("name", name (s_person s)); ("email", email (s_person s));
         ("contact_number", contact_number (s_person s)); ("address", address (s_person s));
         ("student_id", student_id s); ("year_level", year_level s);
         ("program", program s); ("gpa", gpa s); ("birth_date", birth_date s);
         ("enrolled_courses", PList [])].

(** The parts of a repository that the integrity of its courses, and of
    its students, depends on. *)
Definition course_links (s : Repo) :=
  (courses (admin s), instructors (admin s), instructor <$> course_objs (heap s)).

Definition student_links (s : Repo) :=
  (students (admin s), courses (admin s), student_objs (heap s)).

(** ** The console

    The methods below report in lines of their own.  Such a method runs on
    its objects paired with the console, to which [say] appends a line. *)

Inductive Line : Type :=
  (* Instructor.teach_course *)
  | LineCourseAdded (course_name instructor_name : pyval)
  | LineAlreadyTeaching (instructor_name course_name : pyval)
  (* Instructor.assign_assignment *)
  | LineCourseNotTaught (title : string) (instructor_name : pyval)
  | LineAssigned (title : string) (instructor_name : pyval)
  | LineAlreadyAssigned (title : string)
  (* Course.add_grade *)
  | LineGradeExists (student_name : pyval) (title : string)
  | LineGradeAdded (course_name : pyval) (grade : Grade)
  (* Course._handle_grade_input *)
  | LineGradeEntered (student_name : pyval) (title : string)
  | LineInvalidScore
  (* Assignment.add_grade *)
  | LineGradeOutOfRange
  | LineStudentGradeExists (student_id : string)
  | LineScoreAdded (grade : Q) (student_id title : string)
  (* Announcement.remove_recipient_group *)
  | LineGroupRemoved (group : string)
  | LineGroupNotFound (group : string)
  (* PlatformAdmin.admin_login *)
  | LineLoginSuccessful
  | LineLoginDenied
  | LineNoDataFile
  | LineLoginJSONDecodeError
  | LineLoginUnexpected (e : exn).

Definition Console (S : Type) : Type := (S * list Line)%type.

Definition say {S} (l : Line) : M (Console S) unit :=
  modify (fun st => (fst st, snd st ++ [l])).

(** A computation on the objects leaves the console alone. *)
Definition on_state {S A} (m : M S A) : M (Console S) A :=
  zoom fst (fun s st => (s, snd st)) m.

(** ** Instructor: the courses taught and the assignments given *)

Definition set_courses_taught (l : list addr) (i : Instructor) : Instructor :=
  mkInstructor (i_person i) (instructor_id i) (i_role i) l (i_assignments i) (i_course i).
Definition set_i_assignments (l : list addr) (i : Instructor) : Instructor :=
  mkInstructor (i_person i) (instructor_id i) (i_role i) (courses_taught i) l (i_course i).

Definition update_instructor (a : addr) (f : Instructor -> Instructor) (h : Heap) : Heap :=
  match instructor_objs h !! a with
  | Some i => set_instructor_objs (<[a := f i]> (instructor_objs h)) h
  | None => h
  end.

(** [Instructor.teach_course] *)
Definition Instructor_teach_course (self course : addr) : M (Console Heap) unit :=
  st <~ get ;;
  i <~ lift (deref (instructor_objs (fst st)) self) ;;
  if negb (addr_in course (courses_taught i)) then
    on_state (modify (update_instructor self
                        (set_courses_taught (courses_taught i ++ [course])))) ;;;
    c <~ lift (deref (course_objs (fst st)) course) ;;
    say (LineCourseAdded (course_name c) (name (i_person i)))
  else
    c <~ lift (deref (course_objs (fst st)) course) ;;
    say (LineAlreadyTeaching (name (i_person i)) (course_name c)).

(** [Instructor.assign_assignment]: the course of the assignment has to be
    one that the instructor teaches. *)
Definition Instructor_assign_assignment (self assignment : addr) : M (Console Heap) unit :=
  st <~ get ;;
  i <~ lift (deref (instructor_objs (fst st)) self) ;;
  a <~ lift (deref (assignment_objs (fst st)) assignment) ;;
  if negb (addr_in (a_course a) (courses_taught i)) then
    say (LineCourseNotTaught (Assignment_title a) (name (i_person i)))
  else if negb (addr_in assignment (i_assignments i)) then
    on_state (modify (update_instructor self
                        (set_i_assignments (i_assignments i ++ [assignment])))) ;;;
    say (LineAssigned (Assignment_title a) (name (i_person i)))
  else
    say (LineAlreadyAssigned (Assignment_title a)).

(** ** Grades of a course and of an assignment *)

(** [hash(v)] raises for lists and dictionaries. *)
Definition hashable (v : pyval) : bool :=
  match v with
  | PList _ | PDict _ => false
  | _ => true
  end.

(** Equality of the keys [(student_id, title)] of [Course.grades]. *)
Definition grade_key_is (student_id : pyval) (title : string)
                        (e : pyval * string * Grade) : bool :=
  py_eq (fst (fst e)) student_id && String.eqb (snd (fst e)) title.

Definition set_c_grades (l : list (pyval * string * Grade)) (c : Course) : Course :=
  mkCourse (course_name c) (course_code c) (instructor c) (c_students c) (units c)
           (assignments c) l (enrolled_students c) (discussion_threads c) (schedule c).

(** [Course.add_grade]: the dictionary [grades] is keyed by the student's id
    and the assignment's title; an existing key is never overwritten. *)
Definition Course_add_grade (self : addr) (grade : Grade) : M (Console Heap) unit :=
  st <~ get ;;
  c <~ lift (deref (course_objs (fst st)) self) ;;
  s <~ lift (deref (student_objs (fst st)) (g_student grade)) ;;
  a <~ lift (deref (assignment_objs (fst st)) (g_assignment grade)) ;;
  if negb (hashable (student_id s)) then raise TypeError
  else if existsb (grade_key_is (student_id s) (Assignment_title a)) (c_grades c) then
    say (LineGradeExists (name (s_person s)) (Assignment_title a))
  else
    on_state (modify (update_course self
                        (set_c_grades (c_grades c ++
                                       [(student_id s, Assignment_title a, grade)])))) ;;;
    say (LineGradeAdded (course_name c) grade).

Definition set_a_grades (l : list pyval) (a : Assignment) : Assignment :=
  mkAssignment (Assignment_title a) (description a) (Assignment_due_date a) (a_course a) l.

Definition update_assignment (a : addr) (f : Assignment -> Assignment) (h : Heap) : Heap :=
  match assignment_objs h !! a with
  | Some x => set_assignment_objs (<[a := f x]> (assignment_objs h)) h
  | None => h
  end.

(** The dictionary that [Assignment.add_grade] stores. *)
Definition grade_entry (grade : Q) (student_id feedback : string) : pyval :=
  PDict [("score", PNum grade); ("student_id", PStr student_id);
         ("feedback", PStr feedback)].

(** [Assignment.add_grade(grade, feedback='', student_id='')] *)
Definition Assignment_add_grade (self : addr) (grade : Q) (feedback student_id : string)
  : M (Console Heap) unit :=
  if negb (Qle_bool 0 grade && Qle_bool grade 100) then say LineGradeOutOfRange
  else
    st <~ get ;;
    a <~ lift (deref (assignment_objs (fst st)) self) ;;
    dup <~ lift (next_where (fun g => sid <- py_subscript g "student_id" ;;
                                      Ok (py_eq sid (PStr student_id)))
                            (a_grades a)) ;;
    match dup with
    | Some _ => say (LineStudentGradeExists student_id)
    | None =>
        on_state (modify (update_assignment self
                            (set_a_grades (a_grades a ++
                                           [grade_entry grade student_id feedback])))) ;;;
        say (LineScoreAdded grade student_id (Assignment_title a))
    end.

(** [Assignment.grade_count] *)
Definition Assignment_grade_count (a : Assignment) : nat := length (a_grades a).

Section Input.
(** [float(text)] for the text typed at the prompt: [None] stands for its
    [ValueError].  An infinity or a NaN, which no comparison places within
    [0, 100], makes [Grade] raise [ValueError] and so ends in the same
    handler, before any object is changed; it is read as [None] as well. *)
Variable float_of : string -> option Q.

(** [Course._handle_grade_input], on the grade and the feedback typed. *)
Definition Course_handle_grade_input (self student assignment : addr)
                                     (grade_text feedback_text : string)
  : M (Console Heap) unit :=
  try_except
    (match float_of grade_text with
     | None => raise (ValueError "could not convert string to float")
     | Some score =>
         grade <~ lift (Grade_init student assignment score (Some feedback_text)) ;;
         Assignment_add_grade assignment score "" "" ;;;
         Course_add_grade self grade ;;;
         st <~ get ;;
         s <~ lift (deref (student_objs (fst st)) student) ;;
         a <~ lift (deref (assignment_objs (fst st)) assignment) ;;
         say (LineGradeEntered (name (s_person s)) (Assignment_title a))
     end)
    (fun e => match e with
              | ValueError _ => say LineInvalidScore
              | _ => raise e
              end).
End Input.

(** [Student.add_grade]: the entry names the course by name and code. *)
Definition set_s_grades (l : list pyval) (s : Student) : Student :=
  mkStudent (s_person s) (student_id s) (year_level s) (program s) (gpa s)
            (birth_date s) (s_role s) (enrolled_courses s) (s_course s) l.

Definition Student_add_grade (self course : addr) (grade : pyval) : M Heap unit :=
  h <~ get ;;
  c <~ lift (deref (course_objs h) course) ;;
  s <~ lift (deref (student_objs h) self) ;;
  modify (update_student self
            (set_s_grades (s_grades s ++ [PDict [("course_name", course_name c);
                                                 ("course_code", course_code c);
                                                 ("grade", grade)]]))).

(** ** Announcement: removing a recipient group *)

(** [list.remove] on strings: the first occurrence goes. *)
Fixpoint remove_group (group : string) (l : list string) : list string :=
  match l with
  | [] => []
  | g :: l' => if String.eqb group g then l' else g :: remove_group group l'
  end.

Definition Announcement_remove_recipient_group (group : string)
  : M (Console Announcement) unit :=
  st <~ get ;;
  if str_in group (recipient_groups (fst st)) then
    on_state (modify (fun a => mkAnnouncement (an_title a) (an_content a) (an_date a)
                                              (remove_group group (recipient_groups a)))) ;;;
    say (LineGroupRemoved group)
  else say (LineGroupNotFound group).

(** ** Signing in as administrator *)

(** [admin["email"] == email and admin["password"] == password] *)
Definition admin_matches (email password : string) (admin : pyval) : result bool :=
  e <- py_subscript admin "email" ;;
  if py_eq e (PStr email) then
    p <- py_subscript admin "password" ;;
    Ok (py_eq p (PStr password))
  else Ok false.

(** [PlatformAdmin.admin_login], on the email and the password typed; the
    accounts are read from [data.json]. *)
Definition admin_login (email password : string) : M (Console Platform) bool :=
  try_except
    (st <~ get ;;
     match disk (fst st) "data.json" with
     | Absent => say LineNoDataFile ;;; ret false
     | Malformed => raise JSONDecodeError
     | Document data =>
         admins <~ lift (py_get data "admins" (PList [])) ;;
         items <~ lift (py_iter admins) ;;
         found <~ lift (next_where (admin_matches email password) items) ;;
         match found with
         | Some _ => say LineLoginSuccessful ;;; ret true
         | None => say LineLoginDenied ;;; ret false
         end
     end)
    (fun e => match e with
              | JSONDecodeError => say LineLoginJSONDecodeError ;;; ret false
              | _ => say (LineLoginUnexpected e) ;;; ret false
              end).

(** ** Invariants of the lists and grade books *)

(** Consistency of an instructor's lists: neither repeats an entry, and
    every assignment given is a live object of a course taught. *)
Definition assigns_for_taught_courses (self : addr) (h : Heap) : Prop :=
  exists i, instructor_objs h !! self = Some i /\
    NoDup (courses_taught i) /\ NoDup (i_assignments i) /\
    forall a, a ∈ i_assignments i ->
      exists x, assignment_objs h !! a = Some x /\ a_course x ∈ courses_taught i.

(** The keys of a course's grade book are pairwise different: no entry has
    the key of an earlier one. *)
Definition grade_keys_distinct (l : list (pyval * string * Grade)) : Prop :=
  forall l1 e l2, l = l1 ++ e :: l2 ->
    existsb (grade_key_is (fst (fst e)) (snd (fst e))) l1 = false.

(** The grades of an assignment as [Assignment.add_grade] enters them, from
    rows of score, student id and feedback. *)
Definition grade_rows (rows : list (Q * string * string)) : list pyval :=
  (fun r => grade_entry (fst (fst r)) (snd (fst r)) (snd r)) <$> rows.

Definition row_ids (rows : list (Q * string * string)) : list string :=
  (fun r => snd (fst r)) <$> rows.

Definition row_in_range (r : Q * string * string) : Prop :=
  (0 <= fst (fst r))%Q /\ (fst (fst r) <= 100)%Q.

(** ** What is saved, and what is loaded *)

(** What [save_data] reads of a student and of a course: everything but
    the recorded grades. *)
Definition persisted_student (s : Student) : Student := set_s_grades [] s.
Definition persisted_course (c : Course) : Course := set_c_grades [] c.

(** Two heaps that differ at most in recorded grades and in assignments. *)
Definition same_persisted (h h' : Heap) : Prop :=
  instructor_objs h' = instructor_objs h /\
  persisted_course <$> course_objs h' = persisted_course <$> course_objs h /\
  persisted_student <$> student_objs h' = persisted_student <$> student_objs h.

(** What the phases of [load_data] after the first leave alone, and what
    the first establishes: instructors that teach and give nothing. *)
Definition instructor_side (s : Repo) :=
  (instructors (admin s), instructor_objs (heap s)).

Definition instructors_teach_nothing (s : Repo) : Prop :=
  forall ia, ia ∈ instructors (admin s) ->
    exists i, instructor_objs (heap s) !! ia = Some i /\
              courses_taught i = [] /\ i_assignments i = [].

(** ** Assignments and the clock *)

(** [datetime.__gt__]: a naive and an aware value do not compare. *)
Definition datetime_gt (a b : datetime) : result bool :=
  match utcoffset a, utcoffset b with
  | None, None => Ok (Z.ltb (ticks b) (ticks a))
  | Some x, Some y => Ok (Z.ltb (ticks b - y) (ticks a - x))
  | _, _ => Raise TypeError
  end.

(** [Assignment.is_overdue], at the clock reading [now]. *)
Definition Assignment_is_overdue (now : Z) (a : Assignment) : result bool :=
  datetime_gt (mkDatetime now None) (Assignment_due_date a).

(** ** The courses phase, record by record *)








(** * Properties *)

(** ** Laws of the effect monad *)

Lemma run_eta {S A} (r : run S A) : Run (final r) (printed r) (outcome r) = r.
Proof. by destruct r. Qed.

Lemma bind_ret {S A B} (a : A) (k : A -> M S B) (s : S) : bind (ret a) k s = k a s.
Proof. unfold bind, ret; cbn. apply run_eta. Qed.

Lemma bind_raise {S A B} (e : exn) (k : A -> M S B) (s : S) :
  bind (raise e) k s = Run s [] (Raise e).
Proof. done. Qed.

Lemma bind_lift_Ok {S A B} (a : A) (k : A -> M S B) (s : S) : bind (lift (Ok a)) k s = k a s.
Proof. apply bind_ret. Qed.

Lemma bind_lift_Raise {S A B} (e : exn) (k : A -> M S B) (s : S) :
  bind (lift (Raise e)) k s = Run s [] (Raise e).
Proof. done. Qed.

Lemma bind_get {S B} (k : S -> M S B) (s : S) : bind get k s = k s s.
Proof. unfold bind, get; cbn. apply run_eta. Qed.

Lemma bind_modify {S B} (g : S -> S) (k : unit -> M S B) (s : S) :
  bind (modify g) k s = k tt (g s).
Proof. unfold bind, modify; cbn. apply run_eta. Qed.

Lemma bind_print {S B} (m : Msg) (k : unit -> M S B) (s : S) :
  bind (print m) k s = Run (final (k tt s)) (m :: printed (k tt s)) (outcome (k tt s)).
Proof. done. Qed.

Lemma bind_assoc {S A B C} (m : M S A) (k : A -> M S B) (k' : B -> M S C) (s : S) :
  bind (bind m k) k' s = bind m (fun a => bind (k a) k') s.
Proof.
  unfold bind. destruct (outcome (m s)) as [a|e]; cbn; [|done].
  destruct (outcome (k a (final (m s)))); cbn; [|done].
  by rewrite app_assoc.
Qed.

Lemma bind_ret_tt {S} (m : M S unit) (s : S) : bind m (fun _ => ret tt) s = m s.
Proof.
  unfold bind, ret. destruct (m s) as [s1 o1 [[]|e]]; cbn; [|done].
  by rewrite app_nil_r.
Qed.

Lemma bind_run_Ok {S A B} (m : M S A) (k : A -> M S B) (s s1 : S) (o1 : list Msg) (a : A) :
  m s = Run s1 o1 (Ok a) ->
  bind m k s = Run (final (k a s1)) (o1 ++ printed (k a s1)) (outcome (k a s1)).
Proof. intros H. unfold bind. by rewrite H. Qed.

Lemma bind_run_Raise {S A B} (m : M S A) (k : A -> M S B) (s s1 : S) (o1 : list Msg) (e : exn) :
  m s = Run s1 o1 (Raise e) ->
  bind m k s = Run s1 o1 (Raise e).
Proof. intros H. unfold bind. by rewrite H. Qed.

Lemma try_except_Ok {S A} (m : M S A) (h : exn -> M S A) (s s1 : S) (o1 : list Msg) (a : A) :
  m s = Run s1 o1 (Ok a) -> try_except m h s = Run s1 o1 (Ok a).
Proof. intros H. unfold try_except. by rewrite H. Qed.

Lemma try_except_Raise {S A} (m : M S A) (h : exn -> M S A) (s s1 : S) (o1 : list Msg) (e : exn) :
  m s = Run s1 o1 (Raise e) ->
  try_except m h s = Run (final (h e s1)) (o1 ++ printed (h e s1)) (outcome (h e s1)).
Proof. intros H. unfold try_except. by rewrite H. Qed.

Lemma zoom_run {S T A} (proj : S -> T) (inj : T -> S -> S) (m : M T A) (s : S) :
  zoom proj inj m s = Run (inj (final (m (proj s))) s) (printed (m (proj s)))
                          (outcome (m (proj s))).
Proof. done. Qed.

Lemma on_admin_run {B} (f : PlatformAdmin -> PlatformAdmin) (k : unit -> M Repo B) w :
  bind (on_admin f) k w = k tt (set_admin (f (admin w)) w).
Proof. unfold on_admin. by rewrite bind_modify. Qed.

Lemma on_objects_run {B} (f : Heap -> Heap) (k : unit -> M Repo B) w :
  bind (on_objects f) k w = k tt (set_heap (f (heap w)) w).
Proof. unfold on_objects. by rewrite bind_modify. Qed.

Create Rewrite HintDb run.
#[local] Hint Rewrite @bind_ret @bind_raise @bind_lift_Ok @bind_lift_Raise @bind_get
  @bind_modify @on_admin_run @on_objects_run @bind_assoc @bind_ret_tt : run.

Ltac run_simp :=
  repeat (progress (autorewrite with run; cbn [rbind py_iter final printed outcome])).

(** ** Grade *)

Lemma Qle_bool_false (x y : Q) : Qle_bool x y = false <-> ~ (x <= y)%Q.
Proof.
  rewrite <- Qle_bool_iff. destruct (Qle_bool x y); split; intros H; done.
Qed.

(** C10. The [score] setter is not atomic on error: for a value outside
    [0, 100] it raises [ValueError], and the grade is left holding that
    invalid value (the other fields are untouched). *)
Theorem score_setter_stores_before_validating (g : Grade) (v : Q) :
  ~ (0 <= v /\ v <= 100)%Q ->
  let r := Grade_set_score v g in
  outcome r = Raise (ValueError "Score must be between 0 and 100.") /\
  printed r = [] /\
  final r = mkGrade (g_student g) (g_assignment g) v (feedback g).
Proof.
  intros Hout.
  assert (Hb : Qle_bool 0 v && Qle_bool v 100 = false).
  { apply andb_false_iff.
    destruct (Qle_bool 0 v) eqn:E0; [right | by left].
    apply Qle_bool_false. intros Hle. apply Hout. split; [|done].
    by apply Qle_bool_iff. }
  unfold Grade_set_score, Grade_validate_score, bind, modify, get, set_score; simpl.
  rewrite Hb. simpl. done.
Qed.

Lemma score_setter_stores_before_validating_witness :
  let g := mkGrade 0 0 (90 # 1) None in
  let r := Grade_set_score (150 # 1) g in
  outcome r = Raise (ValueError "Score must be between 0 and 100.") /\
  printed r = [] /\
  final r = mkGrade 0 0 (150 # 1) None.
Proof.
  apply (score_setter_stores_before_validating (mkGrade 0 0 (90 # 1) None) (150 # 1)).
  intros [_ H]. vm_compute in H. by apply H.
Defined.

(** ** Announcement and DiscussionThread *)

Ltac run_step :=
  cbv beta iota delta [bind ret raise print get put modify lift zoom try_except
                       on_heap on_self on_admin on_objects];
  cbn [final printed outcome fst snd].

(** C6, as stated, at a concrete input: a group tag with a space and a post
    of spaces only raise nothing; both calls return normally. *)
Lemma invalid_group_not_raised :
  let a := mkAnnouncement "Exam week" "Rooms are posted" "2025-03-01" ["Student"] in
  let p := mkPerson (PStr "Ana") (PStr "ana@uni.edu") (PStr "09171234567") (PStr "Manila") in
  let t := mkThread 0 "Week 1" p [] (mkDatetime 0 None) in
  let r := Announcement_add_recipient_group "first year" a in
  let r' := DiscussionThread_add_post 5 p "   " t in
  (~ exists e, outcome r = Raise e) /\ outcome r = Ok tt /\
  (~ exists e, outcome r' = Raise e) /\ outcome r' = Ok tt.
Proof.
  split_and!; try reflexivity; intros [e He]; vm_compute in He; discriminate.
Qed.

(** C6 (as amended). A recipient group that is not alphanumeric, and a post
    that is empty or white space only, are refused by a printed error
    message and a normal return; no exception reaches the caller, and the
    announcement (its recipient groups) and the thread (its posts) are left
    exactly as they were. *)
Theorem invalid_group_and_empty_post_refused_by_message
    (a : Announcement) (group : string)
    (t : DiscussionThread) (now : Z) (person : Person) (message : string) :
  str_isalnum group = false ->
  is_blank message = true ->
  Announcement_add_recipient_group group a = Run a [MsgGroupInvalid group] (Ok tt) /\
  DiscussionThread_add_post now person message t = Run t [MsgEmptyPost] (Ok tt).
Proof.
  intros Hg Hm. unfold Announcement_add_recipient_group, DiscussionThread_add_post.
  rewrite Hg, Hm. done.
Qed.

Lemma invalid_group_and_empty_post_refused_by_message_witness :
  let a := mkAnnouncement "Exam week" "Rooms are posted" "2025-03-01" ["Student"] in
  let p := mkPerson (PStr "Ana") (PStr "ana@uni.edu") (PStr "09171234567") (PStr "Manila") in
  let t := mkThread 0 "Week 1" p [] (mkDatetime 0 None) in
  Announcement_add_recipient_group "first year" a = Run a [MsgGroupInvalid "first year"] (Ok tt) /\
  DiscussionThread_add_post 5 p "   " t = Run t [MsgEmptyPost] (Ok tt).
Proof.
  apply invalid_group_and_empty_post_refused_by_message; reflexivity.
Defined.

(** ** Construction and the setters *)

(** C3, as stated, at a concrete input: a student built with an empty name,
    an email without at sign, a short non-numeric contact number, a blank
    address and a GPA of 9 is created without any exception and holds those
    values, although the setters refuse each of them. *)
Lemma construction_accepts_invalid_fields :
  let r := Student_new (PStr "") (PStr "nobody") (PStr "12ab") (PStr "  ")
                       (PStr "S1") (PNum 1) (PStr "BSCS") (PNum (9 # 1)) PNone
                       None (PStr "Student") empty_heap in
  (~ exists e, outcome r = Raise e) /\
  outcome r = Ok 0 /\
  (exists s, student_objs (final r) !! 0 = Some s /\
             name (s_person s) = PStr "" /\ gpa s = PNum (9 # 1)) /\
  (forall p, outcome (Person_set_name "" p) = Raise (ValueError "Name cannot be empty.")) /\
  (forall s, outcome (Student_set_gpa (9 # 1) s)
             = Raise (ValueError "GPA must be between 0 and 4.0")).
Proof.
  repeat split.
  - intros [e He]; vm_compute in He; discriminate.
  - eexists; repeat split; reflexivity.
Qed.

(** C3 (as amended). Field validation is enforced on mutation only.
    Constructing a [Student] or an [Instructor] never raises and stores the
    given values unchecked, whatever they are; each setter raises its
    validation error, leaving the object unchanged, exactly when the value is
    an empty (blank) name or address, an email without an at sign or a dot, a
    contact number that is not all digits or is shorter than 10, or a GPA
    outside [0, 4]. *)
Theorem validation_on_setters_not_on_construction :
  (forall n e c a i y p g b enr role h,
      Student_new n e c a i y p g b enr role h
      = Run (set_student_objs
               (student_objs h ++ [mkStudent (mkPerson n e c a) i y p g b role
                                             (default [] enr) [] []]) h)
            [] (Ok (length (student_objs h)))) /\
  (forall n e c a i role h,
      Instructor_new n e c a i role h
      = Run (set_instructor_objs
               (instructor_objs h ++ [mkInstructor (mkPerson n e c a) i role [] [] []]) h)
            [] (Ok (length (instructor_objs h)))) /\
  (forall value p,
      Person_set_name value p
      = if is_blank value then Run p [] (Raise (ValueError "Name cannot be empty."))
        else Run (mkPerson (PStr value) (email p) (contact_number p) (address p)) [] (Ok tt)) /\
  (forall value p,
      Person_set_address value p
      = if is_blank value then Run p [] (Raise (ValueError "Address cannot be empty."))
        else Run (mkPerson (name p) (email p) (contact_number p) (PStr value)) [] (Ok tt)) /\
  (forall value p,
      Person_set_email value p
      = if contains_char "@" value && contains_char "." value
        then Run (mkPerson (name p) (PStr value) (contact_number p) (address p)) [] (Ok tt)
        else Run p [] (Raise (ValueError "Invalid email address."))) /\
  (forall value p,
      Person_set_contact_number value p
      = if str_isdigit value && Nat.leb 10 (String.length value)
        then Run (mkPerson (name p) (email p) (PStr value) (address p)) [] (Ok tt)
        else Run p [] (Raise (ValueError "Contact number must be at least 10 digits."))) /\
  (forall value s,
      Student_set_gpa value s
      = if Qle_bool 0 value && Qle_bool value 4
        then Run (set_gpa (PNum value) s) [] (Ok tt)
        else Run s [] (Raise (ValueError "GPA must be between 0 and 4.0"))).
Proof.
  split_and!.
  - intros n e c a i y p g b enr role h.
    unfold Student_new, Student_init, Person_init. by destruct enr.
  - done.
  - intros value p. unfold Person_set_name. by destruct (is_blank value).
  - intros value p. unfold Person_set_address. by destruct (is_blank value).
  - intros value p. unfold Person_set_email.
    by destruct (contains_char "@" value), (contains_char "." value).
  - intros value p. unfold Person_set_contact_number.
    rewrite Nat.leb_antisym.
    by destruct (str_isdigit value), (Nat.ltb (String.length value) 10).
  - intros value s. unfold Student_set_gpa. by destruct (Qle_bool 0 value && Qle_bool value 4).
Qed.

(** ** Course.assign_assignment *)

(** The two guards of [assign_assignment]: called with a malformed date
    string, or with a due date without UTC offset that is not after the
    current time, it reports the failure by a message and returns; no
    object changes, so the assignment is not added to the course's
    assignment list. *)
Theorem assign_assignment_rejects_bad_due_date
    (fromisoformat : string -> option datetime) (now : Z)
    (h : Heap) (self : addr) (title description due_date : string) :
  (fromisoformat due_date = None \/
   exists t, fromisoformat due_date = Some (mkDatetime t None) /\ (t <= now)%Z) ->
  let r := Course_assign_assignment fromisoformat now self title description due_date h in
  final r = h /\
  assignments <$> course_objs (final r) !! self = assignments <$> course_objs h !! self /\
  outcome r = Ok tt /\
  (printed r = [MsgInvalidDateFormat] \/ printed r = [MsgDueDateNotFuture]).
Proof.
  intros Hbad r.
  assert (Hr : r = Run h [MsgInvalidDateFormat] (Ok tt) \/
               r = Run h [MsgDueDateNotFuture] (Ok tt)).
  { subst r. unfold Course_assign_assignment.
    destruct Hbad as [-> | (t & -> & Hle)]; [by left | right].
    unfold datetime_le, datetime_now; cbn [utcoffset ticks].
    apply Z.leb_le in Hle. run_step. by rewrite Hle. }
  destruct Hr as [-> | ->]; cbn [final printed outcome]; auto.
Qed.

Lemma assign_assignment_rejects_bad_due_date_witness :
  let parse := fun s : string =>
                 if String.eqb s "2020-01-01T00:00:00"
                 then Some (mkDatetime 1577836800000000 None) else None in
  let c := Course_init (PStr "Logic") (PStr "CS101") 0 (PNum 3) in
  let h := mkHeap [] [c] [] [] in
  let r := Course_assign_assignment parse 1750000000000000 0 "HW1" "sets" "2020-01-01T00:00:00" h in
  final r = h /\
  assignments <$> course_objs (final r) !! 0 = assignments <$> course_objs h !! 0 /\
  outcome r = Ok tt /\
  (printed r = [MsgInvalidDateFormat] \/ printed r = [MsgDueDateNotFuture]).
Proof.
  apply assign_assignment_rejects_bad_due_date.
  right. exists 1577836800000000%Z. split; [reflexivity | lia].
Defined.

(** ** Components of the state that a computation leaves alone *)

Section Keeps.
Context {S T : Type} (f : S -> T).

Lemma keeps_ret {A} (a : A) : keeps f (ret a).
Proof. by intros s. Qed.

Lemma keeps_raise {A} (e : exn) : keeps f (@raise S A e).
Proof. by intros s. Qed.

Lemma keeps_print (m : Msg) : keeps f (print m).
Proof. by intros s. Qed.

Lemma keeps_get : keeps f get.
Proof. by intros s. Qed.

Lemma keeps_lift {A} (r : result A) : keeps f (lift r).
Proof. by destruct r; intros s. Qed.

Lemma keeps_modify (g : S -> S) : (forall s, f (g s) = f s) -> keeps f (modify g).
Proof. intros H s. apply H. Qed.

Lemma keeps_bind {A B} (m : M S A) (k : A -> M S B) :
  keeps f m -> (forall a, keeps f (k a)) -> keeps f (bind m k).
Proof.
  intros Hm Hk s. unfold bind. specialize (Hm s).
  destruct (outcome (m s)) as [a|e]; cbn; [|done].
  by rewrite Hk.
Qed.

Lemma keeps_try_except {A} (m : M S A) (h : exn -> M S A) :
  keeps f m -> (forall e, keeps f (h e)) -> keeps f (try_except m h).
Proof.
  intros Hm Hh s. unfold try_except. specialize (Hm s).
  destruct (outcome (m s)) as [a|e]; cbn; [done|].
  by rewrite Hh.
Qed.

Lemma keeps_for_each {A} (body : A -> M S unit) (l : list A) :
  (forall x, keeps f (body x)) -> keeps f (for_each body l).
Proof.
  intros Hb. induction l as [|x l IH]; cbn; [apply keeps_ret|].
  apply keeps_bind; [apply Hb | by intros _].
Qed.
End Keeps.

Lemma keeps_zoom {S T U A} (f : S -> U) (g : T -> U) (proj : S -> T) (inj : T -> S -> S)
    (m : M T A) :
  (forall s, f s = g (proj s)) ->
  (forall t s, f (inj t s) = g t) ->
  keeps g m -> keeps f (zoom proj inj m).
Proof. intros Hp Hi Hm s. unfold zoom; cbn. by rewrite Hi, Hm, Hp. Qed.

Lemma keeps_zoom_other {S T U A} (f : S -> U) (proj : S -> T) (inj : T -> S -> S)
    (m : M T A) :
  (forall t s, f (inj t s) = f s) -> keeps f (zoom proj inj m).
Proof. intros Hi s. unfold zoom; cbn. by rewrite Hi. Qed.

(** Decompose a computation along its syntax; what is left are the
    [modify] steps and the calls of other methods. *)
Ltac keeps_step :=
  match goal with
  | |- keeps _ (bind _ _) => apply keeps_bind; [|intros ?]
  | |- keeps _ (ret _) => apply keeps_ret
  | |- keeps _ (raise _) => apply keeps_raise
  | |- keeps _ (print _) => apply keeps_print
  | |- keeps _ get => apply keeps_get
  | |- keeps _ (lift _) => apply keeps_lift
  | |- keeps _ (for_each _ _) => apply keeps_for_each; intros ?
  | |- keeps _ (try_except _ _) => apply keeps_try_except; [|intros ?]
  | |- keeps _ (if ?b then _ else _) => destruct b
  | |- keeps _ (match ?x with _ => _ end) => destruct x
  end.
Ltac keeps_auto := repeat keeps_step.

(** ** Enrollment *)

Lemma update_course_students (a : addr) (f : Course -> Course) (h : Heap) :
  student_objs (update_course a f h) = student_objs h.
Proof. unfold update_course. by destruct (course_objs h !! a). Qed.

Lemma update_course_map {B} (g : Course -> B) (a : addr) (f : Course -> Course) (h : Heap) :
  (forall c, g (f c) = g c) ->
  g <$> course_objs (update_course a f h) = g <$> course_objs h.
Proof.
  intros Hg. unfold update_course. destruct (course_objs h !! a) as [c|] eqn:E; [|done].
  cbn. rewrite list_fmap_insert, Hg. apply list_insert_id.
  by rewrite list_lookup_fmap, E.
Qed.

Lemma Course_add_student_keeps_students (self student : addr) :
  keeps student_objs (Course_add_student self student).
Proof.
  unfold Course_add_student. keeps_auto.
  apply keeps_modify. intros h. apply update_course_students.
Qed.

Lemma Course_add_student_keeps_enrolled (self student : addr) :
  keeps (fun h => enrolled_students <$> course_objs h) (Course_add_student self student).
Proof.
  unfold Course_add_student. keeps_auto.
  apply keeps_modify. intros h. by apply update_course_map.
Qed.

Lemma names_of_keeps {T} (f : Enrollment * Heap -> T) (s c : addr) : keeps f (names_of s c).
Proof. unfold names_of. keeps_auto. Qed.

Lemma enroll_student_keeps {T} (g : Heap -> T) (s c : addr) :
  keeps g (Course_add_student c s) ->
  keeps (fun st => g (snd st)) (Enrollment_enroll_student s c).
Proof.
  intros Hg. unfold Enrollment_enroll_student. keeps_auto;
    try apply names_of_keeps.
  - unfold on_heap. by apply (keeps_zoom _ g).
  - unfold on_self. by apply keeps_zoom_other.
Qed.

Lemma unenroll_student_keeps_heap (s c : addr) :
  keeps snd (Enrollment_unenroll_student s c).
Proof.
  unfold Enrollment_unenroll_student. keeps_auto; try apply names_of_keeps.
  - unfold on_heap, Course_remove_student. by apply (keeps_zoom _ id).
  - unfold on_self. by apply keeps_zoom_other.
Qed.

(** C2 (the code as it is). In every state, [Enrollment.enroll_student]
    changes no student object, so the course is not added to
    [enrolled_courses], and changes no course's [enrolled_students];
    [Enrollment.unenroll_student] changes no object at all, so a student that
    [enroll_student] put on the course roster stays there. *)
Theorem enroll_student_touches_neither_side (e : Enrollment) (h : Heap) (s c : addr) :
  let r := Enrollment_enroll_student s c (e, h) in
  let r' := Enrollment_unenroll_student s c (final r) in
  student_objs (snd (final r)) = student_objs h /\
  enrolled_students <$> course_objs (snd (final r)) = enrolled_students <$> course_objs h /\
  snd (final r') = snd (final r).
Proof.
  cbn zeta. split_and!.
  - apply (enroll_student_keeps student_objs s c (Course_add_student_keeps_students c s) (e, h)).
  - apply (enroll_student_keeps _ s c (Course_add_student_keeps_enrolled c s) (e, h)).
  - apply unenroll_student_keeps_heap.
Qed.

(** The failing input of C2, evaluated: one student, one course, nothing
    enrolled.  After [enroll_student] the student's [enrolled_courses] and
    the course's [enrolled_students] are still empty (only the roster
    [_students] and the pair list changed); after [unenroll_student] the
    roster still holds the student. *)
Example enroll_then_unenroll_run :
  let i := Instructor_init (PStr "Dr. Cruz") (PStr "cruz@uni.edu") (PStr "09170000001")
                           (PStr "Manila") (PStr "I1") (PStr "Instructor") in
  let c := Course_init (PStr "Logic") (PStr "CS101") 0 (PNum 3) in
  let s := Student_init (PStr "Ana") (PStr "ana@uni.edu") (PStr "09171234567") (PStr "Manila")
                        (PStr "S1") (PNum 1) (PStr "BSCS") (PNum 0) PNone None (PStr "Student") in
  let h := mkHeap [i] [c] [s] [] in
  let r := Enrollment_enroll_student 0 0 (mkEnrollment [], h) in
  let r' := Enrollment_unenroll_student 0 0 (final r) in
  outcome r = Ok tt /\
  enrollments_ (fst (final r)) = [(0, 0)] /\
  enrolled_courses <$> student_objs (snd (final r)) = [[]] /\
  enrolled_students <$> course_objs (snd (final r)) = [[]] /\
  c_students <$> course_objs (snd (final r)) = [[0]] /\
  outcome r' = Ok tt /\
  enrollments_ (fst (final r')) = [] /\
  c_students <$> course_objs (snd (final r')) = [[0]].
Proof. vm_compute. repeat split. Qed.

(** ** Saving and reloading *)

Lemma rbind_Ok_inv {A B} (r : result A) (k : A -> result B) (b : B) :
  rbind r k = Ok b -> exists a, r = Ok a /\ k a = Ok b.
Proof. destruct r as [a|e]; cbn; [eauto | discriminate]. Qed.

Lemma Instructor_to_dict_not_accepted (h : Heap) (i : Instructor) (d : pyval) :
  Instructor_to_dict h i = Ok d -> Instructor_kwargs d = Raise TypeError.
Proof.
  unfold Instructor_to_dict. intros H.
  apply rbind_Ok_inv in H as (codes & _ & H). by injection H as <-.
Qed.

Lemma saved_document_instructors (h : Heap) (a : PlatformAdmin) (data : pyval) :
  saved_document h a = Ok data ->
  exists items,
    py_get data "instructors" (PList []) = Ok (PList items) /\
    rmap (fun x => i <- deref (instructor_objs h) x ;; Instructor_to_dict h i) (instructors a)
    = Ok items.
Proof.
  unfold saved_document. intros H.
  apply rbind_Ok_inv in H as (ss & _ & H).
  apply rbind_Ok_inv in H as (is_ & His & H).
  apply rbind_Ok_inv in H as (cs & _ & H).
  apply rbind_Ok_inv in H as (es & _ & H).
  apply rbind_Ok_inv in H as (sch & _ & H).
  injection H as <-. by exists is_.
Qed.

(** C1 (the code as it is). Whenever the repository holds at least one
    instructor and [save_data] succeeds, [load_data] on the written document
    raises [TypeError] at the first instructor record (its key
    [courses_taught] is not a parameter of [Instructor.__init__]); the
    handler reports it and nothing is loaded: the loading repository is left
    exactly as it was before the call. *)
Theorem saved_document_does_not_reload
    (w : Platform) (filename : string) (data : pyval) :
  instructors (admin (repo w)) <> [] ->
  saved_document (heap (repo w)) (admin (repo w)) = Ok data ->
  let w1 := final (save_data filename w) in
  disk w1 filename = Document data /\
  forall w2 : Platform,
    disk w2 filename = disk w1 filename ->
    load_data filename w2 = Run w2 [MsgLoadUnexpected TypeError] (Ok tt).
Proof.
  intros Hne Hdoc w1.
  assert (Hw1 : disk w1 filename = Document data).
  { subst w1. unfold save_data, try_except, bind, get, lift; cbn.
    rewrite Hdoc; cbn. by rewrite String.eqb_refl. }
  split; [done|]. intros w2 Hw2. rewrite Hw1 in Hw2.
  apply saved_document_instructors in Hdoc as (items & Hget & Hitems).
  destruct (instructors (admin (repo w))) as [|a0 rest]; [done|].
  cbn in Hitems.
  apply rbind_Ok_inv in Hitems as (d0 & Hd0 & Hitems).
  apply rbind_Ok_inv in Hd0 as (i0 & _ & Hd0).
  apply rbind_Ok_inv in Hitems as (ds & _ & Hitems). injection Hitems as <-.
  apply Instructor_to_dict_not_accepted in Hd0.
  unfold load_data.
  rewrite (try_except_Raise _ _ w2 w2 [] TypeError); [done|].
  rewrite bind_get, Hw2, zoom_run.
  assert (Hrun : load_document data (repo w2) = Run (repo w2) [] (Raise TypeError)).
  { unfold load_document. apply bind_run_Raise.
    unfold load_instructors. rewrite Hget. run_simp.
    cbn [rmap]. by rewrite Hd0. }
  rewrite Hrun. cbn. by destruct w2.
Qed.

(** The failing input of C1: a repository holding one valid instructor and
    nothing else is saved, then loaded into a new [PlatformAdmin]. *)
Lemma saved_document_does_not_reload_witness :
  let i := Instructor_init (PStr "Dr. Cruz") (PStr "cruz@uni.edu") (PStr "09170000001")
                           (PStr "Manila") (PStr "I1") (PStr "Instructor") in
  let w := mkPlatform (mkRepo (mkHeap [i] [] [] []) (mkAdmin [] [0] [] []))
                      (fun _ => Absent) in
  let data := PDict [("students", PList []);
                     ("instructors",
                      PList [PDict [("instructor_id", PStr "I1"); ("name", PStr "Dr. Cruz");
                                    ("email", PStr "cruz@uni.edu");
                                    ("contact_number", PStr "09170000001");
                                    ("address", PStr "Manila"); ("role", PStr "Instructor");
                                    ("courses_taught", PList [])]]);
                     ("courses", PList []); ("enrollments", PList []);
                     ("schedules", PList [])] in
  let w1 := final (save_data "data.json" w) in
  disk w1 "data.json" = Document data /\
  forall w2 : Platform,
    disk w2 "data.json" = disk w1 "data.json" ->
    load_data "data.json" w2 = Run w2 [MsgLoadUnexpected TypeError] (Ok tt).
Proof.
  apply saved_document_does_not_reload; [discriminate | reflexivity].
Defined.

(** ** Which exceptions the loader can raise *)

Lemma ordinary_rbind {A B} (r : result A) (k : A -> result B) :
  raises_ordinary r -> (forall a, raises_ordinary (k a)) -> raises_ordinary (rbind r k).
Proof. destruct r; cbn; auto. Qed.

Lemma ordinary_subscript (v : pyval) (key : string) : raises_ordinary (py_subscript v key).
Proof. destruct v; cbn; try done. by destruct (assoc key d). Qed.

Lemma ordinary_get (v : pyval) (key : string) (default : pyval) :
  raises_ordinary (py_get v key default).
Proof. by destruct v. Qed.

Lemma ordinary_iter (v : pyval) : raises_ordinary (py_iter v).
Proof. by destruct v. Qed.

Lemma ordinary_deref {A} (objs : list A) (a : addr) : raises_ordinary (deref objs a).
Proof. unfold deref. by destruct (objs !! a). Qed.

Lemma ordinary_next_where {A} (test : A -> result bool) (l : list A) :
  (forall x, raises_ordinary (test x)) -> raises_ordinary (next_where test l).
Proof.
  intros Ht. induction l as [|x l IH]; cbn; [done|].
  apply ordinary_rbind; [apply Ht|]. by intros [].
Qed.

Lemma ordinary_rmap {A B} (f : A -> result B) (l : list A) :
  (forall x, raises_ordinary (f x)) -> raises_ordinary (rmap f l).
Proof.
  intros Hf. induction l as [|x l IH]; cbn; [done|].
  apply ordinary_rbind; [apply Hf|]. intros y. by apply ordinary_rbind.
Qed.

Ltac ordinary_step :=
  match goal with
  | |- raises_ordinary (rbind _ _) => apply ordinary_rbind; [|intros ?]
  | |- raises_ordinary (py_subscript _ _) => apply ordinary_subscript
  | |- raises_ordinary (py_get _ _ _) => apply ordinary_get
  | |- raises_ordinary (py_iter _) => apply ordinary_iter
  | |- raises_ordinary (deref _ _) => apply ordinary_deref
  | |- raises_ordinary (next_where _ _) => apply ordinary_next_where; intros ?
  | |- raises_ordinary (rmap _ _) => apply ordinary_rmap; intros ?
  | |- raises_ordinary (Ok _) => exact I
  end.

Lemma ordinary_find_course h all key_of :
  raises_ordinary (key_of tt) -> raises_ordinary (find_course h all key_of).
Proof. intros Hk. unfold find_course. repeat ordinary_step. done. Qed.

Lemma ordinary_enroll_listed h all items student :
  raises_ordinary (enroll_listed h all items student).
Proof.
  revert student. induction items as [|x items IH]; intros student; cbn; [done|].
  apply ordinary_rbind; [|by intros ?].
  apply ordinary_find_course, ordinary_subscript.
Qed.

Lemma ordinary_from_dict h data all : raises_ordinary (Student_from_dict h data all).
Proof.
  unfold Student_from_dict. repeat ordinary_step. apply ordinary_enroll_listed.
Qed.

Lemma rmap_raises {A B} (f : A -> result B) (l : list A) (x : A) :
  x ∈ l -> (exists e, f x = Raise e) -> exists e, rmap f l = Raise e.
Proof.
  intros Hx [e He]. induction Hx as [x l|x y l Hx IH]; cbn.
  - rewrite He. cbn. eauto.
  - destruct (f y) as [b|e0]; cbn; [|eauto].
    destruct (IH He) as [e' ->]. cbn. eauto.
Qed.

Lemma from_dict_missing_key h d all k :
  k ∈ student_required -> assoc k d = None ->
  exists e, Student_from_dict h (PDict d) all = Raise e.
Proof.
  intros Hk Hnone. unfold Student_from_dict, py_subscript.
  destruct (assoc "name" d) eqn:E1; cbn [rbind]; [|eauto].
  destruct (assoc "email" d) eqn:E2; cbn [rbind]; [|eauto].
  destruct (assoc "contact_number" d) eqn:E3; cbn [rbind]; [|eauto].
  destruct (assoc "address" d) eqn:E4; cbn [rbind]; [|eauto].
  destruct (assoc "student_id" d) eqn:E5; cbn [rbind]; [|eauto].
  destruct (assoc "year_level" d) eqn:E6; cbn [rbind]; [|eauto].
  destruct (assoc "program" d) eqn:E7; cbn [rbind]; [|eauto].
  exfalso. unfold student_required in Hk.
  repeat (apply elem_of_cons in Hk as [-> | Hk]; [congruence|]).
  by apply elem_of_nil in Hk.
Qed.

(** ** What the first two phases leave alone *)

Ltac keeps_field :=
  unfold on_admin, on_objects; apply keeps_modify; intros ?; by cbn.

Lemma load_instructors_keeps_students data :
  keeps (fun w => (students (admin w), enrollments (admin w))) (load_instructors data).
Proof. unfold load_instructors. keeps_auto; keeps_field. Qed.

Lemma load_courses_keeps_students data :
  keeps (fun w => (students (admin w), enrollments (admin w))) (load_courses data).
Proof. unfold load_courses, load_course. keeps_auto; keeps_field. Qed.

Lemma load_students_raises (w : Repo) top recs d k :
  assoc "students" top = Some (PList recs) ->
  PDict d ∈ recs -> k ∈ student_required -> assoc k d = None ->
  exists e, ordinary e /\ load_students (PDict top) w = Run w [] (Raise e).
Proof.
  intros Hget Hin Hk Hnone.
  destruct (rmap_raises
              (fun student_data => Student_from_dict (heap w) student_data (courses (admin w)))
              recs (PDict d) Hin) as [e He].
  { by eapply from_dict_missing_key. }
  exists e. split.
  - pose proof (ordinary_rmap
                  (fun student_data =>
                     Student_from_dict (heap w) student_data (courses (admin w)))
                  recs (fun x => ordinary_from_dict _ _ _)) as Ho.
    by rewrite He in Ho.
  - unfold load_students. cbn [py_get]. unfold dict_get. rewrite Hget. run_simp. by rewrite He.
Qed.

Lemma unexpected_handler (filename : string) (e : exn) (w : Platform) :
  ordinary e ->
  (match e with
   | JSONDecodeError => print MsgLoadJSONDecodeError
   | FileNotFoundError => print (MsgLoadFileNotFound filename)
   | _ => print (MsgLoadUnexpected e)
   end) w = Run w [MsgLoadUnexpected e] (Ok tt).
Proof. by destruct e. Qed.

(** C4, as stated, at a concrete input: two student records, the first one
    without a [name]. *)
Lemma one_bad_student_loses_the_others :
  let bad := PDict [("email", PStr "ben@uni.edu"); ("contact_number", PStr "09170000002");
                    ("address", PStr "Cebu"); ("student_id", PStr "S1");
                    ("year_level", PNum 1); ("program", PStr "BSCS")] in
  let good := PDict [("name", PStr "Ana"); ("email", PStr "ana@uni.edu");
                     ("contact_number", PStr "09171234567"); ("address", PStr "Manila");
                     ("student_id", PStr "S2"); ("year_level", PNum 2);
                     ("program", PStr "BSIT")] in
  let doc := fun recs => PDict [("instructors", PList []); ("courses", PList []);
                                ("students", PList recs); ("enrollments", PList []);
                                ("schedules", PList [])] in
  let start := fun recs => mkPlatform (mkRepo empty_heap PlatformAdmin_init)
                                      (fun _ => Document (doc recs)) in
  let r := load_data "data.json" (start [bad; good]) in
  (* the well-formed record loads when it is alone *)
  students (admin (repo (final (load_data "data.json" (start [good]))))) = [0] /\
  (* next to the malformed one it is not loaded *)
  students (admin (repo (final r))) = [] /\
  student_objs (heap (repo (final r))) = [] /\
  (~ exists a s, a ∈ students (admin (repo (final r))) /\
                 student_objs (heap (repo (final r))) !! a = Some s /\
                 student_id s = PStr "S2") /\
  printed r = [MsgLoadUnexpected (KeyError "name")].
Proof.
  cbn zeta. split_and!; try (vm_compute; reflexivity).
  intros (a & s & Ha & _). vm_compute in Ha. by apply elem_of_nil in Ha.
Qed.

(** C4 (as amended). During [load_data] a malformed record aborts the load
    at the phase it belongs to: when a student entry lacks a field that
    [Student.from_dict] requires, the instructors and courses loaded by the
    two phases before it are kept, no student record of the document is
    loaded (not the well-formed ones either: the student and enrollment
    collections keep their previous contents, and the later phases do not
    run), [load_data] returns normally, and the failure is reported with
    the message of the generic handler. *)
Theorem malformed_student_aborts_load
    (w : Platform) (filename : string)
    (top : list (string * pyval)) (recs : list pyval)
    (d : list (string * pyval)) (k : string) :
  disk w filename = Document (PDict top) ->
  assoc "students" top = Some (PList recs) ->
  PDict d ∈ recs -> k ∈ student_required -> assoc k d = None ->
  let r12 := (load_instructors (PDict top) ;;; load_courses (PDict top)) (repo w) in
  outcome r12 = Ok tt ->
  let r := load_data filename w in
  repo (final r) = final r12 /\
  students (admin (repo (final r))) = students (admin (repo w)) /\
  enrollments (admin (repo (final r))) = enrollments (admin (repo w)) /\
  outcome r = Ok tt /\
  exists e, printed r = (printed r12 ++ [MsgLoadUnexpected e])%list.
Proof.
  intros Hdisk Hget Hin Hk Hnone r12 H12 r.
  assert (Hkeep : (students (admin (final r12)), enrollments (admin (final r12)))
                  = (students (admin (repo w)), enrollments (admin (repo w)))).
  { subst r12. apply (keeps_bind _ _ _ (load_instructors_keeps_students _)).
    intros _. apply load_courses_keeps_students. }
  destruct (load_students_raises (final r12) top recs d k Hget Hin Hk Hnone)
    as (e & Hord & Hst).
  assert (Hbody : load_document (PDict top) (repo w)
                  = Run (final r12) (printed r12) (Raise e)).
  { unfold load_document.
    rewrite <- (bind_assoc (load_instructors (PDict top)) (fun _ => load_courses (PDict top))).
    fold r12.
    rewrite (bind_run_Ok _ _ (repo w) (final r12) (printed r12) tt)
      by (rewrite <- H12; symmetry; apply run_eta).
    rewrite (bind_run_Raise _ _ _ _ _ _ Hst). cbn. by rewrite app_nil_r. }
  assert (Hr : r = Run (set_repo (final r12) w)
                       (printed r12 ++ [MsgLoadUnexpected e])%list (Ok tt)).
  { subst r. unfold load_data.
    rewrite (try_except_Raise _ _ w (set_repo (final r12) w) (printed r12) e).
    - by rewrite unexpected_handler.
    - by rewrite bind_get, Hdisk, zoom_run, Hbody. }
  rewrite Hr. cbn. injection Hkeep as -> ->.
  split_and!; try done. by exists e.
Qed.

Lemma malformed_student_aborts_load_witness :
  let bad := [("email", PStr "ben@uni.edu"); ("contact_number", PStr "09170000002");
              ("address", PStr "Cebu"); ("student_id", PStr "S1");
              ("year_level", PNum 1); ("program", PStr "BSCS")] in
  let top := [("instructors", PList []); ("courses", PList []);
              ("students", PList [PDict bad]); ("enrollments", PList []);
              ("schedules", PList [])] in
  let w := mkPlatform (mkRepo empty_heap PlatformAdmin_init)
                      (fun _ => Document (PDict top)) in
  let r12 := (load_instructors (PDict top) ;;; load_courses (PDict top)) (repo w) in
  let r := load_data "data.json" w in
  repo (final r) = final r12 /\
  students (admin (repo (final r))) = students (admin (repo w)) /\
  enrollments (admin (repo (final r))) = enrollments (admin (repo w)) /\
  outcome r = Ok tt /\
  exists e, printed r = (printed r12 ++ [MsgLoadUnexpected e])%list.
Proof.
  intros bad top w.
  apply (malformed_student_aborts_load w "data.json" top [PDict bad] bad "name");
    [reflexivity | reflexivity | apply list_elem_of_here
     | apply list_elem_of_here | reflexivity | reflexivity].
Defined.

(** ** The course phase skips a course whose instructor is unknown *)

Lemma bind_ext {S A B} (m : M S A) (k k' : A -> M S B) (s : S) :
  (forall a s', k a s' = k' a s') -> bind m k s = bind m k' s.
Proof. intros H. unfold bind. destruct (outcome (m s)); [by rewrite H | done]. Qed.

Lemma for_each_app_bind {S A B} (body : A -> M S unit) (l1 l2 : list A)
    (k : unit -> M S B) (s : S) :
  bind (for_each body (l1 ++ l2)) k s
  = bind (for_each body l1) (fun _ => bind (for_each body l2) k) s.
Proof.
  revert s. induction l1 as [|x l1 IH]; intros s; cbn [for_each app].
  - by rewrite bind_ret.
  - rewrite !bind_assoc. apply bind_ext. intros _ s'. apply IH.
Qed.

Lemma bind_Ok_inv {S A B} (m : M S A) (k : A -> M S B) (s : S) (b : B) :
  outcome (bind m k s) = Ok b ->
  exists a, outcome (m s) = Ok a /\ outcome (k a (final (m s))) = Ok b.
Proof. unfold bind. destruct (outcome (m s)) as [a|e]; cbn; [eauto | discriminate]. Qed.

Lemma assoc_dict_set_eq (k : string) (v : pyval) d : assoc k (dict_set k v d) = Some v.
Proof.
  induction d as [|[k' x] d IH]; cbn.
  - by rewrite String.eqb_refl.
  - destruct (String.eqb k k') eqn:E; cbn; rewrite E; [done | apply IH].
Qed.

Lemma assoc_dict_set_ne (k k' : string) (v : pyval) d :
  k <> k' -> assoc k (dict_set k' v d) = assoc k d.
Proof.
  intros Hne. apply String.eqb_neq in Hne.
  induction d as [|[k0 x] d IH]; cbn.
  - by rewrite Hne.
  - destruct (String.eqb k' k0) eqn:E; cbn.
    + apply String.eqb_eq in E as ->. by rewrite Hne.
    + by rewrite IH.
Qed.

(** [load_data] never raises: what the load does to the repository stays,
    and the handlers add their report. *)
Lemma load_data_run (w : Platform) (filename : string) (data : pyval) :
  disk w filename = Document data ->
  let rb := load_document data (repo w) in
  load_data filename w
  = Run (set_repo (final rb) w) (printed rb ++ load_report filename (outcome rb)) (Ok tt).
Proof.
  intros Hdisk rb. unfold load_data, try_except.
  rewrite bind_get, Hdisk, zoom_run. fold rb. cbn [outcome final printed].
  destruct (outcome rb) as [[]|e]; cbn.
  - by rewrite app_nil_r.
  - by destruct e.
Qed.

(** The document reaches the course loop once the instructors are loaded. *)
Lemma load_document_courses (top : list (string * pyval)) (items : list pyval) (s0 : Repo) :
  assoc "courses" top = Some (PList items) ->
  load_document (PDict top) s0
  = bind (load_instructors (PDict top))
         (fun _ => bind (on_admin (set_courses []))
                        (fun _ => bind (for_each load_course items)
                                       (fun _ => load_rest (PDict top)))) s0.
Proof.
  intros Hget. unfold load_document. apply bind_ext. intros _ s.
  unfold load_courses. rewrite bind_assoc. apply bind_ext. intros _ s'.
  cbn [py_get]. unfold dict_get. rewrite Hget. rewrite bind_assoc, bind_lift_Ok.
  cbn [py_iter]. by rewrite bind_assoc, bind_lift_Ok.
Qed.

Lemma load_course_unknown_instructor (bad : list (string * pyval)) (s : Repo) :
  let id := dict_get bad "instructor_id" PNone in
  find_instructor (heap s) (instructors (admin s)) id = Ok None ->
  load_course (PDict bad) s
  = Run s [MsgWarnInstructorNotFound id (dict_get bad "course_name" (PStr "Unknown"))]
        (Ok tt).
Proof.
  intros id Hfind. unfold load_course. cbn [py_get].
  rewrite bind_lift_Ok, bind_get. fold id. rewrite Hfind.
  by rewrite bind_lift_Ok, bind_lift_Ok.
Qed.

Lemma load_rest_dict_set (v : pyval) top :
  load_rest (PDict (dict_set "courses" v top)) = load_rest (PDict top).
Proof.
  unfold load_rest, load_students, load_enrollments, load_schedules.
  cbn [py_get]. unfold dict_get.
  by rewrite !assoc_dict_set_ne.
Qed.

Lemma load_instructors_dict_set (v : pyval) top :
  load_instructors (PDict (dict_set "courses" v top)) = load_instructors (PDict top).
Proof.
  unfold load_instructors. cbn [py_get]. unfold dict_get.
  by rewrite assoc_dict_set_ne.
Qed.

Lemma find_instructor_none (h : Heap) (all : list addr) (id : pyval) :
  Forall (fun a => exists i, instructor_objs h !! a = Some i /\
                             py_eq (instructor_id i) id = false) all ->
  find_instructor h all id = Ok None.
Proof.
  unfold find_instructor. induction 1 as [|a all (i & Hi & Hne) _ IH]; cbn [next_where].
  - done.
  - unfold deref at 1. rewrite Hi. cbn [rbind]. by rewrite Hne.
Qed.

Lemma bind_bind_for_each {A B} (m1 m2 : M Repo unit) (body : A -> M Repo unit)
    (l1 l2 : list A) (k : unit -> M Repo B) (s : Repo) :
  bind m1 (fun _ => bind m2 (fun _ => bind (for_each body (l1 ++ l2)) k)) s
  = bind (bind m1 (fun _ => bind m2 (fun _ => for_each body l1)))
         (fun _ => bind (for_each body l2) k) s.
Proof.
  rewrite bind_assoc. apply bind_ext. intros _ s1.
  rewrite bind_assoc. apply bind_ext. intros _ s2.
  apply for_each_app_bind.
Qed.

(** Skipping is as if the record were not there.  When the load reaches a
    course record whose [instructor_id] equals the id of no instructor
    loaded by the instructors phase, the record has no effect beyond its
    warning: the repository that results is the one that results from the
    same document without that record, and the messages are the same apart
    from the warning. *)
Theorem course_without_instructor_is_skipped
    (w : Platform) (filename : string)
    (top : list (string * pyval)) (pre post : list pyval) (bad : list (string * pyval)) :
  disk w filename = Document (PDict top) ->
  assoc "courses" top = Some (PList (pre ++ PDict bad :: post)) ->
  let reach := (load_instructors (PDict top) ;;;
                on_admin (set_courses []) ;;;
                for_each load_course pre) (repo w) in
  outcome reach = Ok tt ->
  let id := dict_get bad "instructor_id" PNone in
  Forall (fun a => exists i, instructor_objs (heap (final reach)) !! a = Some i /\
                             py_eq (instructor_id i) id = false)
         (instructors (admin (final reach))) ->
  let top' := dict_set "courses" (PList (pre ++ post)) top in
  let r := load_data filename w in
  let r' := load_data filename (write_file filename (Document (PDict top')) w) in
  repo (final r) = repo (final r') /\
  outcome r = Ok tt /\ outcome r' = Ok tt /\
  exists o1 o2 : list Msg,
    printed r = o1 ++ MsgWarnInstructorNotFound id (dict_get bad "course_name" (PStr "Unknown"))
                   :: o2 /\
    printed r' = o1 ++ o2.
Proof.
  intros Hdisk Hget reach Hreach id Hnone top' r r'.
  pose proof (find_instructor_none _ _ _ Hnone) as Hfind.
  set (rest := fun _ : unit => bind (for_each load_course post)
                                    (fun _ => load_rest (PDict top))).
  set (z := rest tt (final reach)).
  assert (Hreach' : reach = Run (final reach) (printed reach) (Ok tt)).
  { rewrite <- Hreach. symmetry. apply run_eta. }
  assert (Hrb : load_document (PDict top) (repo w)
                = Run (final z) (printed reach ++ MsgWarnInstructorNotFound id
                                   (dict_get bad "course_name" (PStr "Unknown")) :: printed z)
                      (outcome z)).
  { rewrite (load_document_courses _ _ _ Hget), bind_bind_for_each.
    rewrite (bind_run_Ok _ _ _ _ _ _ Hreach').
    cbn [for_each]. rewrite bind_assoc.
    rewrite (bind_run_Ok _ _ _ _ _ _ (load_course_unknown_instructor bad _ Hfind)).
    done. }
  assert (Hrb' : load_document (PDict top') (repo w)
                 = Run (final z) (printed reach ++ printed z) (outcome z)).
  { rewrite (load_document_courses top' (pre ++ post))
      by apply assoc_dict_set_eq.
    unfold top'. rewrite load_instructors_dict_set, load_rest_dict_set.
    rewrite bind_bind_for_each.
    by rewrite (bind_run_Ok _ _ _ _ _ _ Hreach'). }
  assert (Hr : r = Run (set_repo (final z) w)
                       ((printed reach ++ MsgWarnInstructorNotFound id
                           (dict_get bad "course_name" (PStr "Unknown")) :: printed z)
                        ++ load_report filename (outcome z)) (Ok tt)).
  { subst r. rewrite (load_data_run w filename (PDict top) Hdisk). by rewrite Hrb. }
  assert (Hr' : r' = Run (set_repo (final z) (write_file filename (Document (PDict top')) w))
                         ((printed reach ++ printed z) ++ load_report filename (outcome z))
                         (Ok tt)).
  { subst r'. rewrite (load_data_run _ filename (PDict top')).
    - cbn [repo write_file]. by rewrite Hrb'.
    - cbn. by rewrite String.eqb_refl. }
  rewrite Hr, Hr'. cbn. split_and!; try done.
  exists (printed reach), (printed z ++ load_report filename (outcome z)).
  by rewrite <- !app_assoc.
Qed.

Lemma course_without_instructor_is_skipped_witness :
  let i1 := PDict [("instructor_id", PStr "I1"); ("name", PStr "Dr. Cruz");
                   ("email", PStr "cruz@uni.edu"); ("contact_number", PStr "09170000001");
                   ("address", PStr "Manila")] in
  let c1 := PDict [("course_name", PStr "Logic"); ("course_code", PStr "CS101");
                   ("instructor_id", PStr "I1"); ("units", PNum 3)] in
  let bad := [("course_name", PStr "Optics"); ("course_code", PStr "PH201");
              ("instructor_id", PStr "I9"); ("units", PNum 3)] in
  let c2 := PDict [("course_name", PStr "Algebra"); ("course_code", PStr "MA101");
                   ("instructor_id", PStr "I1"); ("units", PNum 4)] in
  let top := [("instructors", PList [i1]); ("courses", PList [c1; PDict bad; c2]);
              ("students", PList []); ("enrollments", PList []); ("schedules", PList [])] in
  let w := mkPlatform (mkRepo empty_heap PlatformAdmin_init)
                      (fun _ => Document (PDict top)) in
  let top' := dict_set "courses" (PList [c1; c2]) top in
  let r := load_data "data.json" w in
  let r' := load_data "data.json" (write_file "data.json" (Document (PDict top')) w) in
  repo (final r) = repo (final r') /\
  outcome r = Ok tt /\ outcome r' = Ok tt /\
  exists o1 o2 : list Msg,
    printed r = o1 ++ MsgWarnInstructorNotFound (PStr "I9") (PStr "Optics") :: o2 /\
    printed r' = o1 ++ o2.
Proof.
  intros i1 c1 bad c2 top w.
  apply (course_without_instructor_is_skipped w "data.json" top [c1] [c2] bad);
    try reflexivity.
  repeat constructor. eexists. split; reflexivity.
Defined.

(** ** The student phase links one side only *)

Lemma lookup_snoc {A} (l : list A) (x : A) : (l ++ [x]) !! length l = Some x.
Proof. by rewrite list_lookup_middle. Qed.

Lemma load_instructors_one top irec i1 (s : Repo) :
  assoc "instructors" top = Some (PList [irec]) ->
  Instructor_kwargs irec = Ok i1 ->
  load_instructors (PDict top) s
  = Run (mkRepo (set_instructor_objs (instructor_objs (heap s) ++ [i1]) (heap s))
                (set_instructors [length (instructor_objs (heap s))] (admin s)))
        [] (Ok tt).
Proof.
  intros Hget Hi. unfold load_instructors. cbn [py_get]. unfold dict_get. rewrite Hget.
  run_simp. cbn [rmap]. rewrite Hi. cbn [rbind]. run_simp.
  unfold on_admin, modify. by cbn.
Qed.

Lemma load_courses_one top crec i1 ni cn cc un (s : Repo) :
  assoc "courses" top = Some (PList [PDict crec]) ->
  instructors (admin s) = [ni] ->
  instructor_objs (heap s) !! ni = Some i1 ->
  py_eq (instructor_id i1) (dict_get crec "instructor_id" PNone) = true ->
  assoc "course_name" crec = Some cn ->
  assoc "course_code" crec = Some cc ->
  assoc "units" crec = Some un ->
  load_courses (PDict top) s
  = Run (mkRepo (set_course_objs (course_objs (heap s) ++ [Course_init cn cc ni un]) (heap s))
                (set_courses [length (course_objs (heap s))] (admin s)))
        [] (Ok tt).
Proof.
  intros Hget Hins Hi Heq Hcn Hcc Hun.
  unfold load_courses. cbn [py_get]. unfold dict_get at 1. rewrite Hget.
  run_simp. cbn [for_each].
  unfold load_course. cbn [py_get py_subscript]. run_simp.
  cbn [admin heap set_admin set_courses instructors]. rewrite Hins.
  unfold find_instructor. cbn [next_where]. unfold deref. rewrite Hi. cbn [rbind].
  rewrite Heq. run_simp. rewrite Hcn, Hcc, Hun. run_simp.
  unfold on_admin, modify. by cbn.
Qed.

Lemma from_dict_one_course (h : Heap) srec centry ck nc c :
  has_keys srec student_required = true ->
  assoc "enrolled_courses" srec = Some (PList [PDict centry]) ->
  assoc "course_code" centry = Some ck ->
  course_objs h !! nc = Some c ->
  py_eq (course_code c) ck = true ->
  exists st, Student_from_dict h (PDict srec) [nc] = Ok st /\
             enrolled_courses st = [nc] /\
             assoc "student_id" srec = Some (student_id st).
Proof.
  intros Hreq Hec Hck Hc Heq.
  unfold has_keys, student_required in Hreq. cbn [forallb] in Hreq.
  destruct (assoc "name" srec) as [v1|] eqn:E1; [|discriminate].
  destruct (assoc "email" srec) as [v2|] eqn:E2; [|discriminate].
  destruct (assoc "contact_number" srec) as [v3|] eqn:E3; [|discriminate].
  destruct (assoc "address" srec) as [v4|] eqn:E4; [|discriminate].
  destruct (assoc "student_id" srec) as [v5|] eqn:E5; [|discriminate].
  destruct (assoc "year_level" srec) as [v6|] eqn:E6; [|discriminate].
  destruct (assoc "program" srec) as [v7|] eqn:E7; [|discriminate].
  unfold Student_from_dict, py_subscript, py_get.
  rewrite E1, E2, E3, E4, E5, E6, E7. cbn [rbind].
  unfold dict_get. rewrite Hec. cbn [py_iter rbind enroll_listed].
  unfold find_course. cbn [next_where]. unfold deref. rewrite Hc. cbn [rbind py_subscript].
  rewrite Hck. cbn [rbind]. rewrite Heq.
  eexists. split; [reflexivity|]. by cbn.
Qed.

Lemma load_students_one top srec st (s : Repo) :
  assoc "students" top = Some (PList [PDict srec]) ->
  Student_from_dict (heap s) (PDict srec) (courses (admin s)) = Ok st ->
  load_students (PDict top) s
  = Run (mkRepo (set_student_objs (student_objs (heap s) ++ [st]) (heap s))
                (set_students [length (student_objs (heap s))] (admin s)))
        [] (Ok tt).
Proof.
  intros Hget Hst. unfold load_students. cbn [py_get]. unfold dict_get. rewrite Hget.
  run_simp. cbn [rmap]. rewrite Hst. cbn [rbind]. run_simp.
  unfold on_admin, modify. by cbn.
Qed.

Lemma load_enrollments_none top (s : Repo) :
  dict_get top "enrollments" (PList []) = PList [] ->
  load_enrollments (PDict top) s = Run (set_admin (set_enrollments [] (admin s)) s) [] (Ok tt).
Proof.
  intros Hget. unfold load_enrollments. cbn [py_get]. rewrite Hget.
  run_simp. by cbn [for_each].
Qed.

Lemma update_course_instructors (a : addr) (f : Course -> Course) (h : Heap) :
  instructor_objs (update_course a f h) = instructor_objs h.
Proof. unfold update_course. by destruct (course_objs h !! a). Qed.

Lemma load_schedules_keeps_links data : keeps links (load_schedules data).
Proof.
  unfold load_schedules, load_schedule. keeps_auto.
  unfold on_objects. apply keeps_modify. intros s. unfold links. cbn [heap admin set_heap].
  by rewrite update_course_students, update_course_instructors, update_course_map.
Qed.

(** The scenario of the student phase, for an instructor record that the
    constructor accepts (one without [courses_taught]).  For every such
    document holding one instructor I1, one course C1 that refers to I1,
    one student S1 whose [enrolled_courses] lists C1, and no enrollment
    rows (whatever its schedules are), [load_data] yields a repository in
    which S1's [enrolled_courses] is exactly [C1] while C1's
    [enrolled_students] is empty: the student phase links one side only, the
    other side is the work of the enrollments phase. *)
Theorem student_phase_links_one_side_only
    (w : Platform) (filename : string) (top : list (string * pyval))
    (irec : pyval) (i1 : Instructor) (crec srec centry : list (string * pyval))
    (cn cc un ck : pyval) :
  disk w filename = Document (PDict top) ->
  assoc "instructors" top = Some (PList [irec]) ->
  Instructor_kwargs irec = Ok i1 ->
  assoc "courses" top = Some (PList [PDict crec]) ->
  assoc "course_name" crec = Some cn ->
  assoc "course_code" crec = Some cc ->
  assoc "units" crec = Some un ->
  py_eq (instructor_id i1) (dict_get crec "instructor_id" PNone) = true ->
  assoc "students" top = Some (PList [PDict srec]) ->
  has_keys srec student_required = true ->
  assoc "enrolled_courses" srec = Some (PList [PDict centry]) ->
  assoc "course_code" centry = Some ck ->
  py_eq cc ck = true ->
  dict_get top "enrollments" (PList []) = PList [] ->
  let r := load_data filename w in
  let h' := heap (repo (final r)) in
  let self' := admin (repo (final r)) in
  exists (ia ca sa : addr) (s : Student) (c : Course),
    instructors self' = [ia] /\ instructor_objs h' !! ia = Some i1 /\
    courses self' = [ca] /\ course_objs h' !! ca = Some c /\
    course_code c = cc /\ instructor c = ia /\
    students self' = [sa] /\ student_objs h' !! sa = Some s /\
    assoc "student_id" srec = Some (student_id s) /\
    enrolled_courses s = [ca] /\
    enrolled_students c = [].
Proof.
  intros Hdisk Hi Hi1 Hc Hcn Hcc Hun Hieq Hs Hreq Hec Hck Hceq He r h' self'.
  set (s0 := repo w).
  set (ni := length (instructor_objs (heap s0))).
  set (nc := length (course_objs (heap s0))).
  set (ns := length (student_objs (heap s0))).
  pose proof (load_instructors_one top irec i1 s0 Hi Hi1) as H1.
  set (s1 := mkRepo _ _) in H1.
  pose proof (load_courses_one top crec i1 ni cn cc un s1 Hc eq_refl
                (lookup_snoc _ _) Hieq Hcn Hcc Hun) as H2.
  set (s2 := mkRepo _ _) in H2.
  destruct (from_dict_one_course (heap s2) srec centry ck nc (Course_init cn cc ni un)
              Hreq Hec Hck (lookup_snoc _ _) Hceq) as (st & Hst & Hen & Hid).
  pose proof (load_students_one top srec st s2 Hs Hst) as H3.
  set (s3 := mkRepo _ _) in H3.
  pose proof (load_enrollments_none top s3 He) as H4.
  set (s4 := set_admin _ _) in H4.
  set (z := load_schedules (PDict top) s4).
  assert (Hrb : load_document (PDict top) s0 = Run (final z) (printed z) (outcome z)).
  { unfold load_document.
    rewrite (bind_run_Ok _ _ _ _ _ _ H1), (bind_run_Ok _ _ _ _ _ _ H2),
            (bind_run_Ok _ _ _ _ _ _ H3), (bind_run_Ok _ _ _ _ _ _ H4).
    done. }
  assert (Hrepo : repo (final r) = final z).
  { subst r. rewrite (load_data_run w filename (PDict top) Hdisk). fold s0.
    by rewrite Hrb. }
  pose proof (load_schedules_keeps_links (PDict top) s4) as Hk. fold z in Hk.
  clearbody z. unfold links in Hk. subst h' self'. rewrite Hrepo.
  injection Hk as Ha Hio Hso Hco. rewrite Ha, Hio, Hso.
  assert (Hlook : exists c, course_objs (heap (final z)) !! nc = Some c /\
                            course_code c = cc /\ instructor c = ni /\
                            enrolled_students c = []).
  { apply (f_equal (fun l => l !! nc)) in Hco. rewrite !list_lookup_fmap in Hco.
    cbn [s4 s3 s2 s1 heap set_admin set_heap set_student_objs set_course_objs
         course_objs instructor_objs student_objs assignment_objs] in Hco.
    unfold nc in Hco at 2. rewrite lookup_snoc in Hco.
    destruct (course_objs (heap (final z)) !! nc) as [c|]; [|discriminate].
    exists c. cbn in Hco. by injection Hco as -> -> ->. }
  destruct Hlook as (c & Hcl & Hcc' & Hci & Hce).
  exists ni, nc, ns, st, c.
  split_and!; try done.
  - apply lookup_snoc.
  - apply lookup_snoc.
Qed.

Lemma student_phase_links_one_side_only_witness :
  let i1 := Instructor_init (PStr "Dr. Cruz") (PStr "cruz@uni.edu") (PStr "09170000001")
                            (PStr "Manila") (PStr "I1") (PStr "Instructor") in
  let irec := PDict [("instructor_id", PStr "I1"); ("name", PStr "Dr. Cruz");
                     ("email", PStr "cruz@uni.edu"); ("contact_number", PStr "09170000001");
                     ("address", PStr "Manila")] in
  let crec := [("course_name", PStr "Logic"); ("course_code", PStr "C1");
               ("instructor_id", PStr "I1"); ("units", PNum 3)] in
  let srec := [("name", PStr "Ana"); ("email", PStr "ana@uni.edu");
               ("contact_number", PStr "09171234567"); ("address", PStr "Manila");
               ("student_id", PStr "S1"); ("year_level", PNum 1); ("program", PStr "BSCS");
               ("gpa", PNum 0); ("birth_date", PNone);
               ("enrolled_courses", PList [PDict crec])] in
  let top := [("instructors", PList [irec]); ("courses", PList [PDict crec]);
              ("students", PList [PDict srec]); ("enrollments", PList [])] in
  let w := mkPlatform (mkRepo empty_heap PlatformAdmin_init)
                      (fun _ => Document (PDict top)) in
  let r := load_data "data.json" w in
  let h' := heap (repo (final r)) in
  let self' := admin (repo (final r)) in
  exists (ia ca sa : addr) (s : Student) (c : Course),
    instructors self' = [ia] /\ instructor_objs h' !! ia = Some i1 /\
    courses self' = [ca] /\ course_objs h' !! ca = Some c /\
    course_code c = PStr "C1" /\ instructor c = ia /\
    students self' = [sa] /\ student_objs h' !! sa = Some s /\
    assoc "student_id" srec = Some (student_id s) /\
    enrolled_courses s = [ca] /\
    enrolled_students c = [].
Proof.
  intros i1 irec crec srec top w.
  apply (student_phase_links_one_side_only w "data.json" top irec i1 crec srec crec
           (PStr "Logic") (PStr "C1") (PNum 3) (PStr "C1"));
    reflexivity.
Defined.

(** ** Round trip of a student *)

Lemma addr_in_elem (a : addr) (l : list addr) : addr_in a l = true <-> a ∈ l.
Proof.
  unfold addr_in. rewrite existsb_exists. split.
  - intros (x & Hx & Heq). apply Nat.eqb_eq in Heq as ->. by apply list_elem_of_In.
  - intros Ha. exists a. split; [by apply list_elem_of_In | apply Nat.eqb_refl].
Qed.

Lemma py_eq_str (v : pyval) (k : string) : py_eq v (PStr k) = true -> v = PStr k.
Proof. destruct v; cbn; try discriminate. intros H. by apply String.eqb_eq in H as ->. Qed.

Lemma code_at_deref (h : Heap) (a : addr) (v : pyval) :
  code_at h a = Some v -> exists c, deref (course_objs h) a = Ok c /\ course_code c = v.
Proof.
  unfold code_at, deref. destruct (course_objs h !! a) as [c|]; cbn; [|discriminate].
  intros [= <-]. eauto.
Qed.

Lemma find_course_string (h : Heap) (ctx : list addr) (k : string) :
  Forall (fun a => is_Some (course_objs h !! a)) ctx ->
  (exists a', a' ∈ ctx /\ code_at h a' = Some (PStr k)) ->
  exists a, find_course h ctx (fun _ => Ok (PStr k)) = Ok (Some a) /\
            code_at h a = Some (PStr k).
Proof.
  unfold find_course. induction 1 as [|a0 ctx [c0 Hc0] _ IH]; intros (a' & Hin & Hcode).
  - by apply elem_of_nil in Hin.
  - cbn [next_where]. unfold deref at 1. rewrite Hc0. cbn [rbind].
    destruct (py_eq (course_code c0) (PStr k)) eqn:E.
    + exists a0. split; [done|]. unfold code_at. rewrite Hc0. cbn.
      by rewrite (py_eq_str _ _ E).
    + apply IH. exists a'. split; [|done].
      apply elem_of_cons in Hin as [-> | Hin]; [|done].
      unfold code_at in Hcode. rewrite Hc0 in Hcode. injection Hcode as Hcode.
      rewrite Hcode in E. cbn in E. by rewrite String.eqb_refl in E.
Qed.

Lemma Course_to_dict_code (h : Heap) (c : Course) (d : pyval) :
  Course_to_dict h c = Ok d -> py_subscript d "course_code" = Ok (course_code c).
Proof.
  unfold Course_to_dict. destruct (deref (instructor_objs h) (instructor c)); cbn; [|done].
  by intros [= <-].
Qed.

Lemma find_course_ext (h : Heap) (ctx : list addr) (f g : unit -> result pyval) :
  f tt = g tt -> find_course h ctx f = find_course h ctx g.
Proof.
  intros Hfg. unfold find_course. by rewrite Hfg.
Qed.

Lemma enroll_listed_round_trip (h : Heap) (ctx : list addr) :
  Forall (fun a => is_Some (course_objs h !! a)) ctx ->
  forall (l : list addr) (ds : list pyval) (st : Student),
    rmap (fun a => c <- deref (course_objs h) a ;; Course_to_dict h c) l = Ok ds ->
    (forall a, a ∈ l ->
       exists k, code_at h a = Some (PStr k) /\
                 exists a', a' ∈ ctx /\ code_at h a' = Some (PStr k)) ->
    NoDup (code_at h <$> l) ->
    (forall a, a ∈ enrolled_courses st -> code_at h a ∉ code_at h <$> l) ->
    exists l',
      enroll_listed h ctx ds st = Ok (set_enrolled_courses l' st) /\
      code_at h <$> l' = (code_at h <$> enrolled_courses st) ++ (code_at h <$> l).
Proof.
  intros Hctx. induction l as [|a l IH]; intros ds st Hds Hres Hnd Hdis.
  - injection Hds as <-. exists (enrolled_courses st). cbn. split.
    + by destruct st.
    + by rewrite app_nil_r.
  - cbn [rmap] in Hds.
    apply rbind_Ok_inv in Hds as (d0 & Hd0 & Hds).
    apply rbind_Ok_inv in Hds as (ds' & Hds' & Hds). injection Hds as <-.
    apply rbind_Ok_inv in Hd0 as (c & Hc & Hd0).
    destruct (Hres a) as (k & Hk & Hctxk); [by left|].
    assert (Hcode : course_code c = PStr k).
    { apply code_at_deref in Hk as (c' & Hc' & Hk). congruence. }
    destruct (find_course_string h ctx k Hctx Hctxk) as (a1 & Hfind & Ha1).
    cbn [enroll_listed].
    rewrite (find_course_ext h ctx _ (fun _ => Ok (PStr k)))
      by (rewrite (Course_to_dict_code _ _ _ Hd0); by rewrite Hcode).
    rewrite Hfind. cbn [rbind].
    apply NoDup_cons in Hnd as [Hnotin Hnd].
    assert (Hfresh : addr_in a1 (enrolled_courses st) = false).
    { destruct (addr_in a1 (enrolled_courses st)) eqn:E; [|done].
      apply addr_in_elem in E. apply Hdis in E. exfalso. apply E.
      rewrite Ha1, <- Hk. cbn. by left. }
    unfold Student_enroll. rewrite Hfresh.
    destruct (IH ds' (set_enrolled_courses (enrolled_courses st ++ [a1]) st) Hds')
      as (l' & Hrun & Hcodes).
    + intros x Hx. apply Hres. by right.
    + done.
    + intros x Hx. cbn in Hx. apply elem_of_app in Hx as [Hx | Hx].
      * intros Hin. apply (Hdis x Hx). cbn. by right.
      * apply list_elem_of_singleton in Hx as ->. by rewrite Ha1, <- Hk.
    + exists l'. split; [exact Hrun|].
      rewrite Hcodes. cbn. rewrite fmap_app. cbn. rewrite Ha1, <- Hk.
      by rewrite <- app_assoc.
Qed.

(** C5. Entity-level round trip: for every student [e] that serializes
    (its references are live), whose enrolled courses carry pairwise distinct
    string course codes, and for every context [ctx] of course objects in
    which each of those codes occurs, [Student.from_dict] applied to
    [e.to_dict()] returns a student equal to [e] field by field ([name],
    [email], [contact_number], [address], [student_id], [year_level],
    [program], [gpa], [birth_date]) whose [enrolled_courses] has the same
    course codes in the same order. *)
Theorem student_round_trip (h : Heap) (e : Student) (ctx : list addr) (d : pyval) :
  Student_to_dict h e = Ok d ->
  Forall (fun a => is_Some (course_objs h !! a)) ctx ->
  (forall a, a ∈ enrolled_courses e ->
     exists k, code_at h a = Some (PStr k) /\
               exists a', a' ∈ ctx /\ code_at h a' = Some (PStr k)) ->
  NoDup (code_at h <$> enrolled_courses e) ->
  exists e',
    Student_from_dict h d ctx = Ok e' /\
    name (s_person e') = name (s_person e) /\
    email (s_person e') = email (s_person e) /\
    contact_number (s_person e') = contact_number (s_person e) /\
    address (s_person e') = address (s_person e) /\
    student_id e' = student_id e /\
    year_level e' = year_level e /\
    program e' = program e /\
    gpa e' = gpa e /\
    birth_date e' = birth_date e /\
    code_at h <$> enrolled_courses e' = code_at h <$> enrolled_courses e.
Proof.
  intros Hd Hctx Hres Hnd. unfold Student_to_dict in Hd.
  apply rbind_Ok_inv in Hd as (cs & Hcs & Hd). injection Hd as <-.
  unfold Student_from_dict. cbn [py_subscript py_get assoc dict_get String.eqb Ascii.eqb
                                 Bool.eqb rbind py_iter].
  destruct (enroll_listed_round_trip h ctx Hctx (enrolled_courses e) cs
              (Student_init (name (s_person e)) (email (s_person e))
                 (contact_number (s_person e)) (address (s_person e))
                 (student_id e) (year_level e) (program e)
                 (gpa e) (birth_date e) None (PStr "Student"))
              Hcs Hres Hnd) as (l' & Hrun & Hcodes).
  { intros a Ha. cbn in Ha. by apply elem_of_nil in Ha. }
  eexists. split; [exact Hrun|]. cbn. by rewrite Hcodes.
Qed.

Lemma student_round_trip_witness :
  let i := Instructor_init (PStr "Dr. Cruz") (PStr "cruz@uni.edu") (PStr "09170000001")
                           (PStr "Manila") (PStr "I1") (PStr "Instructor") in
  let c0 := Course_init (PStr "Logic") (PStr "CS101") 0 (PNum 3) in
  let c1 := Course_init (PStr "Algebra") (PStr "MA101") 0 (PNum 4) in
  let h := mkHeap [i] [c0; c1] [] [] in
  let e := Student_init (PStr "Ana") (PStr "ana@uni.edu") (PStr "09171234567") (PStr "Manila")
                        (PStr "S1") (PNum 1) (PStr "BSCS") (PNum (7 # 2)) PNone
                        (Some [1; 0]) (PStr "Student") in
  exists e',
    Student_from_dict h
      (PDict [("name", PStr "Ana"); ("email", PStr "ana@uni.edu");
              ("contact_number", PStr "09171234567"); ("address", PStr "Manila");
              ("student_id", PStr "S1"); ("year_level", PNum 1); ("program", PStr "BSCS");
              ("gpa", PNum (7 # 2)); ("birth_date", PNone);
              ("enrolled_courses",
               PList [PDict [("course_name", PStr "Algebra"); ("course_code", PStr "MA101");
                             ("instructor_id", PStr "I1"); ("units", PNum 4)];
                      PDict [("course_name", PStr "Logic"); ("course_code", PStr "CS101");
                             ("instructor_id", PStr "I1"); ("units", PNum 3)]])])
      [0; 1] = Ok e' /\
    name (s_person e') = name (s_person e) /\
    email (s_person e') = email (s_person e) /\
    contact_number (s_person e') = contact_number (s_person e) /\
    address (s_person e') = address (s_person e) /\
    student_id e' = student_id e /\
    year_level e' = year_level e /\
    program e' = program e /\
    gpa e' = gpa e /\
    birth_date e' = birth_date e /\
    code_at h <$> enrolled_courses e' = code_at h <$> enrolled_courses e.
Proof.
  intros i c0 c1 h e.
  apply (student_round_trip h e [0; 1]).
  - reflexivity.
  - repeat constructor; by eexists.
  - intros a Ha. cbn in Ha.
    apply elem_of_cons in Ha as [-> | Ha]; [|apply elem_of_cons in Ha as [-> | Ha]].
    + exists "MA101". split; [reflexivity|]. exists 1. split; [repeat constructor | reflexivity].
    + exists "CS101". split; [reflexivity|]. exists 0. split; [repeat constructor | reflexivity].
    + by apply elem_of_nil in Ha.
  - cbn. apply NoDup_cons. split.
    + intros Hin. apply list_elem_of_singleton in Hin. discriminate.
    + apply NoDup_singleton.
Defined.

(** * Further properties *)

(** ** Student.enroll *)

(** X1. [Student.enroll] never duplicates: on a student whose
    [enrolled_courses] has no repetition, enrolling a course leaves the list
    without repetition and containing the course, keeps every course already
    there, and enrolling the same course again changes nothing. *)
Theorem enroll_is_idempotent_and_duplicate_free (s : Student) (course : addr) :
  NoDup (enrolled_courses s) ->
  let s' := Student_enroll course s in
  course ∈ enrolled_courses s' /\
  NoDup (enrolled_courses s') /\
  Student_enroll course s' = s' /\
  (forall other, other ∈ enrolled_courses s -> other ∈ enrolled_courses s').
Proof.
  intros Hnd. unfold Student_enroll.
  destruct (addr_in course (enrolled_courses s)) eqn:E.
  - rewrite E. apply addr_in_elem in E. done.
  - cbn. assert (Hnot : course ∉ enrolled_courses s).
    { intros Hin. apply addr_in_elem in Hin. congruence. }
    assert (Hin' : addr_in course (enrolled_courses s ++ [course]) = true).
    { apply addr_in_elem, elem_of_app. right. by apply list_elem_of_singleton. }
    unfold addr_in in Hin'. rewrite Hin'. split_and!.
    + apply elem_of_app. right. by apply list_elem_of_singleton.
    + apply NoDup_app. split_and!; [done | | apply NoDup_singleton].
      intros x Hx Hx'. apply list_elem_of_singleton in Hx' as ->. done.
    + done.
    + intros other Ho. apply elem_of_app. by left.
Qed.

Lemma enroll_is_idempotent_and_duplicate_free_witness :
  let s := Student_init (PStr "Ana") (PStr "ana@uni.edu") (PStr "09171234567") (PStr "Manila")
                        (PStr "S1") (PNum 1) (PStr "BSCS") (PNum 0) PNone (Some [2; 5])
                        (PStr "Student") in
  let s' := Student_enroll 7 s in
  7 ∈ enrolled_courses s' /\
  NoDup (enrolled_courses s') /\
  Student_enroll 7 s' = s' /\
  (forall other, other ∈ enrolled_courses s -> other ∈ enrolled_courses s').
Proof.
  intros s. apply (enroll_is_idempotent_and_duplicate_free s 7).
  cbn. apply NoDup_cons. split; [|apply NoDup_singleton].
  intros H. apply list_elem_of_singleton in H. discriminate.
Defined.

(** ** Course.add_student *)

Lemma update_course_lookup (a : addr) (f : Course -> Course) (h : Heap) (c : Course) :
  course_objs h !! a = Some c ->
  course_objs (update_course a f h) !! a = Some (f c).
Proof.
  intros Hc. unfold update_course. rewrite Hc. cbn.
  apply list_lookup_insert_eq. by eapply lookup_lt_Some.
Qed.

Lemma Course_add_student_run (h : Heap) (self student : addr) (c : Course) (s : Student) :
  course_objs h !! self = Some c ->
  student_objs h !! student = Some s ->
  Course_add_student self student h
  = if addr_in student (c_students c)
    then Run h [MsgStudentAlreadyInCourse (name (s_person s)) (course_name c)] (Ok tt)
    else Run (update_course self (set_c_students (c_students c ++ [student])) h)
             [MsgStudentAdded (name (s_person s)) (course_name c)] (Ok tt).
Proof.
  intros Hc Hs. unfold Course_add_student. rewrite bind_get.
  unfold deref. rewrite Hc, Hs, bind_lift_Ok.
  destruct (addr_in student (c_students c)); cbn [negb].
  - by rewrite bind_lift_Ok.
  - by rewrite bind_modify, bind_lift_Ok.
Qed.

(** X2. [Course.add_student] is idempotent: for a live course and student the
    first call returns with the student on the roster [_students] (a roster
    without repetition stays so), and a second call changes no object and
    prints that the student is already enrolled. *)
Theorem add_student_twice_adds_once (h : Heap) (self student : addr) (c : Course) (s : Student) :
  course_objs h !! self = Some c ->
  student_objs h !! student = Some s ->
  let r1 := Course_add_student self student h in
  let r2 := Course_add_student self student (final r1) in
  outcome r1 = Ok tt /\
  (exists c1, course_objs (final r1) !! self = Some c1 /\
              student ∈ c_students c1 /\
              (NoDup (c_students c) -> NoDup (c_students c1))) /\
  r2 = Run (final r1) [MsgStudentAlreadyInCourse (name (s_person s)) (course_name c)] (Ok tt).
Proof.
  intros Hc Hs. cbn zeta.
  rewrite (Course_add_student_run h self student c s Hc Hs).
  destruct (addr_in student (c_students c)) eqn:E; cbn [final outcome].
  - split_and!; [done | |].
    + exists c. split_and!; [done | by apply addr_in_elem | done].
    + by rewrite (Course_add_student_run h self student c s Hc Hs), E.
  - assert (Hin : student ∈ c_students c ++ [student]).
    { apply elem_of_app. right. by apply list_elem_of_singleton. }
    pose proof (update_course_lookup self (set_c_students (c_students c ++ [student])) h c Hc)
      as Hc1.
    split_and!; [done | |].
    + eexists. split_and!; [exact Hc1 | exact Hin |].
      intros Hnd. cbn. apply NoDup_app. split_and!; [done | | apply NoDup_singleton].
      intros x Hx Hx'. apply list_elem_of_singleton in Hx' as ->.
      apply addr_in_elem in Hx. congruence.
    + rewrite (Course_add_student_run _ self student _ s Hc1)
        by (by rewrite update_course_students).
      cbn [c_students set_c_students course_name]. apply addr_in_elem in Hin. by rewrite Hin.
Qed.

Lemma add_student_twice_adds_once_witness :
  let c := Course_init (PStr "Logic") (PStr "CS101") 0 (PNum 3) in
  let s := Student_init (PStr "Ana") (PStr "ana@uni.edu") (PStr "09171234567") (PStr "Manila")
                        (PStr "S1") (PNum 1) (PStr "BSCS") (PNum 0) PNone None
                        (PStr "Student") in
  let h := mkHeap [] [c] [s] [] in
  let r1 := Course_add_student 0 0 h in
  let r2 := Course_add_student 0 0 (final r1) in
  outcome r1 = Ok tt /\
  (exists c1, course_objs (final r1) !! 0 = Some c1 /\
              0 ∈ c_students c1 /\
              (NoDup (c_students c) -> NoDup (c_students c1))) /\
  r2 = Run (final r1) [MsgStudentAlreadyInCourse (name (s_person s)) (course_name c)] (Ok tt).
Proof.
  intros c s h. apply (add_student_twice_adds_once h 0 0 c s); reflexivity.
Defined.

(** ** Enrollment *)

Lemma is_enrolled_elem (e : Enrollment) (s c : addr) :
  Enrollment_is_student_enrolled e s c = true <-> (s, c) ∈ enrollments_ e.
Proof.
  unfold Enrollment_is_student_enrolled, pair_is. rewrite existsb_exists. split.
  - intros ([s' c'] & Hin & Heq). cbn in Heq. apply andb_true_iff in Heq as [H1 H2].
    apply Nat.eqb_eq in H1 as ->. apply Nat.eqb_eq in H2 as ->. by apply list_elem_of_In.
  - intros Hin. exists (s, c). split; [by apply list_elem_of_In|].
    cbn. by rewrite !Nat.eqb_refl.
Qed.

Lemma names_of_run (e : Enrollment) (h : Heap) (s c : addr) (st : Student) (co : Course) :
  student_objs h !! s = Some st ->
  course_objs h !! c = Some co ->
  names_of s c (e, h) = Run (e, h) [] (Ok (name (s_person st), course_name co)).
Proof.
  intros Hs Hc. unfold names_of. rewrite bind_get. cbn [snd].
  unfold deref. by rewrite Hs, Hc, !bind_lift_Ok.
Qed.

Lemma enroll_student_run (e : Enrollment) (h : Heap) (s c : addr) (st : Student) (co : Course) :
  student_objs h !! s = Some st ->
  course_objs h !! c = Some co ->
  Enrollment_enroll_student s c (e, h)
  = if Enrollment_is_student_enrolled e s c
    then Run (e, h) [MsgAlreadyEnrolled (name (s_person st)) (course_name co)] (Ok tt)
    else Run (mkEnrollment (enrollments_ e ++ [(s, c)]), final (Course_add_student c s h))
             (printed (Course_add_student c s h)
              ++ [MsgEnrolled (name (s_person st)) (course_name co)])
             (Ok tt).
Proof.
  intros Hs Hc. unfold Enrollment_enroll_student. rewrite bind_get. cbn [fst].
  destruct (Enrollment_is_student_enrolled e s c); cbn [negb].
  - rewrite (bind_run_Ok _ _ _ _ _ _ (names_of_run e h s c st co Hs Hc)). by cbn.
  - pose proof (Course_add_student_run h c s co st Hc Hs) as Hadd.
    set (r := Course_add_student c s h) in *.
    assert (Hr : outcome r = Ok tt /\
                 student_objs (final r) !! s = Some st /\
                 exists co', course_objs (final r) !! c = Some co' /\
                             course_name co' = course_name co).
    { rewrite Hadd. destruct (addr_in s (c_students co)); cbn.
      - eauto.
      - rewrite update_course_students. split_and!; [done..|].
        eexists. split; [by apply update_course_lookup | done]. }
    destruct Hr as (Hok & Hs' & co' & Hc' & Hname).
    unfold on_heap, on_self.
    rewrite (bind_run_Ok _ _ (e, h) (e, final r) (printed r) tt)
      by (rewrite zoom_run; cbn [fst snd]; fold r; by rewrite Hok).
    rewrite (bind_run_Ok _ _ (e, final r)
               (mkEnrollment (enrollments_ e ++ [(s, c)]), final r) [] tt)
      by (by rewrite zoom_run).
    rewrite (bind_run_Ok _ _ _ _ _ _ (names_of_run _ (final r) s c st co' Hs' Hc')).
    cbn. by rewrite Hname.
Qed.

Lemma unenroll_student_run (e : Enrollment) (h : Heap) (s c : addr) (st : Student) (co : Course) :
  student_objs h !! s = Some st ->
  course_objs h !! c = Some co ->
  Enrollment_unenroll_student s c (e, h)
  = if Enrollment_is_student_enrolled e s c
    then Run (mkEnrollment (remove_first s c (enrollments_ e)), h)
             [MsgUnenrolled (name (s_person st)) (course_name co)] (Ok tt)
    else Run (e, h) [MsgNotEnrolled (name (s_person st)) (course_name co)] (Ok tt).
Proof.
  intros Hs Hc. unfold Enrollment_unenroll_student. rewrite bind_get. cbn [fst snd].
  destruct (Enrollment_is_student_enrolled e s c).
  - unfold deref. rewrite Hc, bind_lift_Ok.
    unfold on_heap, on_self, Course_remove_student.
    rewrite (bind_run_Ok _ _ (e, h) (e, h) [] tt) by (by rewrite zoom_run).
    rewrite (bind_run_Ok _ _ (e, h) (mkEnrollment (remove_first s c (enrollments_ e)), h) [] tt)
      by (by rewrite zoom_run).
    rewrite (bind_run_Ok _ _ _ _ _ _ (names_of_run _ h s c st co Hs Hc)). by cbn.
  - rewrite (bind_run_Ok _ _ _ _ _ _ (names_of_run e h s c st co Hs Hc)). by cbn.
Qed.

Lemma remove_first_snoc (s c : addr) (l : list (addr * addr)) :
  (s, c) ∉ l -> remove_first s c (l ++ [(s, c)]) = l.
Proof.
  induction l as [|[s' c'] l IH]; intros Hnot; cbn.
  - unfold pair_is. cbn. by rewrite !Nat.eqb_refl.
  - destruct (pair_is s c (s', c')) eqn:E.
    + exfalso. apply Hnot. unfold pair_is in E. cbn in E.
      apply andb_true_iff in E as [H1 H2].
      apply Nat.eqb_eq in H1 as ->. apply Nat.eqb_eq in H2 as ->. by left.
    + rewrite IH; [done|]. intros Hin. apply Hnot. by right.
Qed.

Lemma get_courses_by_student_elem (e : Enrollment) (s c : addr) :
  c ∈ Enrollment_get_courses_by_student e s <-> (s, c) ∈ enrollments_ e.
Proof.
  unfold Enrollment_get_courses_by_student.
  rewrite list_elem_of_In, in_map_iff. split.
  - intros ([s' c'] & Hc & Hin). apply filter_In in Hin as [Hin Heq].
    cbn in *. apply Nat.eqb_eq in Heq. subst. by apply list_elem_of_In.
  - intros Hin. exists (s, c). split; [done|]. apply filter_In.
    split; [by apply list_elem_of_In | apply Nat.eqb_refl].
Qed.

Lemma get_students_by_course_elem (e : Enrollment) (s c : addr) :
  s ∈ Enrollment_get_students_by_course e c <-> (s, c) ∈ enrollments_ e.
Proof.
  unfold Enrollment_get_students_by_course.
  rewrite list_elem_of_In, in_map_iff. split.
  - intros ([s' c'] & Hc & Hin). apply filter_In in Hin as [Hin Heq].
    cbn in *. apply Nat.eqb_eq in Heq. subst. by apply list_elem_of_In.
  - intros Hin. exists (s, c). split; [done|]. apply filter_In.
    split; [by apply list_elem_of_In | apply Nat.eqb_refl].
Qed.

(** X3. [Enrollment.enroll_student] records a pair once: for a live student
    and course the call returns, [is_student_enrolled] then holds, the course
    is among [get_courses_by_student] and the student among
    [get_students_by_course], a pair list without repetition stays so, and a
    second call changes nothing and prints that the student is already
    enrolled. *)
Theorem enroll_student_twice_enrolls_once
    (e : Enrollment) (h : Heap) (s c : addr) (st : Student) (co : Course) :
  student_objs h !! s = Some st ->
  course_objs h !! c = Some co ->
  let r1 := Enrollment_enroll_student s c (e, h) in
  let r2 := Enrollment_enroll_student s c (final r1) in
  outcome r1 = Ok tt /\
  Enrollment_is_student_enrolled (fst (final r1)) s c = true /\
  c ∈ Enrollment_get_courses_by_student (fst (final r1)) s /\
  s ∈ Enrollment_get_students_by_course (fst (final r1)) c /\
  (NoDup (enrollments_ e) -> NoDup (enrollments_ (fst (final r1)))) /\
  r2 = Run (final r1) [MsgAlreadyEnrolled (name (s_person st)) (course_name co)] (Ok tt).
Proof.
  intros Hs Hc r1 r2.
  assert (H1 : outcome r1 = Ok tt /\
               (s, c) ∈ enrollments_ (fst (final r1)) /\
               (NoDup (enrollments_ e) -> NoDup (enrollments_ (fst (final r1)))) /\
               student_objs (snd (final r1)) !! s = Some st /\
               exists co', course_objs (snd (final r1)) !! c = Some co' /\
                           course_name co' = course_name co).
  { subst r1 r2. rewrite (enroll_student_run e h s c st co Hs Hc).
    destruct (Enrollment_is_student_enrolled e s c) eqn:E; cbn [final outcome fst snd].
    - apply is_enrolled_elem in E. split_and!; eauto.
    - assert (Hnot : (s, c) ∉ enrollments_ e).
      { intros Hin. apply is_enrolled_elem in Hin. congruence. }
      rewrite (Course_add_student_run h c s co st Hc Hs).
      split_and!; [done | | | |].
      + cbn. apply elem_of_app. right. by apply list_elem_of_singleton.
      + intros Hnd. cbn. apply NoDup_app. split_and!; [done | | apply NoDup_singleton].
        intros x Hx Hx'. apply list_elem_of_singleton in Hx' as ->. done.
      + destruct (addr_in s (c_students co)); cbn; [done|].
        by rewrite update_course_students.
      + destruct (addr_in s (c_students co)); cbn; [eauto|].
        eexists. split; [by apply update_course_lookup | done]. }
  destruct H1 as (Hok & Hin & Hnd & Hs' & co' & Hc' & Hname).
  split_and!; [done | by apply is_enrolled_elem | by apply get_courses_by_student_elem
               | by apply get_students_by_course_elem | done |].
  subst r2. destruct (final r1) as [e1 h1]. cbn [fst snd] in *.
  rewrite (enroll_student_run e1 h1 s c st co' Hs' Hc').
  apply is_enrolled_elem in Hin. by rewrite Hin, Hname.
Qed.

(** X4. [Enrollment.unenroll_student] undoes the pair that [enroll_student]
    recorded: after enrolling a pair that was not enrolled and unenrolling
    it, the [Enrollment] object is what it was before; unenrolling once more
    changes nothing and prints that the student is not enrolled. *)
Theorem unenroll_student_undoes_the_pair
    (e : Enrollment) (h : Heap) (s c : addr) (st : Student) (co : Course) :
  student_objs h !! s = Some st ->
  course_objs h !! c = Some co ->
  Enrollment_is_student_enrolled e s c = false ->
  let r1 := Enrollment_enroll_student s c (e, h) in
  let r2 := Enrollment_unenroll_student s c (final r1) in
  let r3 := Enrollment_unenroll_student s c (final r2) in
  outcome r2 = Ok tt /\
  printed r2 = [MsgUnenrolled (name (s_person st)) (course_name co)] /\
  fst (final r2) = e /\
  r3 = Run (final r2) [MsgNotEnrolled (name (s_person st)) (course_name co)] (Ok tt).
Proof.
  intros Hs Hc Hnot r1 r2 r3.
  assert (H1 : final r1 = (mkEnrollment (enrollments_ e ++ [(s, c)]),
                           final (Course_add_student c s h))).
  { subst r1. by rewrite (enroll_student_run e h s c st co Hs Hc), Hnot. }
  assert (Hs' : student_objs (final (Course_add_student c s h)) !! s = Some st).
  { rewrite (Course_add_student_run h c s co st Hc Hs).
    destruct (addr_in s (c_students co)); cbn; [done|]. by rewrite update_course_students. }
  assert (Hc' : exists co', course_objs (final (Course_add_student c s h)) !! c = Some co' /\
                            course_name co' = course_name co).
  { rewrite (Course_add_student_run h c s co st Hc Hs).
    destruct (addr_in s (c_students co)); cbn; [eauto|].
    eexists. split; [by apply update_course_lookup | done]. }
  destruct Hc' as (co' & Hc' & Hname).
  assert (Hnotin : (s, c) ∉ enrollments_ e).
  { intros H. apply is_enrolled_elem in H. congruence. }
  assert (H2 : r2 = Run (e, final (Course_add_student c s h))
                        [MsgUnenrolled (name (s_person st)) (course_name co)] (Ok tt)).
  { subst r2. rewrite H1.
    assert (Hin : Enrollment_is_student_enrolled
                    (mkEnrollment (enrollments_ e ++ [(s, c)])) s c = true).
    { apply is_enrolled_elem. cbn. apply elem_of_app. right.
      by apply list_elem_of_singleton. }
    rewrite (unenroll_student_run _ _ s c st co' Hs' Hc'), Hin. cbn [enrollments_].
    rewrite remove_first_snoc by done. rewrite Hname. by destruct e. }
  subst r3. rewrite H2. cbn [final outcome printed fst].
  split_and!; try done.
  by rewrite (unenroll_student_run _ _ s c st co' Hs' Hc'), Hnot, Hname.
Qed.

Lemma enroll_student_twice_enrolls_once_witness :
  let co := Course_init (PStr "Logic") (PStr "CS101") 0 (PNum 3) in
  let st := Student_init (PStr "Ana") (PStr "ana@uni.edu") (PStr "09171234567") (PStr "Manila")
                         (PStr "S1") (PNum 1) (PStr "BSCS") (PNum 0) PNone None
                         (PStr "Student") in
  let e := mkEnrollment [] in
  let h := mkHeap [] [co] [st] [] in
  let r1 := Enrollment_enroll_student 0 0 (e, h) in
  let r2 := Enrollment_enroll_student 0 0 (final r1) in
  outcome r1 = Ok tt /\
  Enrollment_is_student_enrolled (fst (final r1)) 0 0 = true /\
  0 ∈ Enrollment_get_courses_by_student (fst (final r1)) 0 /\
  0 ∈ Enrollment_get_students_by_course (fst (final r1)) 0 /\
  (NoDup (enrollments_ e) -> NoDup (enrollments_ (fst (final r1)))) /\
  r2 = Run (final r1) [MsgAlreadyEnrolled (name (s_person st)) (course_name co)] (Ok tt).
Proof.
  intros co st e h. apply (enroll_student_twice_enrolls_once e h 0 0 st co); reflexivity.
Defined.

Lemma unenroll_student_undoes_the_pair_witness :
  let co := Course_init (PStr "Logic") (PStr "CS101") 0 (PNum 3) in
  let st := Student_init (PStr "Ana") (PStr "ana@uni.edu") (PStr "09171234567") (PStr "Manila")
                         (PStr "S1") (PNum 1) (PStr "BSCS") (PNum 0) PNone None
                         (PStr "Student") in
  let e := mkEnrollment [(4, 2)] in
  let h := mkHeap [] [co] [st] [] in
  let r1 := Enrollment_enroll_student 0 0 (e, h) in
  let r2 := Enrollment_unenroll_student 0 0 (final r1) in
  let r3 := Enrollment_unenroll_student 0 0 (final r2) in
  outcome r2 = Ok tt /\
  printed r2 = [MsgUnenrolled (name (s_person st)) (course_name co)] /\
  fst (final r2) = e /\
  r3 = Run (final r2) [MsgNotEnrolled (name (s_person st)) (course_name co)] (Ok tt).
Proof.
  intros co st e h. apply (unenroll_student_undoes_the_pair e h 0 0 st co); reflexivity.
Defined.

(** ** Grade *)

Lemma score_in_range_iff (v : Q) :
  Qle_bool 0 v && Qle_bool v 100 = true <-> (0 <= v /\ v <= 100)%Q.
Proof. by rewrite andb_true_iff, !Qle_bool_iff. Qed.

(** X5. The score of a grade is within [0, 100] whenever the constructor or
    the setter returns normally: [Grade.__init__] yields an object exactly
    for the scores in range (holding the arguments as given), and a call of
    the [score] setter that returns leaves a score in range. *)
Theorem grade_score_in_range_on_normal_return
    (student assignment : addr) (v : Q) (fb : option string) (g : Grade) :
  (forall g', Grade_init student assignment v fb = Ok g' ->
              g' = mkGrade student assignment v fb /\ (0 <= v /\ v <= 100)%Q) /\
  ((0 <= v /\ v <= 100)%Q ->
   Grade_init student assignment v fb = Ok (mkGrade student assignment v fb) /\
   Grade_set_score v g = Run (set_score v g) [] (Ok tt)) /\
  (outcome (Grade_set_score v g) = Ok tt ->
   (0 <= score (final (Grade_set_score v g)) /\ score (final (Grade_set_score v g)) <= 100)%Q).
Proof.
  pose proof (score_in_range_iff v) as Hiff.
  unfold Grade_init, Grade_set_score, Grade_validate_score.
  rewrite !bind_modify, !bind_get. cbn [score set_score].
  destruct (Qle_bool 0 v && Qle_bool v 100); cbn.
  - assert (Hr : (0 <= v /\ v <= 100)%Q) by by apply Hiff.
    split_and!; [|done|done].
    intros g' [= <-]. done.
  - split_and!; [done | | done].
    intros Hr. apply Hiff in Hr. congruence.
Qed.

(** ** Announcement *)

Lemma str_in_elem (k : string) (l : list string) : str_in k l = true <-> k ∈ l.
Proof.
  unfold str_in. rewrite existsb_exists. split.
  - intros (x & Hx & Heq). apply String.eqb_eq in Heq as ->. by apply list_elem_of_In.
  - intros Hk. exists k. split; [by apply list_elem_of_In | apply String.eqb_refl].
Qed.

Lemma str_in_snoc (k g : string) (l : list string) :
  str_in k (l ++ [g]) = str_in k l || String.eqb k g.
Proof. unfold str_in. rewrite existsb_app. cbn. by rewrite orb_false_r. Qed.

Lemma add_recipient_group_run (group : string) (a : Announcement) :
  let r := Announcement_add_recipient_group group a in
  outcome r = Ok tt /\
  an_title (final r) = an_title a /\
  an_content (final r) = an_content a /\
  an_date (final r) = an_date a /\
  recipient_groups (final r)
  = if str_isalnum group && negb (str_in group (recipient_groups a))
    then recipient_groups a ++ [group] else recipient_groups a.
Proof.
  unfold Announcement_add_recipient_group.
  destruct (str_isalnum group); cbn [negb andb]; [|done].
  rewrite bind_get. destruct (str_in group (recipient_groups a)); cbn [negb]; [done|].
  by rewrite bind_modify.
Qed.

(** X6. [Announcement.add_recipient_groups] never raises and adds exactly the
    alphanumeric groups: afterwards a group is a recipient
    ([is_recipient]) if and only if it was one before or it is an
    alphanumeric group of the list; a recipient list without repetition
    stays so, and title, content and date are untouched. *)
Theorem add_recipient_groups_adds_the_valid_ones (groups : list string) (a : Announcement) :
  let r := Announcement_add_recipient_groups groups a in
  outcome r = Ok tt /\
  (forall g, Announcement_is_recipient (final r) g
             = Announcement_is_recipient a g || (str_in g groups && str_isalnum g)) /\
  (NoDup (recipient_groups a) -> NoDup (recipient_groups (final r))) /\
  an_title (final r) = an_title a /\
  an_content (final r) = an_content a /\
  an_date (final r) = an_date a.
Proof.
  unfold Announcement_add_recipient_groups, Announcement_is_recipient.
  revert a. induction groups as [|x groups IH]; intros a; cbn [for_each].
  - cbn. split_and!; try done. intros g. by rewrite orb_false_r.
  - pose proof (add_recipient_group_run x a) as (Hok & Ht & Hc & Hd & Hg).
    cbn zeta in *. unfold bind. rewrite Hok.
    set (a1 := final (Announcement_add_recipient_group x a)) in *.
    destruct (IH a1) as (Hok' & Hmem & Hnd & Ht' & Hc' & Hd').
    cbn [final outcome]. split_and!; [done | | | congruence..].
    + intros g. rewrite Hmem, Hg. cbn [str_in existsb]. fold (str_in g groups).
      destruct (String.eqb g x) eqn:Eg.
      * apply String.eqb_eq in Eg as ->.
        destruct (str_isalnum x), (str_in x (recipient_groups a)) eqn:Ein;
          cbn [andb negb orb]; rewrite ?str_in_snoc, ?String.eqb_refl, ?Ein;
          by destruct (str_in x groups).
      * destruct (str_isalnum x), (str_in x (recipient_groups a));
          cbn [andb negb orb]; rewrite ?str_in_snoc, ?Eg, ?orb_false_r; done.
    + intros Hnd0. apply Hnd. rewrite Hg.
      destruct (str_isalnum x && negb (str_in x (recipient_groups a))) eqn:E; [|done].
      apply andb_true_iff in E as [_ E]. apply negb_true_iff in E.
      apply NoDup_app. split_and!; [done | | apply NoDup_singleton].
      intros y Hy Hy'. apply list_elem_of_singleton in Hy' as ->.
      apply str_in_elem in Hy. congruence.
Qed.

(** ** Course.assign_assignment *)




(** ** Student.from_dict *)

Lemma next_where_elem {A} (test : A -> result bool) (l : list A) (x : A) :
  next_where test l = Ok (Some x) -> x ∈ l.
Proof.
  induction l as [|y l IH]; cbn; [discriminate|].
  destruct (test y) as [[]|e]; cbn; [| |discriminate].
  - intros [= <-]. by left.
  - intros H. right. by apply IH.
Qed.

Lemma Student_enroll_cases (a : addr) (s : Student) :
  let s1 := Student_enroll a s in
  length (enrolled_courses s1) <= S (length (enrolled_courses s)) /\
  set_enrolled_courses (enrolled_courses s) s1 = s /\
  (NoDup (enrolled_courses s) -> NoDup (enrolled_courses s1)) /\
  (forall y, y ∈ enrolled_courses s1 -> y ∈ enrolled_courses s \/ y = a).
Proof.
  unfold Student_enroll. destruct (addr_in a (enrolled_courses s)) eqn:E; cbn.
  - split_and!; [lia | by destruct s | done | by left].
  - split_and!.
    + rewrite length_app. cbn. lia.
    + by destruct s.
    + intros Hnd. apply NoDup_app. split_and!; [done | | apply NoDup_singleton].
      intros y Hy Hy'. apply list_elem_of_singleton in Hy' as ->.
      apply addr_in_elem in Hy. congruence.
    + intros y Hy. apply elem_of_app in Hy as [Hy | Hy]; [by left|].
      right. by apply list_elem_of_singleton in Hy.
Qed.

Lemma enroll_listed_invariant (h : Heap) (all : list addr) (items : list pyval) :
  forall (s s' : Student),
    enroll_listed h all items s = Ok s' ->
    NoDup (enrolled_courses s) ->
    (forall a, a ∈ enrolled_courses s -> a ∈ all) ->
    NoDup (enrolled_courses s') /\
    (forall a, a ∈ enrolled_courses s' -> a ∈ all) /\
    length (enrolled_courses s') <= length (enrolled_courses s) + length items /\
    set_enrolled_courses (enrolled_courses s) s' = s.
Proof.
  induction items as [|x items IH]; intros s s' Hrun Hnd Hsub; cbn in Hrun.
  - injection Hrun as <-. split_and!; [done | done | lia | by destruct s].
  - apply rbind_Ok_inv in Hrun as (found & Hfind & Hrun).
    destruct found as [a|].
    + pose proof (Student_enroll_cases a s) as (Hlen1 & Hsame1 & Hnd1 & Hsub1).
      cbn zeta in *.
      apply IH in Hrun as (Hnd' & Hsub' & Hlen & Hsame).
      * split_and!; [done | done | cbn [length]; lia |].
        rewrite <- Hsame1 at 2. rewrite <- Hsame. by destruct s'.
      * by apply Hnd1.
      * intros y Hy. apply Hsub1 in Hy as [Hy | ->]; [by apply Hsub|].
        unfold find_course in Hfind. by apply next_where_elem in Hfind.
    + apply IH in Hrun as (Hnd' & Hsub' & Hlen & Hsame); [|done..].
      split_and!; [done | done | cbn [length]; lia | done].
Qed.

(** X8. Whenever [Student.from_dict] returns a student, its
    [enrolled_courses] has no repetition, holds only courses of
    [all_courses] and at most as many as the record lists; its role is
    "Student" and its id and name are those of the record. *)
Theorem from_dict_enrolls_within_context
    (h : Heap) (data : pyval) (all_courses : list addr) (s : Student) :
  Student_from_dict h data all_courses = Ok s ->
  NoDup (enrolled_courses s) /\
  (forall a, a ∈ enrolled_courses s -> a ∈ all_courses) /\
  (forall items, py_subscript data "enrolled_courses" = Ok (PList items) ->
                 length (enrolled_courses s) <= length items) /\
  s_role s = PStr "Student" /\
  py_subscript data "student_id" = Ok (student_id s) /\
  py_subscript data "name" = Ok (name (s_person s)).
Proof.
  unfold Student_from_dict. intros H.
  apply rbind_Ok_inv in H as (n & Hn & H).
  apply rbind_Ok_inv in H as (e & He & H).
  apply rbind_Ok_inv in H as (c & Hc & H).
  apply rbind_Ok_inv in H as (a & Ha & H).
  apply rbind_Ok_inv in H as (i & Hi & H).
  apply rbind_Ok_inv in H as (y & Hy & H).
  apply rbind_Ok_inv in H as (p & Hp & H).
  apply rbind_Ok_inv in H as (g & Hg & H).
  apply rbind_Ok_inv in H as (b & Hb & H).
  apply rbind_Ok_inv in H as (l & Hl & H).
  apply rbind_Ok_inv in H as (items & Hitems & H).
  apply enroll_listed_invariant in H as (Hnd & Hsub & Hlen & Hsame);
    [| apply NoDup_nil_2 | intros x Hx; by apply elem_of_nil in Hx].
  cbn in Hlen. apply (f_equal s_role) in Hsame as Hrole.
  apply (f_equal student_id) in Hsame as Hid.
  apply (f_equal (fun x => name (s_person x))) in Hsame as Hname.
  cbn in Hrole, Hid, Hname. subst.
  split_and!; try done.
  intros items' Hsub'. destruct data; try discriminate. cbn in Hsub', Hl.
  unfold dict_get in Hl. destruct (assoc "enrolled_courses" d); [|discriminate].
  injection Hsub' as ->. injection Hl as <-. cbn in Hitems. by injection Hitems as <-.
Qed.

Lemma from_dict_enrolls_within_context_witness :
  let i := Instructor_init (PStr "Dr. Cruz") (PStr "cruz@uni.edu") (PStr "09170000001")
                           (PStr "Manila") (PStr "I1") (PStr "Instructor") in
  let c0 := Course_init (PStr "Logic") (PStr "CS101") 0 (PNum 3) in
  let h := mkHeap [i] [c0] [] [] in
  let data := PDict [("name", PStr "Ana"); ("email", PStr "ana@uni.edu");
                     ("contact_number", PStr "09171234567"); ("address", PStr "Manila");
                     ("student_id", PStr "S1"); ("year_level", PNum 1);
                     ("program", PStr "BSCS");
                     ("enrolled_courses",
                      PList [PDict [("course_code", PStr "CS101")];
                             PDict [("course_code", PStr "PH999")];
                             PDict [("course_code", PStr "CS101")]])] in
  let s := Student_init (PStr "Ana") (PStr "ana@uni.edu") (PStr "09171234567") (PStr "Manila")
                        (PStr "S1") (PNum 1) (PStr "BSCS") (PNum 0) PNone (Some [0])
                        (PStr "Student") in
  NoDup (enrolled_courses s) /\
  (forall a, a ∈ enrolled_courses s -> a ∈ [0]) /\
  (forall items, py_subscript data "enrolled_courses" = Ok (PList items) ->
                 length (enrolled_courses s) <= length items) /\
  s_role s = PStr "Student" /\
  py_subscript data "student_id" = Ok (student_id s) /\
  py_subscript data "name" = Ok (name (s_person s)).
Proof.
  intros i c0 h data s.
  apply (from_dict_enrolls_within_context h data [0] s). reflexivity.
Defined.

(** ** Schedule *)

(** X9. Round trip of a schedule: when the course of a schedule has a string
    course code that occurs in the context, [Schedule.from_dict] applied to
    [to_dict()] returns a schedule with the same day and time whose course
    is a course of the context with the same course code. *)
Theorem schedule_round_trip
    (py_str : pyval -> string) (h : Heap) (s : Schedule) (ctx : list addr)
    (d : pyval) (k : string) :
  Schedule_to_dict h s = Ok d ->
  Forall (fun a => is_Some (course_objs h !! a)) ctx ->
  code_at h (sch_course s) = Some (PStr k) ->
  (exists a', a' ∈ ctx /\ code_at h a' = Some (PStr k)) ->
  exists s',
    Schedule_from_dict py_str h d ctx = Ok s' /\
    day s' = day s /\ time s' = time s /\
    sch_course s' ∈ ctx /\
    code_at h (sch_course s') = code_at h (sch_course s).
Proof.
  intros Hd Hctx Hk Hres. unfold Schedule_to_dict in Hd.
  apply rbind_Ok_inv in Hd as (c & Hc & Hd). injection Hd as <-.
  apply code_at_deref in Hk as Hk'. destruct Hk' as (c' & Hc' & Hcode).
  assert (c' = c) as -> by congruence.
  destruct (find_course_string h ctx k Hctx Hres) as (a1 & Hfind & Ha1).
  unfold Schedule_from_dict.
  rewrite (find_course_ext h ctx _ (fun _ => Ok (PStr k))) by (cbn; by rewrite Hcode).
  rewrite Hfind. cbn. eexists. split; [reflexivity|]. cbn.
  split_and!; [done | done | | congruence].
  unfold find_course in Hfind. by apply next_where_elem in Hfind.
Qed.

Lemma schedule_round_trip_witness :
  let c0 := Course_init (PStr "Logic") (PStr "CS101") 0 (PNum 3) in
  let c1 := Course_init (PStr "Algebra") (PStr "MA101") 0 (PNum 4) in
  let h := mkHeap [] [c0; c1] [] [] in
  let s := mkSchedule 1 (PStr "Monday") (PStr "09:00 AM - 11:00 AM") in
  exists s',
    Schedule_from_dict (fun _ => "") h
      (PDict [("course", PStr "MA101"); ("day", PStr "Monday");
              ("time", PStr "09:00 AM - 11:00 AM")]) [0; 1] = Ok s' /\
    day s' = day s /\ time s' = time s /\
    sch_course s' ∈ [0; 1] /\
    code_at h (sch_course s') = code_at h (sch_course s).
Proof.
  intros c0 c1 h s.
  apply (schedule_round_trip (fun _ => "") h s [0; 1] _ "MA101").
  - reflexivity.
  - repeat constructor; by eexists.
  - reflexivity.
  - exists 1. split; [repeat constructor | reflexivity].
Defined.

Lemma find_course_none (h : Heap) (ctx : list addr) (k : pyval) :
  Forall (fun a => exists c, course_objs h !! a = Some c /\ py_eq (course_code c) k = false)
         ctx ->
  find_course h ctx (fun _ => Ok k) = Ok None.
Proof.
  unfold find_course. induction 1 as [|a ctx (c & Hc & Hne) _ IH]; cbn [next_where]; [done|].
  unfold deref at 1. rewrite Hc. cbn [rbind]. by rewrite Hne.
Qed.

(** X10. [Schedule.from_dict] on a record whose ["course"] equals the code of
    no course of the context (the empty context included) raises
    [ValueError] with the message "Course with code ... not found.". *)
Theorem schedule_from_dict_rejects_unknown_course
    (py_str : pyval -> string) (h : Heap) (ctx : list addr)
    (d : list (string * pyval)) (k : pyval) :
  assoc "course" d = Some k ->
  Forall (fun a => exists c, course_objs h !! a = Some c /\ py_eq (course_code c) k = false)
         ctx ->
  Schedule_from_dict py_str h (PDict d) ctx
  = Raise (ValueError ("Course with code " ++ py_str k ++ " not found.")%string).
Proof.
  intros Hk Hnone. unfold Schedule_from_dict.
  rewrite (find_course_ext h ctx _ (fun _ => Ok k)) by (cbn; by rewrite Hk).
  rewrite (find_course_none h ctx k Hnone). cbn. by rewrite Hk.
Qed.

Lemma schedule_from_dict_rejects_unknown_course_witness :
  let c0 := Course_init (PStr "Logic") (PStr "CS101") 0 (PNum 3) in
  let h := mkHeap [] [c0] [] [] in
  let py_str := fun v => match v with PStr s => s | _ => "" end in
  Schedule_from_dict py_str h
    (PDict [("course", PStr "PH999"); ("day", PStr "Monday"); ("time", PStr "09:00")]) [0]
  = Raise (ValueError "Course with code PH999 not found.").
Proof.
  intros c0 h py_str.
  apply (schedule_from_dict_rejects_unknown_course py_str h [0] _ (PStr "PH999")).
  - reflexivity.
  - repeat constructor. eexists. split; reflexivity.
Defined.

(** ** A repository of students only survives saving and reloading *)

Lemma rmap_Forall2 {A B} (f : A -> result B) (l : list A) (ys : list B) :
  Forall2 (fun x y => f x = Ok y) l ys -> rmap f l = Ok ys.
Proof. induction 1 as [|x y l ys Hx _ IH]; cbn; [done|]. by rewrite Hx, IH. Qed.

Lemma Forall2_fmap_same {A B} (P : A -> B -> Prop) (g : B -> B) (l : list A) (ys : list B) :
  (forall x y, P x y -> P x (g y)) -> Forall2 P l ys -> Forall2 P l (g <$> ys).
Proof. intros Hg. induction 1; cbn; constructor; auto. Qed.

Lemma saved_students_only (h : Heap) (a : PlatformAdmin) (ss : list Student) :
  instructors a = [] -> courses a = [] ->
  Forall2 (fun x s => student_objs h !! x = Some s /\ enrolled_courses s = []) (students a) ss ->
  saved_document h a
  = Ok (PDict [("students", PList (student_record <$> ss)); ("instructors", PList []);
               ("courses", PList []); ("enrollments", PList []); ("schedules", PList [])]).
Proof.
  intros Hi Hc Hss. unfold saved_document. rewrite Hi, Hc. cbn [rmap rbind].
  rewrite (rmap_Forall2 _ _ (student_record <$> ss)).
  - cbn [rbind]. unfold enrollment_rows, schedule_rows.
    rewrite (rmap_Forall2 _ _ ((fun _ => []) <$> ss)).
    + cbn [rbind rmap concat]. repeat f_equal.
      clear. induction ss as [|s ss IH]; cbn; [done|]. exact IH.
    + clear -Hss. induction Hss as [|x s l ss [Hx He] _ IH]; cbn; constructor; [|done].
      unfold deref. rewrite Hx. cbn. by rewrite He.
  - clear -Hss. induction Hss as [|x s l ss [Hx He] _ IH]; cbn; constructor; [|done].
    unfold deref. rewrite Hx. cbn. unfold Student_to_dict. by rewrite He.
Qed.

Lemma load_student_records (h : Heap) (all : list addr) (ss : list Student) :
  rmap (fun d => Student_from_dict h d all) (student_record <$> ss) = Ok (as_loaded <$> ss).
Proof.
  apply rmap_Forall2. induction ss as [|s ss IH]; cbn [fmap list_fmap]; constructor; [|done].
  reflexivity.
Qed.

(** X13. A repository without instructors and courses, whose students are
    enrolled in nothing, survives [save_data] followed by [load_data]: the
    load prints nothing and yields, in the order of the saved collection,
    new student objects with the saved fields (the role reset to
    "Student"), and empty instructor, course and enrollment collections. *)
Theorem students_only_repository_reloads
    (w : Platform) (filename : string) (ss : list Student) :
  instructors (admin (repo w)) = [] ->
  courses (admin (repo w)) = [] ->
  Forall2 (fun x s => student_objs (heap (repo w)) !! x = Some s /\ enrolled_courses s = [])
          (students (admin (repo w))) ss ->
  let w1 := final (save_data filename w) in
  forall w2 : Platform,
    disk w2 filename = disk w1 filename ->
    let r := load_data filename w2 in
    let base := length (student_objs (heap (repo w2))) in
    outcome r = Ok tt /\ printed r = [] /\
    instructors (admin (repo (final r))) = [] /\
    courses (admin (repo (final r))) = [] /\
    enrollments (admin (repo (final r))) = [] /\
    students (admin (repo (final r))) = seq base (length ss) /\
    student_objs (heap (repo (final r)))
    = student_objs (heap (repo w2)) ++ (as_loaded <$> ss).
Proof.
  intros Hi Hc Hss w1 w2 Hdisk r base.
  pose proof (saved_students_only _ _ ss Hi Hc Hss) as Hdoc.
  set (doc := PDict _) in Hdoc.
  assert (Hw1 : disk w1 filename = Document doc).
  { subst w1. unfold save_data, try_except. rewrite bind_get, Hdoc, bind_lift_Ok, bind_modify.
    cbn. by rewrite String.eqb_refl. }
  rewrite Hw1 in Hdisk.
  subst r. rewrite (load_data_run w2 filename doc Hdisk).
  assert (Hrun : load_document doc (repo w2)
                 = Run (mkRepo (mkHeap (instructor_objs (heap (repo w2)) ++ [])
                                       (course_objs (heap (repo w2)))
                                       (student_objs (heap (repo w2)) ++ (as_loaded <$> ss))
                                       (assignment_objs (heap (repo w2))))
                               (mkAdmin (seq base (length (as_loaded <$> ss))) [] [] []))
                       [] (Ok tt)).
  { unfold load_document, load_instructors, load_courses, load_students,
      load_enrollments, load_schedules.
    unfold doc at 1. cbn [py_get dict_get assoc String.eqb Ascii.eqb Bool.eqb].
    run_simp. cbn [rmap]. run_simp. cbn [for_each].
    unfold doc. cbn [py_get dict_get assoc String.eqb Ascii.eqb Bool.eqb].
    run_simp. cbn [for_each]. run_simp.
    cbn [heap admin set_heap set_admin courses set_courses].
    rewrite load_student_records. run_simp. cbn [for_each]. run_simp.
    reflexivity. }
  rewrite Hrun. cbn. rewrite length_fmap. done.
Qed.

Lemma students_only_repository_reloads_witness :
  let s1 := Student_init (PStr "Ana") (PStr "ana@uni.edu") (PStr "09171234567") (PStr "Manila")
                         (PStr "S1") (PNum 1) (PStr "BSCS") (PNum (7 # 2)) PNone None
                         (PStr "Student") in
  let s2 := Student_init (PStr "Ben") (PStr "ben@uni.edu") (PStr "09170000002") (PStr "Cebu")
                         (PStr "S2") (PNum 2) (PStr "BSIT") (PNum 3) (PStr "2004-05-06") None
                         (PStr "Alumnus") in
  let w := mkPlatform (mkRepo (mkHeap [] [] [s1; s2] []) (mkAdmin [1; 0] [] [] []))
                      (fun _ => Absent) in
  let w1 := final (save_data "data.json" w) in
  let w2 := mkPlatform (mkRepo empty_heap (mkAdmin [] [] [] [])) (disk w1) in
  let r := load_data "data.json" w2 in
  outcome r = Ok tt /\ printed r = [] /\
  instructors (admin (repo (final r))) = [] /\
  courses (admin (repo (final r))) = [] /\
  enrollments (admin (repo (final r))) = [] /\
  students (admin (repo (final r))) = [0; 1] /\
  student_objs (heap (repo (final r))) = [as_loaded s2; as_loaded s1].
Proof.
  intros s1 s2 w w1 w2.
  assert (Hss : Forall2 (fun x s => student_objs (heap (repo w)) !! x = Some s /\
                                    enrolled_courses s = [])
                        (students (admin (repo w))) [s2; s1])
    by (repeat constructor).
  exact (students_only_repository_reloads w "data.json" [s2; s1] eq_refl eq_refl Hss
           w2 eq_refl).
Defined.

(** ** Referential integrity of what is loaded *)

Section Preserves.
Context {S : Type} (P : S -> Prop).

Lemma preserves_ret {A} (a : A) : preserves P (ret a).
Proof. by intros s. Qed.

Lemma preserves_raise {A} (e : exn) : preserves P (@raise S A e).
Proof. by intros s. Qed.

Lemma preserves_print (m : Msg) : preserves P (print m).
Proof. by intros s. Qed.

Lemma preserves_lift {A} (r : result A) : preserves P (lift r).
Proof. by destruct r; intros s. Qed.

Lemma preserves_modify (g : S -> S) : (forall s, P s -> P (g s)) -> preserves P (modify g).
Proof. intros H s. apply H. Qed.

Lemma preserves_bind {A B} (m : M S A) (k : A -> M S B) :
  preserves P m -> (forall a, preserves P (k a)) -> preserves P (bind m k).
Proof.
  intros Hm Hk s Hs. unfold bind. specialize (Hm s Hs).
  destruct (outcome (m s)) as [a|e]; cbn; [|done]. by apply Hk.
Qed.

Lemma preserves_for_each {A} (body : A -> M S unit) (l : list A) :
  (forall x, preserves P (body x)) -> preserves P (for_each body l).
Proof.
  intros Hb. induction l as [|x l IH]; cbn; [apply preserves_ret|].
  apply preserves_bind; [apply Hb | by intros _].
Qed.

Lemma preserves_keeps {A T} (f : S -> T) (m : M S A) :
  (forall s s', f s = f s' -> P s -> P s') -> keeps f m -> preserves P m.
Proof. intros Hf Hk s Hs. apply (Hf s); [|done]. symmetry. apply Hk. Qed.
End Preserves.

Lemma load_course_preserves (course_data : pyval) :
  preserves courses_have_instructors (load_course course_data).
Proof.
  intros s Hs. unfold load_course.
  destruct (py_get course_data "instructor_id" PNone) as [id|e];
    [rewrite bind_lift_Ok | by rewrite bind_lift_Raise].
  rewrite bind_get.
  destruct (find_instructor (heap s) (instructors (admin s)) id) as [[i|]|e] eqn:Hf;
    [rewrite bind_lift_Ok | rewrite bind_lift_Ok | by rewrite bind_lift_Raise].
  - destruct (py_subscript course_data "course_name") as [cn|e];
      [rewrite bind_lift_Ok | by rewrite bind_lift_Raise].
    destruct (py_subscript course_data "course_code") as [cc|e];
      [rewrite bind_lift_Ok | by rewrite bind_lift_Raise].
    destruct (py_subscript course_data "units") as [un|e];
      [rewrite bind_lift_Ok | by rewrite bind_lift_Raise].
    rewrite on_objects_run. unfold on_admin, modify. cbn.
    intros ca Hca. cbn in Hca |- *.
    apply elem_of_app in Hca as [Hca | Hca].
    + destruct (Hs ca Hca) as (c & Hc & Hi). exists c. split; [|done].
      by apply lookup_app_l_Some.
    + apply list_elem_of_singleton in Hca as ->. eexists. split; [apply lookup_snoc|].
      cbn. unfold find_instructor in Hf. by apply next_where_elem in Hf.
  - destruct (py_get course_data "course_name" (PStr "Unknown")) as [nm|e];
      [by rewrite bind_lift_Ok | by rewrite bind_lift_Raise].
Qed.

Lemma load_courses_establishes (data : pyval) (s : Repo) :
  courses_have_instructors (final (load_courses data s)).
Proof.
  unfold load_courses. rewrite on_admin_run.
  assert (Hpres : preserves courses_have_instructors
                    (bind (lift (py_get data "courses" (PList [])))
                          (fun recs => bind (lift (py_iter recs))
                                            (fun items => for_each load_course items)))).
  { apply preserves_bind; [apply preserves_lift|]. intros recs.
    apply preserves_bind; [apply preserves_lift|]. intros items.
    apply preserves_for_each. apply load_course_preserves. }
  apply Hpres. intros ca Hca. cbn in Hca. by apply elem_of_nil in Hca.
Qed.

Lemma update_student_courses (a : addr) (f : Student -> Student) (h : Heap) :
  course_objs (update_student a f h) = course_objs h.
Proof. unfold update_student. by destruct (student_objs h !! a). Qed.

Lemma load_rest_keeps_course_links (data : pyval) : keeps course_links (load_rest data).
Proof.
  unfold load_rest, load_students, load_enrollments, load_enrollment,
    load_schedules, load_schedule.
  keeps_auto; try keeps_field;
    unfold on_objects; apply keeps_modify; intros s; unfold course_links;
    cbn [heap admin set_heap];
    by rewrite ?update_student_courses, ?update_course_map.
Qed.

Lemma course_links_integrity (s s' : Repo) :
  course_links s = course_links s' ->
  courses_have_instructors s -> courses_have_instructors s'.
Proof.
  unfold course_links. intros [= Hc Hi Hl] Hs ca Hca. rewrite <- Hc in Hca.
  destruct (Hs ca Hca) as (c & Hlook & Hin).
  apply (f_equal (fun l => l !! ca)) in Hl. rewrite !list_lookup_fmap, Hlook in Hl.
  destruct (course_objs (heap s') !! ca) as [c'|]; [|discriminate].
  exists c'. split; [done|]. cbn in Hl. injection Hl as Hl. by rewrite <- Hl, <- Hi.
Qed.

(** X14. Whenever the instructors phase of [load_data] completes, every
    course of the resulting course collection is a live object whose
    instructor is a member of the resulting instructor collection, whether
    or not a later phase raises. *)
Theorem loaded_courses_have_instructors (w : Platform) (filename : string) (data : pyval) :
  disk w filename = Document data ->
  outcome (load_instructors data (repo w)) = Ok tt ->
  courses_have_instructors (repo (final (load_data filename w))).
Proof.
  intros Hdisk H1. rewrite (load_data_run w filename data Hdisk). cbn [final repo set_repo].
  unfold load_document.
  rewrite (bind_run_Ok _ _ (repo w) (final (load_instructors data (repo w)))
             (printed (load_instructors data (repo w))) tt)
    by (rewrite <- H1; symmetry; apply run_eta).
  cbn [final]. set (s1 := final (load_instructors data (repo w))).
  assert (Hpres : preserves courses_have_instructors (load_rest data)).
  { eapply preserves_keeps; [apply course_links_integrity | apply load_rest_keeps_course_links]. }
  pose proof (load_courses_establishes data s1) as H2.
  unfold bind at 1. destruct (outcome (load_courses data s1)); cbn [final]; [|done].
  by apply Hpres.
Qed.

Lemma rmap_Ok_Forall2 {A B} (f : A -> result B) (l : list A) (ys : list B) :
  rmap f l = Ok ys -> Forall2 (fun x y => f x = Ok y) l ys.
Proof.
  revert ys. induction l as [|x l IH]; intros ys H; cbn in H.
  - injection H as <-. constructor.
  - apply rbind_Ok_inv in H as (y & Hy & H).
    apply rbind_Ok_inv in H as (ys' & Hys & H). injection H as <-.
    constructor; [done | by apply IH].
Qed.

Lemma from_dict_invariant (h : Heap) (data : pyval) (all : list addr) (s : Student) :
  Student_from_dict h data all = Ok s ->
  NoDup (enrolled_courses s) /\ (forall a, a ∈ enrolled_courses s -> a ∈ all).
Proof.
  unfold Student_from_dict. intros H.
  repeat (apply rbind_Ok_inv in H as (? & _ & H)).
  apply enroll_listed_invariant in H as (Hnd & Hsub & _ & _);
    [done | apply NoDup_nil_2 | intros z Hz; by apply elem_of_nil in Hz].
Qed.

Lemma load_students_establishes (data : pyval) (s : Repo) :
  outcome (load_students data s) = Ok tt ->
  students_enrolled_in_collection (final (load_students data s)).
Proof.
  unfold load_students.
  destruct (py_get data "students" (PList [])) as [recs|e];
    [rewrite bind_lift_Ok | by rewrite bind_lift_Raise].
  destruct (py_iter recs) as [items|e]; [rewrite bind_lift_Ok | by rewrite bind_lift_Raise].
  rewrite bind_get.
  destruct (rmap (fun student_data => Student_from_dict (heap s) student_data (courses (admin s)))
                 items) as [objs|e] eqn:Hmap;
    [rewrite bind_lift_Ok | by rewrite bind_lift_Raise].
  rewrite on_objects_run. unfold on_admin, modify, students_enrolled_in_collection. cbn.
  intros _ sa Hsa. unfold fresh in Hsa. apply elem_of_seq in Hsa as [Hlo Hhi].
  apply rmap_Ok_Forall2 in Hmap.
  destruct (objs !! (sa - length (student_objs (heap s)))) as [st|] eqn:Hst.
  - exists st. split.
    + rewrite lookup_app_r by lia. done.
    + destruct (Forall2_lookup_r _ _ _ _ _ Hmap Hst) as (d & _ & Hd).
      by apply from_dict_invariant in Hd.
  - apply lookup_ge_None in Hst. lia.
Qed.

Lemma update_student_lookup (a x : addr) (f : Student -> Student) (h : Heap) (st : Student) :
  student_objs h !! x = Some st ->
  student_objs (update_student a f h) !! x = Some (if decide (x = a) then f st else st).
Proof.
  intros Hx. unfold update_student.
  destruct (student_objs h !! a) as [sa|] eqn:Ha.
  - cbn. destruct (decide (x = a)) as [->|Hne].
    + rewrite list_lookup_insert_eq by (by eapply lookup_lt_Some). congruence.
    + by rewrite list_lookup_insert_ne.
  - destruct (decide (x = a)) as [->|Hne]; [congruence | done].
Qed.

Ltac preserves_step :=
  match goal with
  | |- preserves _ (bind _ _) => apply preserves_bind; [|intros ?]
  | |- preserves _ (ret _) => apply preserves_ret
  | |- preserves _ (raise _) => apply preserves_raise
  | |- preserves _ (print _) => apply preserves_print
  | |- preserves _ (lift _) => apply preserves_lift
  | |- preserves _ (for_each _ _) => apply preserves_for_each; intros ?
  | |- preserves _ (if ?b then _ else _) => destruct b
  | |- preserves _ (match ?x with _ => _ end) => destruct x
  end.

Lemma load_enrollment_preserves (enrollment_data : pyval) :
  preserves students_enrolled_in_collection (load_enrollment enrollment_data).
Proof.
  intros s Hs. unfold load_enrollment. rewrite bind_get.
  destruct (find_student (heap s) (students (admin s))
              (fun _ => py_subscript enrollment_data "student_id")) as [so|e];
    [rewrite bind_lift_Ok | by rewrite bind_lift_Raise].
  destruct (find_course (heap s) (courses (admin s))
              (fun _ => py_subscript enrollment_data "course_code")) as [co|e] eqn:Hfc;
    [rewrite bind_lift_Ok | by rewrite bind_lift_Raise].
  destruct so as [sa|], co as [ca|].
  - rewrite on_objects_run. unfold on_objects, modify, students_enrolled_in_collection. cbn.
    intros x Hx. destruct (Hs x Hx) as (st & Hst & Hnd & Hsub).
    rewrite update_course_students.
    rewrite (update_student_lookup sa x _ _ st Hst). eexists. split; [reflexivity|].
    destruct (decide (x = sa)) as [->|Hne]; [|done].
    pose proof (Student_enroll_cases ca st) as (_ & _ & Hnd1 & Hsub1). cbn zeta in *.
    split; [by apply Hnd1|].
    intros y Hy. apply Hsub1 in Hy as [Hy | ->]; [by apply Hsub|].
    unfold find_course in Hfc. by apply next_where_elem in Hfc.
  - assert (Hp : preserves students_enrolled_in_collection
                   (bind (ret tt)
                         (fun _ => bind (lift (py_subscript enrollment_data "course_code"))
                                        (fun k => print (MsgWarnCourseNotFound k))))).
    { repeat preserves_step. }
    by apply Hp.
  - assert (Hp : preserves students_enrolled_in_collection
                   (bind (bind (lift (py_subscript enrollment_data "student_id"))
                               (fun k => print (MsgWarnStudentNotFound k)))
                         (fun _ => ret tt))).
    { repeat preserves_step. }
    by apply Hp.
  - assert (Hp : preserves students_enrolled_in_collection
                   (bind (bind (lift (py_subscript enrollment_data "student_id"))
                               (fun k => print (MsgWarnStudentNotFound k)))
                         (fun _ => bind (lift (py_subscript enrollment_data "course_code"))
                                        (fun k => print (MsgWarnCourseNotFound k))))).
    { repeat preserves_step. }
    by apply Hp.
Qed.

Lemma load_schedules_keeps_student_links (data : pyval) :
  keeps student_links (load_schedules data).
Proof.
  unfold load_schedules, load_schedule. keeps_auto.
  unfold on_objects. apply keeps_modify. intros s. unfold student_links.
  cbn [heap admin set_heap]. by rewrite update_course_students.
Qed.

Lemma student_links_integrity (s s' : Repo) :
  student_links s = student_links s' ->
  students_enrolled_in_collection s -> students_enrolled_in_collection s'.
Proof.
  unfold student_links, students_enrolled_in_collection.
  intros [= Hs Hc Hl]. rewrite Hs, Hc, Hl. done.
Qed.

Lemma load_enrollments_preserves (data : pyval) :
  preserves students_enrolled_in_collection (load_enrollments data).
Proof.
  unfold load_enrollments. apply preserves_bind.
  - unfold on_admin. apply preserves_modify. by intros s Hs.
  - intros _. repeat preserves_step. apply load_enrollment_preserves.
Qed.

(** X15. Whenever the first three phases of [load_data] complete, every
    student of the resulting collection is a live object whose
    [enrolled_courses] has no repetition and holds only courses of the
    resulting course collection, whether or not a later phase raises. *)
Theorem loaded_students_enrolled_in_collection
    (w : Platform) (filename : string) (data : pyval) :
  disk w filename = Document data ->
  outcome ((load_instructors data ;;; load_courses data ;;; load_students data) (repo w))
  = Ok tt ->
  students_enrolled_in_collection (repo (final (load_data filename w))).
Proof.
  intros Hdisk H123. rewrite (load_data_run w filename data Hdisk). cbn [final repo set_repo].
  apply bind_Ok_inv in H123 as ([] & H1 & H23).
  apply bind_Ok_inv in H23 as ([] & H2 & H3).
  set (s1 := final (load_instructors data (repo w))) in *.
  set (s2 := final (load_courses data s1)) in *.
  unfold load_document.
  rewrite (bind_run_Ok _ _ (repo w) s1 (printed (load_instructors data (repo w))) tt)
    by (rewrite <- H1; symmetry; apply run_eta).
  rewrite (bind_run_Ok _ _ s1 s2 (printed (load_courses data s1)) tt)
    by (rewrite <- H2; symmetry; apply run_eta).
  rewrite (bind_run_Ok _ _ s2 (final (load_students data s2))
             (printed (load_students data s2)) tt)
    by (rewrite <- H3; symmetry; apply run_eta).
  cbn [final].
  pose proof (load_students_establishes data s2 H3) as Hinv.
  assert (Hpres : preserves students_enrolled_in_collection
                    (bind (load_enrollments data) (fun _ => load_schedules data))).
  { apply preserves_bind; [apply load_enrollments_preserves|]. intros _.
    eapply preserves_keeps;
      [apply student_links_integrity | apply load_schedules_keeps_student_links]. }
  by apply Hpres.
Qed.

Lemma loaded_students_enrolled_in_collection_witness :
  let irec := PDict [("instructor_id", PStr "I1"); ("name", PStr "Dr. Cruz");
                     ("email", PStr "cruz@uni.edu"); ("contact_number", PStr "09170000001");
                     ("address", PStr "Manila")] in
  let crec := PDict [("course_name", PStr "Logic"); ("course_code", PStr "C1");
                     ("instructor_id", PStr "I1"); ("units", PNum 3)] in
  let srec := PDict [("name", PStr "Ana"); ("email", PStr "ana@uni.edu");
                     ("contact_number", PStr "09171234567"); ("address", PStr "Manila");
                     ("student_id", PStr "S1"); ("year_level", PNum 1);
                     ("program", PStr "BSCS"); ("enrolled_courses", PList [crec; crec])] in
  let data := PDict [("instructors", PList [irec]); ("courses", PList [crec]);
                     ("students", PList [srec]);
                     ("enrollments", PList [PDict [("student_id", PStr "S1");
                                                   ("course_code", PStr "C1")]])] in
  let w := mkPlatform (mkRepo empty_heap PlatformAdmin_init) (fun _ => Document data) in
  students_enrolled_in_collection (repo (final (load_data "data.json" w))).
Proof.
  intros irec crec srec data w.
  apply (loaded_students_enrolled_in_collection w "data.json" data); reflexivity.
Defined.

Lemma loaded_courses_have_instructors_witness :
  let irec := PDict [("instructor_id", PStr "I1"); ("name", PStr "Dr. Cruz");
                     ("email", PStr "cruz@uni.edu"); ("contact_number", PStr "09170000001");
                     ("address", PStr "Manila")] in
  let crec := PDict [("course_name", PStr "Logic"); ("course_code", PStr "C1");
                     ("instructor_id", PStr "I1"); ("units", PNum 3)] in
  let orphan := PDict [("course_name", PStr "Optics"); ("course_code", PStr "P2");
                       ("instructor_id", PStr "I9"); ("units", PNum 3)] in
  let data := PDict [("instructors", PList [irec]); ("courses", PList [crec; orphan])] in
  let w := mkPlatform (mkRepo empty_heap PlatformAdmin_init) (fun _ => Document data) in
  courses_have_instructors (repo (final (load_data "data.json" w))).
Proof.
  intros irec crec orphan data w.
  apply (loaded_courses_have_instructors w "data.json" data); reflexivity.
Defined.

(** ** The console *)

Lemma say_run {S} (l : Line) (st : Console S) :
  say l st = Run (fst st, snd st ++ [l]) [] (Ok tt).
Proof. done. Qed.

Lemma bind_say {S B} (l : Line) (k : unit -> M (Console S) B) (st : Console S) :
  bind (say l) k st = k tt (fst st, snd st ++ [l]).
Proof. unfold say. by rewrite bind_modify. Qed.

Lemma bind_on_state_modify {S B} (f : S -> S) (k : unit -> M (Console S) B)
    (st : Console S) :
  bind (on_state (modify f)) k st = k tt (f (fst st), snd st).
Proof. unfold on_state, zoom, modify, bind. cbn. apply run_eta. Qed.

#[local] Hint Rewrite @bind_say @bind_on_state_modify @say_run : run.

(** ** Instructor *)

Lemma update_instructor_lookup (h : Heap) (a : addr) (f : Instructor -> Instructor)
    (i : Instructor) :
  instructor_objs h !! a = Some i ->
  instructor_objs (update_instructor a f h) !! a = Some (f i).
Proof.
  intros Hi. unfold update_instructor. rewrite Hi. cbn.
  apply list_lookup_insert_eq. by eapply lookup_lt_Some.
Qed.

Lemma update_instructor_others (h : Heap) (a : addr) (f : Instructor -> Instructor) :
  course_objs (update_instructor a f h) = course_objs h /\
  student_objs (update_instructor a f h) = student_objs h /\
  assignment_objs (update_instructor a f h) = assignment_objs h.
Proof. unfold update_instructor. by destruct (instructor_objs h !! a). Qed.

Lemma teach_course_run (self course : addr) (h : Heap) (out : list Line)
    (i : Instructor) (c : Course) :
  instructor_objs h !! self = Some i ->
  course_objs h !! course = Some c ->
  Instructor_teach_course self course (h, out)
  = if addr_in course (courses_taught i)
    then Run (h, out ++ [LineAlreadyTeaching (name (i_person i)) (course_name c)]) [] (Ok tt)
    else Run (update_instructor self (set_courses_taught (courses_taught i ++ [course])) h,
              out ++ [LineCourseAdded (course_name c) (name (i_person i))]) [] (Ok tt).
Proof.
  intros Hi Hc. unfold Instructor_teach_course, deref. rewrite bind_get. cbn [fst snd].
  rewrite Hi, bind_lift_Ok, Hc.
  destruct (addr_in course (courses_taught i)); cbn [negb]; by run_simp.
Qed.

Lemma assign_assignment_run (self assignment : addr) (h : Heap) (out : list Line)
    (i : Instructor) (a : Assignment) :
  instructor_objs h !! self = Some i ->
  assignment_objs h !! assignment = Some a ->
  Instructor_assign_assignment self assignment (h, out)
  = if negb (addr_in (a_course a) (courses_taught i))
    then Run (h, out ++ [LineCourseNotTaught (Assignment_title a) (name (i_person i))])
             [] (Ok tt)
    else if addr_in assignment (i_assignments i)
    then Run (h, out ++ [LineAlreadyAssigned (Assignment_title a)]) [] (Ok tt)
    else Run (update_instructor self (set_i_assignments (i_assignments i ++ [assignment])) h,
              out ++ [LineAssigned (Assignment_title a) (name (i_person i))]) [] (Ok tt).
Proof.
  intros Hi Ha. unfold Instructor_assign_assignment, deref. rewrite bind_get. cbn [fst snd].
  rewrite Hi, bind_lift_Ok, Ha, bind_lift_Ok.
  destruct (addr_in (a_course a) (courses_taught i)); cbn [negb]; [|by run_simp].
  destruct (addr_in assignment (i_assignments i)); cbn [negb]; by run_simp.
Qed.

Lemma final_lift_say {S A} (r : result A) (f : A -> Line) (st : Console S) :
  fst (final (bind (lift r) (fun x => say (f x)) st)) = fst st.
Proof. destruct r; by run_simp. Qed.

(** X17. The lists of an instructor stay consistent under [teach_course]
    and [assign_assignment], whatever the arguments and whether or not the
    call raises: neither [_courses_taught] nor [_assignments] gets a
    repeated entry, and every assignment in [_assignments] belongs to a
    course in [_courses_taught]. *)
Theorem instructor_lists_stay_consistent (self : addr) (h : Heap) (out : list Line) :
  assigns_for_taught_courses self h ->
  (forall course,
     assigns_for_taught_courses self
       (fst (final (Instructor_teach_course self course (h, out))))) /\
  (forall assignment,
     assigns_for_taught_courses self
       (fst (final (Instructor_assign_assignment self assignment (h, out))))).
Proof.
  intros (i & Hi & Hnc & Hna & Hin). split.
  - intros course. unfold Instructor_teach_course, deref. rewrite bind_get. cbn [fst snd].
    rewrite Hi, bind_lift_Ok.
    destruct (addr_in course (courses_taught i)) eqn:Hmem; cbn [negb].
    + rewrite final_lift_say. cbn. by exists i.
    + rewrite bind_on_state_modify, final_lift_say. cbn [fst snd].
      exists (set_courses_taught (courses_taught i ++ [course]) i).
      destruct (update_instructor_others h self
                  (set_courses_taught (courses_taught i ++ [course]))) as (_ & _ & Ha).
      split_and!.
      * by apply update_instructor_lookup.
      * cbn. apply NoDup_app. split_and!; [done| |apply NoDup_singleton].
        intros x Hx ->%list_elem_of_singleton.
        apply addr_in_elem in Hx. congruence.
      * done.
      * intros a Hm. cbn in Hm. destruct (Hin a Hm) as (x & Hx & Hcx).
        exists x. rewrite Ha. split; [done|]. cbn. apply elem_of_app. by left.
  - intros assignment. unfold Instructor_assign_assignment, deref. rewrite bind_get.
    cbn [fst snd]. rewrite Hi, bind_lift_Ok.
    destruct (assignment_objs h !! assignment) as [a|] eqn:Ha.
    2:{ rewrite bind_lift_Raise. cbn. by exists i. }
    rewrite bind_lift_Ok.
    destruct (addr_in (a_course a) (courses_taught i)) eqn:Hc; cbn [negb].
    2:{ rewrite say_run. cbn. by exists i. }
    destruct (addr_in assignment (i_assignments i)) eqn:Hmem; cbn [negb].
    { rewrite say_run. cbn. by exists i. }
    rewrite bind_on_state_modify, say_run. cbn [fst snd final].
    exists (set_i_assignments (i_assignments i ++ [assignment]) i).
    destruct (update_instructor_others h self
                (set_i_assignments (i_assignments i ++ [assignment]))) as (_ & _ & Hao).
    split_and!.
    + by apply update_instructor_lookup.
    + done.
    + cbn. apply NoDup_app. split_and!; [done| |apply NoDup_singleton].
      intros x Hx ->%list_elem_of_singleton.
      apply addr_in_elem in Hx. congruence.
    + intros b Hm. cbn in Hm. rewrite Hao. cbn.
      apply elem_of_app in Hm as [Hm| ->%list_elem_of_singleton]; [by apply Hin|].
      exists a. split; [done|]. by apply addr_in_elem.
Qed.

Lemma instructor_lists_stay_consistent_witness :
  let i := Instructor_init (PStr "Dr. Cruz") (PStr "cruz@uni.edu") (PStr "09170000001")
                           (PStr "Manila") (PStr "I1") (PStr "Instructor") in
  let c := Course_init (PStr "Logic") (PStr "CS101") 0 (PNum 3) in
  let a := mkAssignment "Essay" "Two pages" (mkDatetime 1924991999000000 None) 0 [] in
  let h := mkHeap [set_i_assignments [0] (set_courses_taught [0] i)] [c] [] [a] in
  assigns_for_taught_courses 0 h /\
  (forall course,
     assigns_for_taught_courses 0 (fst (final (Instructor_teach_course 0 course (h, []))))) /\
  (forall assignment,
     assigns_for_taught_courses 0
       (fst (final (Instructor_assign_assignment 0 assignment (h, []))))).
Proof.
  intros i c a h.
  assert (H : assigns_for_taught_courses 0 h).
  { exists (set_i_assignments [0] (set_courses_taught [0] i)).
    split_and!; [done|apply NoDup_singleton|apply NoDup_singleton|].
    intros x ->%list_elem_of_singleton. exists a. split; [done|]. cbn. constructor. }
  split; [exact H|]. exact (instructor_lists_stay_consistent 0 h [] H).
Defined.

(** X18. [Instructor.assign_assignment] refuses an assignment of a course
    the instructor does not teach, changing no object; once [teach_course]
    has added that course, the same call appends the assignment to
    [_assignments]. *)
Theorem assignment_refused_until_course_is_taught
    (self assignment : addr) (h : Heap) (out : list Line)
    (i : Instructor) (a : Assignment) (c : Course) :
  instructor_objs h !! self = Some i ->
  assignment_objs h !! assignment = Some a ->
  course_objs h !! a_course a = Some c ->
  a_course a ∉ courses_taught i ->
  assignment ∉ i_assignments i ->
  let r1 := Instructor_assign_assignment self assignment (h, out) in
  let r2 := (Instructor_teach_course self (a_course a) ;;;
             Instructor_assign_assignment self assignment) (h, out) in
  r1 = Run (h, out ++ [LineCourseNotTaught (Assignment_title a) (name (i_person i))])
           [] (Ok tt) /\
  outcome r2 = Ok tt /\
  instructor_objs (fst (final r2)) !! self
  = Some (mkInstructor (i_person i) (instructor_id i) (i_role i)
                       (courses_taught i ++ [a_course a])
                       (i_assignments i ++ [assignment]) (i_course i)) /\
  course_objs (fst (final r2)) = course_objs h /\
  assignment_objs (fst (final r2)) = assignment_objs h /\
  snd (final r2) = out ++ [LineCourseAdded (course_name c) (name (i_person i));
                           LineAssigned (Assignment_title a) (name (i_person i))].
Proof.
  intros Hi Ha Hc Hnt Hna r1 r2.
  assert (Hnt' : addr_in (a_course a) (courses_taught i) = false).
  { apply not_true_is_false. by rewrite addr_in_elem. }
  assert (Hna' : addr_in assignment (i_assignments i) = false).
  { apply not_true_is_false. by rewrite addr_in_elem. }
  split.
  { subst r1. by rewrite (assign_assignment_run _ _ _ _ i a Hi Ha), Hnt'. }
  subst r2.
  set (i1 := set_courses_taught (courses_taught i ++ [a_course a]) i).
  set (h1 := update_instructor self (set_courses_taught (courses_taught i ++ [a_course a])) h).
  assert (Hi1 : instructor_objs h1 !! self = Some i1) by by apply update_instructor_lookup.
  destruct (update_instructor_others h self
              (set_courses_taught (courses_taught i ++ [a_course a]))) as (Hco & _ & Hao).
  fold h1 in Hco, Hao.
  assert (Ha1 : assignment_objs h1 !! assignment = Some a) by by rewrite Hao.
  erewrite bind_run_Ok;
    [|by rewrite (teach_course_run _ _ _ _ i c Hi Hc), Hnt'].
  rewrite (assign_assignment_run _ _ _ _ i1 a Hi1 Ha1).
  assert (Hin : addr_in (a_course a) (courses_taught i1) = true).
  { apply addr_in_elem. cbn. apply elem_of_app. right. constructor. }
  rewrite Hin. cbn [negb]. change (i_assignments i1) with (i_assignments i). rewrite Hna'.
  cbn [final outcome fst snd].
  destruct (update_instructor_others h1 self
              (set_i_assignments (i_assignments i ++ [assignment]))) as (Hco2 & _ & Hao2).
  split_and!.
  - done.
  - by rewrite (update_instructor_lookup h1 self _ i1 Hi1).
  - by rewrite Hco2.
  - by rewrite Hao2.
  - by rewrite <- app_assoc.
Qed.

Lemma assignment_refused_until_course_is_taught_witness :
  let i := Instructor_init (PStr "Dr. Cruz") (PStr "cruz@uni.edu") (PStr "09170000001")
                           (PStr "Manila") (PStr "I1") (PStr "Instructor") in
  let c := Course_init (PStr "Logic") (PStr "CS101") 0 (PNum 3) in
  let a := mkAssignment "Essay" "Two pages" (mkDatetime 1924991999000000 None) 0 [] in
  let h := mkHeap [i] [c] [] [a] in
  let r1 := Instructor_assign_assignment 0 0 (h, []) in
  let r2 := (Instructor_teach_course 0 0 ;;; Instructor_assign_assignment 0 0) (h, []) in
  r1 = Run (h, [LineCourseNotTaught "Essay" (PStr "Dr. Cruz")]) [] (Ok tt) /\
  outcome r2 = Ok tt /\
  instructor_objs (fst (final r2)) !! 0
  = Some (mkInstructor (i_person i) (PStr "I1") (PStr "Instructor") [0] [0] []) /\
  course_objs (fst (final r2)) = [c] /\
  assignment_objs (fst (final r2)) = [a] /\
  snd (final r2) = [LineCourseAdded (PStr "Logic") (PStr "Dr. Cruz");
                    LineAssigned "Essay" (PStr "Dr. Cruz")].
Proof.
  intros i c a h.
  apply (assignment_refused_until_course_is_taught 0 0 h [] i a c);
    [reflexivity | reflexivity | reflexivity | | ]; cbn; by intros ?%elem_of_nil.
Defined.

(** ** The grade book of a course *)

Lemma py_eq_refl_hashable (v : pyval) : hashable v = true -> py_eq v v = true.
Proof.
  destruct v as [|b|q|s| |]; cbn; try done; intros _.
  - by destruct b.
  - apply Qeq_bool_iff. reflexivity.
  - apply String.eqb_refl.
Qed.

Lemma grade_keys_distinct_snoc (l : list (pyval * string * Grade)) (e : pyval * string * Grade) :
  grade_keys_distinct l ->
  existsb (grade_key_is (fst (fst e)) (snd (fst e))) l = false ->
  grade_keys_distinct (l ++ [e]).
Proof.
  intros Hl He l1 x l2 Heq.
  destruct l2 as [|y l2 _] using rev_ind.
  - apply app_inj_tail in Heq as [-> ->]. exact He.
  - rewrite app_comm_cons, app_assoc in Heq. apply app_inj_tail in Heq as [-> _].
    by eapply Hl.
Qed.

Lemma Course_add_grade_run (self : addr) (g : Grade) (h : Heap) (out : list Line)
    (c : Course) (s : Student) (a : Assignment) :
  course_objs h !! self = Some c ->
  student_objs h !! g_student g = Some s ->
  assignment_objs h !! g_assignment g = Some a ->
  Course_add_grade self g (h, out)
  = if negb (hashable (student_id s)) then Run (h, out) [] (Raise TypeError)
    else if existsb (grade_key_is (student_id s) (Assignment_title a)) (c_grades c)
    then Run (h, out ++ [LineGradeExists (name (s_person s)) (Assignment_title a)])
             [] (Ok tt)
    else Run (update_course self
                (set_c_grades (c_grades c ++ [(student_id s, Assignment_title a, g)])) h,
              out ++ [LineGradeAdded (course_name c) g]) [] (Ok tt).
Proof.
  intros Hc Hs Ha. unfold Course_add_grade, deref. rewrite bind_get. cbn [fst snd].
  rewrite Hc, bind_lift_Ok, Hs, bind_lift_Ok, Ha, bind_lift_Ok.
  destruct (hashable (student_id s)); cbn [negb]; [|done].
  destruct (existsb _ (c_grades c)); by run_simp.
Qed.

(** X19. [Course.add_grade] never overwrites: for live objects and a
    hashable student id, the call returns, afterwards the grade book has an
    entry for the student and the assignment's title, its keys are still
    pairwise different, and an entry is appended only if the key was
    absent; a further grade of the same student for the same assignment,
    whatever its score, changes no object and is reported as existing.  An
    unhashable student id raises [TypeError] before anything changes. *)
Theorem add_grade_never_overwrites
    (self : addr) (g g' : Grade) (h : Heap) (out : list Line)
    (c : Course) (s : Student) (a : Assignment) :
  course_objs h !! self = Some c ->
  student_objs h !! g_student g = Some s ->
  assignment_objs h !! g_assignment g = Some a ->
  g_student g' = g_student g ->
  g_assignment g' = g_assignment g ->
  grade_keys_distinct (c_grades c) ->
  let r1 := Course_add_grade self g (h, out) in
  let r2 := Course_add_grade self g' (final r1) in
  let present := existsb (grade_key_is (student_id s) (Assignment_title a)) (c_grades c) in
  (hashable (student_id s) = false -> r1 = Run (h, out) [] (Raise TypeError)) /\
  (hashable (student_id s) = true ->
   outcome r1 = Ok tt /\
   (exists c1, course_objs (fst (final r1)) !! self = Some c1 /\
      c_grades c1 = (if present then c_grades c
                     else c_grades c ++ [(student_id s, Assignment_title a, g)]) /\
      grade_keys_distinct (c_grades c1)) /\
   student_objs (fst (final r1)) = student_objs h /\
   assignment_objs (fst (final r1)) = assignment_objs h /\
   r2 = Run (fst (final r1),
             snd (final r1) ++ [LineGradeExists (name (s_person s)) (Assignment_title a)])
            [] (Ok tt)).
Proof.
  intros Hc Hs Ha Hs' Ha' Hd r1 r2 present.
  pose proof (Course_add_grade_run self g h out c s a Hc Hs Ha) as H1.
  fold r1 in H1. fold present in H1.
  split; intros Hh; rewrite Hh in H1; cbn [negb] in H1; [done|].
  assert (Hkey : grade_key_is (student_id s) (Assignment_title a)
                   (student_id s, Assignment_title a, g) = true).
  { unfold grade_key_is. cbn. by rewrite py_eq_refl_hashable, String.eqb_refl. }
  destruct present eqn:Hp.
  - subst r2. rewrite H1. cbn [final outcome fst snd]. split_and!; try done.
    + by exists c.
    + rewrite <- Hs' in Hs. rewrite <- Ha' in Ha.
      rewrite (Course_add_grade_run self g' h _ c s a Hc Hs Ha), Hh. cbn [negb].
      fold present. by rewrite Hp.
  - set (c1 := set_c_grades (c_grades c ++ [(student_id s, Assignment_title a, g)]) c) in *.
    set (h1 := update_course self (set_c_grades _) h) in *.
    assert (Hc1 : course_objs h1 !! self = Some c1) by by apply update_course_lookup.
    assert (Hso : student_objs h1 = student_objs h /\ assignment_objs h1 = assignment_objs h).
    { unfold h1, update_course. by destruct (course_objs h !! self). }
    destruct Hso as [Hso Hao].
    subst r2. rewrite H1. cbn [final outcome fst snd]. split_and!; try done.
    + exists c1. split_and!; [done|done|].
      apply grade_keys_distinct_snoc; [done|exact Hp].
    + rewrite <- Hs', <- Hso in Hs. rewrite <- Ha', <- Hao in Ha.
      rewrite (Course_add_grade_run self g' h1 _ c1 s a Hc1 Hs Ha), Hh. cbn [negb].
      cbn [c_grades c1 set_c_grades]. unfold c1. cbn [c_grades set_c_grades].
      rewrite existsb_app. cbn [existsb]. rewrite Hkey.
      by rewrite orb_true_r.
Qed.

Lemma add_grade_never_overwrites_witness :
  let c := Course_init (PStr "Logic") (PStr "CS101") 0 (PNum 3) in
  let s := Student_init (PStr "Ana") (PStr "ana@uni.edu") (PStr "09171234567") (PStr "Manila")
                        (PStr "S1") (PNum 1) (PStr "BSCS") (PNum 0) PNone None
                        (PStr "Student") in
  let a := mkAssignment "Essay" "Two pages" (mkDatetime 1924991999000000 None) 0 [] in
  let h := mkHeap [] [c] [s] [a] in
  let g := mkGrade 0 0 (90 # 1) None in
  let g' := mkGrade 0 0 (40 # 1) (Some "late") in
  let r1 := Course_add_grade 0 g (h, []) in
  let r2 := Course_add_grade 0 g' (final r1) in
  (hashable (PStr "S1") = false -> r1 = Run (h, []) [] (Raise TypeError)) /\
  (hashable (PStr "S1") = true ->
   outcome r1 = Ok tt /\
   (exists c1, course_objs (fst (final r1)) !! 0 = Some c1 /\
      c_grades c1 = [(PStr "S1", "Essay", g)] /\
      grade_keys_distinct (c_grades c1)) /\
   student_objs (fst (final r1)) = [s] /\
   assignment_objs (fst (final r1)) = [a] /\
   r2 = Run (fst (final r1), snd (final r1) ++ [LineGradeExists (PStr "Ana") "Essay"])
            [] (Ok tt)).
Proof.
  intros c s a h g g'.
  apply (add_grade_never_overwrites 0 g g' h [] c s a);
    [reflexivity | reflexivity | reflexivity | reflexivity | reflexivity |].
  intros l1 e l2 Heq. by destruct l1.
Defined.

(** ** The grades of an assignment *)

Lemma update_assignment_lookup (h : Heap) (a : addr) (f : Assignment -> Assignment)
    (x : Assignment) :
  assignment_objs h !! a = Some x ->
  assignment_objs (update_assignment a f h) !! a = Some (f x).
Proof.
  intros Hx. unfold update_assignment. rewrite Hx. cbn.
  apply list_lookup_insert_eq. by eapply lookup_lt_Some.
Qed.

Lemma update_assignment_others (h : Heap) (a : addr) (f : Assignment -> Assignment) :
  course_objs (update_assignment a f h) = course_objs h /\
  student_objs (update_assignment a f h) = student_objs h /\
  instructor_objs (update_assignment a f h) = instructor_objs h.
Proof. unfold update_assignment. by destruct (assignment_objs h !! a). Qed.

Lemma next_where_grade_rows (sid : string) (rows : list (Q * string * string)) :
  exists found,
    next_where (fun g => sid0 <- py_subscript g "student_id" ;;
                         Ok (py_eq sid0 (PStr sid)))
               (grade_rows rows) = Ok found /\
    (if str_in sid (row_ids rows) then is_Some found else found = None).
Proof.
  induction rows as [|[[q s] f] rows (found & IH & Hf)]; [by exists None|].
  cbn [grade_rows row_ids fmap list_fmap next_where fst snd str_in existsb].
  unfold grade_entry at 1. cbn [py_subscript assoc String.eqb Ascii.eqb Bool.eqb rbind py_eq].
  rewrite (String.eqb_sym sid s).
  destruct (String.eqb s sid); cbn [orb].
  - by eexists.
  - exists found. split; [exact IH|exact Hf].
Qed.

Lemma Assignment_add_grade_run (self : addr) (grade : Q) (fb sid : string)
    (h : Heap) (out : list Line) (a : Assignment) (rows : list (Q * string * string)) :
  assignment_objs h !! self = Some a ->
  a_grades a = grade_rows rows ->
  Assignment_add_grade self grade fb sid (h, out)
  = if negb (Qle_bool 0 grade && Qle_bool grade 100)
    then Run (h, out ++ [LineGradeOutOfRange]) [] (Ok tt)
    else if str_in sid (row_ids rows)
    then Run (h, out ++ [LineStudentGradeExists sid]) [] (Ok tt)
    else Run (update_assignment self
                (set_a_grades (grade_rows (rows ++ [(grade, sid, fb)]))) h,
              out ++ [LineScoreAdded grade sid (Assignment_title a)]) [] (Ok tt).
Proof.
  intros Ha Hrows. unfold Assignment_add_grade.
  destruct (Qle_bool 0 grade && Qle_bool grade 100); cbn [negb]; [|done].
  rewrite bind_get. cbn [fst snd]. unfold deref. rewrite Ha, bind_lift_Ok, Hrows.
  destruct (next_where_grade_rows sid rows) as (found & -> & Hf).
  rewrite bind_lift_Ok.
  destruct (str_in sid (row_ids rows)).
  - destruct Hf as [x ->]. by run_simp.
  - subst found. run_simp. unfold grade_rows. by rewrite fmap_app.
Qed.

(** X20. [Assignment.add_grade] keeps one grade per student id, with its
    score within [0, 100]: on an assignment whose grades were entered by
    this method, the call returns; it appends the entry exactly when the
    grade is in range and the student id has no entry yet, and then
    [grade_count] grows by one; otherwise nothing changes.  In range scores
    and pairwise different student ids are kept. *)
Theorem assignment_add_grade_one_per_student
    (self : addr) (grade : Q) (fb sid : string) (h : Heap) (out : list Line)
    (a : Assignment) (rows : list (Q * string * string)) :
  assignment_objs h !! self = Some a ->
  a_grades a = grade_rows rows ->
  let r := Assignment_add_grade self grade fb sid (h, out) in
  let accepted := Qle_bool 0 grade && Qle_bool grade 100 && negb (str_in sid (row_ids rows)) in
  let rows' := if accepted then rows ++ [(grade, sid, fb)] else rows in
  outcome r = Ok tt /\
  (exists a', assignment_objs (fst (final r)) !! self = Some a' /\
     a_grades a' = grade_rows rows' /\
     Assignment_grade_count a'
     = (Assignment_grade_count a + (if accepted then 1 else 0))%nat) /\
  (accepted = false -> fst (final r) = h) /\
  (Forall row_in_range rows -> Forall row_in_range rows') /\
  (NoDup (row_ids rows) -> NoDup (row_ids rows')).
Proof.
  intros Ha Hrows r accepted rows'.
  pose proof (Assignment_add_grade_run self grade fb sid h out a rows Ha Hrows) as Hr.
  fold r in Hr.
  assert (Hkeep : accepted = false -> r = Run (h, snd (final r)) [] (Ok tt)).
  { subst accepted. intros Hacc. rewrite Hr.
    destruct (Qle_bool 0 grade && Qle_bool grade 100); cbn [negb andb] in *; [|done].
    by destruct (str_in sid (row_ids rows)). }
  destruct accepted eqn:Hacc; subst rows'.
  - apply andb_prop in Hacc as [Hrange Hnew]. apply negb_true_iff in Hnew.
    rewrite Hrange, Hnew in Hr. cbn [negb] in Hr. rewrite Hr. cbn [final outcome fst].
    split_and!.
    + done.
    + eexists. split; [by apply update_assignment_lookup|]. split; [done|].
      unfold Assignment_grade_count. cbn [a_grades set_a_grades].
      rewrite Hrows. unfold grade_rows. rewrite !length_fmap, length_app. done.
    + done.
    + intros Hall. apply Forall_app. split; [done|]. constructor; [|done].
      apply andb_prop in Hrange as [H0 H100].
      split; cbn; by apply Qle_bool_iff.
    + intros Hnd. unfold row_ids. rewrite fmap_app. apply NoDup_app.
      split_and!; [done| |apply NoDup_singleton].
      intros x Hx Hx2. apply list_elem_of_singleton in Hx2. cbn in Hx2. subst x.
      apply str_in_elem in Hx. fold (row_ids rows) in Hx. congruence.
  - rewrite (Hkeep eq_refl). cbn [final outcome fst]. split_and!; try done.
    exists a. split_and!; [done|done|lia].
Qed.

Lemma assignment_add_grade_one_per_student_witness :
  let a := mkAssignment "Essay" "Two pages" (mkDatetime 1924991999000000 None) 0
                        (grade_rows [(90 # 1, "S1", "good")]) in
  let h := mkHeap [] [] [] [a] in
  let r := Assignment_add_grade 0 (75 # 1) "fine" "S2" (h, []) in
  outcome r = Ok tt /\
  (exists a', assignment_objs (fst (final r)) !! 0 = Some a' /\
     a_grades a' = grade_rows [(90 # 1, "S1", "good"); (75 # 1, "S2", "fine")] /\
     Assignment_grade_count a' = 2%nat) /\
  (true = false -> fst (final r) = h) /\
  (Forall row_in_range [(90 # 1, "S1", "good")] ->
   Forall row_in_range [(90 # 1, "S1", "good"); (75 # 1, "S2", "fine")]) /\
  (NoDup (row_ids [(90 # 1, "S1", "good")]) ->
   NoDup (row_ids [(90 # 1, "S1", "good"); (75 # 1, "S2", "fine")])).
Proof.
  intros a h.
  exact (assignment_add_grade_one_per_student 0 (75 # 1) "fine" "S2" h [] a
           [(90 # 1, "S1", "good")] eq_refl eq_refl).
Defined.

(** ** Entering a grade at the prompt *)

Lemma Grade_init_run (student assignment : addr) (v : Q) (fb : option string) :
  Grade_init student assignment v fb
  = if Qle_bool 0 v && Qle_bool v 100 then Ok (mkGrade student assignment v fb)
    else Raise (ValueError "Score must be between 0 and 100.").
Proof.
  unfold Grade_init, Grade_validate_score. rewrite bind_get. cbn [score].
  by destruct (Qle_bool 0 v && Qle_bool v 100).
Qed.

(** X21. [Course._handle_grade_input] enters the score in the assignment
    without a student id, so that an assignment takes only the first score
    entered this way, while the grade book of the course takes one grade
    per student and title; "added" is reported in either case.  A text that
    is no number, or a score outside [0, 100], changes no object and is
    reported as an invalid score. *)
Theorem handle_grade_input_fills_assignment_once
    (float_of : string -> option Q) (self student assignment : addr)
    (text fb : string) (h : Heap) (out : list Line)
    (c : Course) (s : Student) (a : Assignment) (rows : list (Q * string * string)) :
  course_objs h !! self = Some c ->
  student_objs h !! student = Some s ->
  assignment_objs h !! assignment = Some a ->
  a_grades a = grade_rows rows ->
  hashable (student_id s) = true ->
  let r := Course_handle_grade_input float_of self student assignment text fb (h, out) in
  let taken := str_in "" (row_ids rows) in
  let present := existsb (grade_key_is (student_id s) (Assignment_title a)) (c_grades c) in
  match float_of text with
  | Some q =>
      if Qle_bool 0 q && Qle_bool q 100 then
        outcome r = Ok tt /\
        (exists a', assignment_objs (fst (final r)) !! assignment = Some a' /\
           a_grades a' = grade_rows (if taken then rows else rows ++ [(q, "", "")])) /\
        (exists c', course_objs (fst (final r)) !! self = Some c' /\
           c_grades c'
           = if present then c_grades c
             else c_grades c ++ [(student_id s, Assignment_title a,
                                  mkGrade student assignment q (Some fb))]) /\
        snd (final r)
        = out ++ [if taken then LineStudentGradeExists ""
                  else LineScoreAdded q "" (Assignment_title a);
                  if present then LineGradeExists (name (s_person s)) (Assignment_title a)
                  else LineGradeAdded (course_name c)
                                      (mkGrade student assignment q (Some fb));
                  LineGradeEntered (name (s_person s)) (Assignment_title a)]
      else r = Run (h, out ++ [LineInvalidScore]) [] (Ok tt)
  | None => r = Run (h, out ++ [LineInvalidScore]) [] (Ok tt)
  end.
Proof.
  intros Hc Hs Ha Hrows Hh r taken present. subst r.
  unfold Course_handle_grade_input.
  destruct (float_of text) as [q|]; [|done].
  rewrite Grade_init_run.
  destruct (Qle_bool 0 q && Qle_bool q 100) eqn:Hrange; [|done].
  set (g := mkGrade student assignment q (Some fb)).
  set (body := bind _ _).
  (* the assignment's step *)
  set (h1 := if taken then h
             else update_assignment assignment
                    (set_a_grades (grade_rows (rows ++ [(q, "", "")]))) h).
  set (a1 := if taken then a else set_a_grades (grade_rows (rows ++ [(q, "", "")])) a).
  set (l1 := if taken then LineStudentGradeExists ""
             else LineScoreAdded q "" (Assignment_title a)).
  assert (H1 : Assignment_add_grade assignment q "" "" (h, out)
               = Run (h1, out ++ [l1]) [] (Ok tt)).
  { rewrite (Assignment_add_grade_run assignment q "" "" h out a rows Ha Hrows), Hrange.
    cbn [negb]. subst h1 l1 taken. by destruct (str_in "" (row_ids rows)). }
  assert (Ha1 : assignment_objs h1 !! assignment = Some a1).
  { subst h1 a1. destruct taken; [done|]. by apply update_assignment_lookup. }
  assert (Hc1 : course_objs h1 !! self = Some c).
  { subst h1. destruct taken; [done|].
    by destruct (update_assignment_others h assignment
                   (set_a_grades (grade_rows (rows ++ [(q, "", "")])))) as (-> & _ & _). }
  assert (Hs1 : student_objs h1 !! student = Some s).
  { subst h1. destruct taken; [done|].
    by destruct (update_assignment_others h assignment
                   (set_a_grades (grade_rows (rows ++ [(q, "", "")])))) as (_ & -> & _). }
  assert (Ht1 : Assignment_title a1 = Assignment_title a) by (subst a1; by destruct taken).
  (* the course's step *)
  set (f2 := set_c_grades (c_grades c ++ [(student_id s, Assignment_title a, g)])).
  set (h2 := if present then h1 else update_course self f2 h1).
  set (l2 := if present then LineGradeExists (name (s_person s)) (Assignment_title a)
             else LineGradeAdded (course_name c) g).
  assert (H2 : Course_add_grade self g (h1, out ++ [l1])
               = Run (h2, (out ++ [l1]) ++ [l2]) [] (Ok tt)).
  { rewrite (Course_add_grade_run self g h1 _ c s a1 Hc1 Hs1 Ha1), Hh, Ht1. cbn [negb].
    subst h2 l2 present f2.
    by destruct (existsb (grade_key_is (student_id s) (Assignment_title a)) (c_grades c)). }
  assert (Hothers : student_objs h2 = student_objs h1 /\
                    assignment_objs h2 = assignment_objs h1).
  { subst h2. destruct present; [done|]. unfold update_course.
    by destruct (course_objs h1 !! self). }
  destruct Hothers as [Hso Hao].
  assert (Hbody : body (h, out)
                  = Run (h2, out ++ [l1; l2; LineGradeEntered (name (s_person s))
                                                               (Assignment_title a)])
                        [] (Ok tt)).
  { subst body. rewrite bind_lift_Ok. fold g.
    erewrite bind_run_Ok; [|exact H1]. cbn [app].
    erewrite bind_run_Ok; [|exact H2]. cbn [app].
    rewrite bind_get. cbn [fst snd]. unfold deref.
    rewrite Hso, Hs1, bind_lift_Ok, Hao, Ha1, bind_lift_Ok, say_run, Ht1.
    cbn [final printed outcome fst snd]. by rewrite <- !app_assoc. }
  rewrite (try_except_Ok _ _ _ _ _ _ Hbody). cbn [final outcome fst snd].
  split_and!.
  - done.
  - exists a1. split; [by rewrite Hao|]. subst a1. by destruct taken.
  - subst h2. destruct present.
    + by exists c.
    + exists (f2 c). split; [by apply update_course_lookup|done].
  - done.
Qed.

Lemma handle_grade_input_fills_assignment_once_witness :
  let float_of := fun t : string => if String.eqb t "75" then Some (75 # 1) else None in
  let c := set_c_grades [(PStr "S1", "Essay", mkGrade 0 0 (90 # 1) (Some "good"))]
                        (Course_init (PStr "Logic") (PStr "CS101") 0 (PNum 3)) in
  let s1 := Student_init (PStr "Ana") (PStr "ana@uni.edu") (PStr "09171234567")
                         (PStr "Manila") (PStr "S1") (PNum 1) (PStr "BSCS") (PNum 0) PNone
                         None (PStr "Student") in
  let s2 := Student_init (PStr "Ben") (PStr "ben@uni.edu") (PStr "09170000002")
                         (PStr "Cebu") (PStr "S2") (PNum 2) (PStr "BSIT") (PNum 3) PNone
                         None (PStr "Student") in
  let a := mkAssignment "Essay" "Two pages" (mkDatetime 1924991999000000 None) 0
                        (grade_rows [(90 # 1, "", "")]) in
  let h := mkHeap [] [c] [s1; s2] [a] in
  let r := Course_handle_grade_input float_of 0 1 0 "75" "fine" (h, []) in
  outcome r = Ok tt /\
  (exists a', assignment_objs (fst (final r)) !! 0 = Some a' /\
     a_grades a' = grade_rows [(90 # 1, "", "")]) /\
  (exists c', course_objs (fst (final r)) !! 0 = Some c' /\
     c_grades c' = [(PStr "S1", "Essay", mkGrade 0 0 (90 # 1) (Some "good"));
                    (PStr "S2", "Essay", mkGrade 1 0 (75 # 1) (Some "fine"))]) /\
  snd (final r) = [LineStudentGradeExists "";
                   LineGradeAdded (PStr "Logic") (mkGrade 1 0 (75 # 1) (Some "fine"));
                   LineGradeEntered (PStr "Ben") "Essay"].
Proof.
  intros float_of c s1 s2 a h.
  exact (handle_grade_input_fills_assignment_once float_of 0 1 0 "75" "fine" h [] c s2 a
           [(90 # 1, "", "")] eq_refl eq_refl eq_refl eq_refl eq_refl).
Defined.

(** ** Announcement: removing a group *)

Lemma str_in_remove_group (g group : string) (l : list string) :
  NoDup l ->
  str_in g (remove_group group l) = str_in g l && negb (String.eqb g group).
Proof.
  induction 1 as [|x l Hx Hl IH]; [done|].
  cbn [remove_group]. destruct (String.eqb group x) eqn:Hgx.
  - apply String.eqb_eq in Hgx as <-. cbn [str_in existsb].
    fold (str_in g l). destruct (String.eqb g group) eqn:Hg; cbn [orb negb].
    + apply String.eqb_eq in Hg as ->. rewrite andb_false_r.
      apply not_true_is_false. by rewrite str_in_elem.
    + by rewrite andb_true_r.
  - cbn [str_in existsb]. fold (str_in g l) (str_in g (remove_group group l)).
    rewrite IH. destruct (String.eqb g group) eqn:Hg; cbn [negb].
    + apply String.eqb_eq in Hg as ->. rewrite Hgx. by rewrite !andb_false_r.
    + by rewrite !andb_true_r.
Qed.

Lemma remove_group_NoDup (group : string) (l : list string) :
  NoDup l -> NoDup (remove_group group l).
Proof.
  induction 1 as [|x l Hx Hl IH]; [constructor|].
  cbn [remove_group]. destruct (String.eqb group x); [done|].
  constructor; [|done]. intros Hin. apply Hx.
  apply str_in_elem. apply str_in_elem in Hin.
  rewrite str_in_remove_group in Hin by done. by apply andb_prop in Hin as [? _].
Qed.

Lemma remove_group_absent (group : string) (l : list string) :
  str_in group l = false -> remove_group group (l ++ [group]) = l.
Proof.
  induction l as [|x l IH]; cbn [remove_group app str_in existsb].
  - intros _. by rewrite String.eqb_refl.
  - intros [Hx Hl]%orb_false_elim. rewrite Hx. f_equal. by apply IH.
Qed.

Lemma remove_recipient_group_run (group : string) (a : Announcement) (out : list Line) :
  Announcement_remove_recipient_group group (a, out)
  = if str_in group (recipient_groups a)
    then Run (mkAnnouncement (an_title a) (an_content a) (an_date a)
                             (remove_group group (recipient_groups a)),
              out ++ [LineGroupRemoved group]) [] (Ok tt)
    else Run (a, out ++ [LineGroupNotFound group]) [] (Ok tt).
Proof.
  unfold Announcement_remove_recipient_group. rewrite bind_get. cbn [fst].
  destruct (str_in group (recipient_groups a)); by run_simp.
Qed.

(** X22. [Announcement.remove_recipient_group] on a recipient list without
    repetition: the call returns, afterwards the group is no recipient and
    every other group is one exactly if it was; a group that is absent
    leaves the announcement as it is, and removing a group right after
    [add_recipient_group] added it restores the announcement. *)
Theorem remove_recipient_group_removes_the_group
    (a : Announcement) (group : string) (out : list Line) :
  NoDup (recipient_groups a) ->
  let r := Announcement_remove_recipient_group group (a, out) in
  let r' := (on_state (Announcement_add_recipient_group group) ;;;
             Announcement_remove_recipient_group group) (a, out) in
  outcome r = Ok tt /\ printed r = [] /\
  snd (final r) = out ++ [if Announcement_is_recipient a group
                          then LineGroupRemoved group else LineGroupNotFound group] /\
  (forall g, Announcement_is_recipient (fst (final r)) g
             = Announcement_is_recipient a g && negb (String.eqb g group)) /\
  NoDup (recipient_groups (fst (final r))) /\
  (Announcement_is_recipient a group = false -> fst (final r) = a) /\
  (str_isalnum group = true -> Announcement_is_recipient a group = false ->
   r' = Run (a, out ++ [LineGroupRemoved group]) [MsgGroupAdded group] (Ok tt)).
Proof.
  intros Hnd r r'. unfold Announcement_is_recipient.
  subst r. rewrite remove_recipient_group_run.
  destruct (str_in group (recipient_groups a)) eqn:Hin; cbn [final outcome printed fst snd].
  - split_and!; try done.
    + intros g. cbn [recipient_groups]. by apply str_in_remove_group.
    + by apply remove_group_NoDup.
  - split_and!; try done.
    + intros g. destruct (String.eqb g group) eqn:Hg; cbn [negb].
      * apply String.eqb_eq in Hg as ->. by rewrite Hin.
      * by rewrite andb_true_r.
    + intros Hal _. subst r'.
      unfold on_state, zoom, bind. cbn [fst snd final outcome printed].
      unfold Announcement_add_recipient_group. rewrite Hal. cbn [negb].
      rewrite bind_get, Hin. cbn [negb]. rewrite bind_modify.
      cbn [print final outcome printed]. rewrite remove_recipient_group_run.
      cbn [recipient_groups]. rewrite str_in_snoc, String.eqb_refl, orb_true_r.
      cbn [final outcome printed]. rewrite remove_group_absent by done.
      by destruct a.
Qed.

Lemma remove_recipient_group_removes_the_group_witness :
  let a := mkAnnouncement "Exam week" "Rooms are posted" "2025-03-01"
                          ["Student"; "Instructor"] in
  let r := Announcement_remove_recipient_group "Student" (a, []) in
  let r' := (on_state (Announcement_add_recipient_group "Student") ;;;
             Announcement_remove_recipient_group "Student") (a, []) in
  outcome r = Ok tt /\ printed r = [] /\
  snd (final r) = [LineGroupRemoved "Student"] /\
  (forall g, Announcement_is_recipient (fst (final r)) g
             = Announcement_is_recipient a g && negb (String.eqb g "Student")) /\
  NoDup (recipient_groups (fst (final r))) /\
  (Announcement_is_recipient a "Student" = false -> fst (final r) = a) /\
  (str_isalnum "Student" = true -> Announcement_is_recipient a "Student" = false ->
   r' = Run (a, [LineGroupRemoved "Student"]) [MsgGroupAdded "Student"] (Ok tt)).
Proof.
  intros a.
  apply (remove_recipient_group_removes_the_group a "Student" []).
  cbn. repeat constructor; rewrite ?list_elem_of_singleton; try done.
  by intros ?%elem_of_nil.
Defined.

(** ** What is saved of the grades *)

Lemma rmap_ext {A B} (f g : A -> result B) (l : list A) :
  (forall x, f x = g x) -> rmap f l = rmap g l.
Proof. intros Hfg. induction l as [|x l IH]; cbn; [done|]. by rewrite Hfg, IH. Qed.

Lemma same_persisted_refl (h : Heap) : same_persisted h h.
Proof. done. Qed.

Lemma persisted_course_fields (c c' : Course) :
  persisted_course c' = persisted_course c ->
  course_name c' = course_name c /\ course_code c' = course_code c /\
  instructor c' = instructor c /\ units c' = units c /\ schedule c' = schedule c.
Proof.
  intros H. split_and!.
  - by apply (f_equal course_name) in H.
  - by apply (f_equal course_code) in H.
  - by apply (f_equal instructor) in H.
  - by apply (f_equal units) in H.
  - by apply (f_equal schedule) in H.
Qed.

Lemma persisted_student_fields (s s' : Student) :
  persisted_student s' = persisted_student s ->
  s_person s' = s_person s /\ student_id s' = student_id s /\
  year_level s' = year_level s /\ program s' = program s /\ gpa s' = gpa s /\
  birth_date s' = birth_date s /\ enrolled_courses s' = enrolled_courses s.
Proof.
  intros H. split_and!.
  - by apply (f_equal s_person) in H.
  - by apply (f_equal student_id) in H.
  - by apply (f_equal year_level) in H.
  - by apply (f_equal program) in H.
  - by apply (f_equal gpa) in H.
  - by apply (f_equal birth_date) in H.
  - by apply (f_equal enrolled_courses) in H.
Qed.

Lemma deref_course_persisted {B} (h h' : Heap) (x : addr) (k k' : Course -> result B) :
  same_persisted h h' ->
  (forall c c', persisted_course c' = persisted_course c -> k' c' = k c) ->
  rbind (deref (course_objs h') x) k' = rbind (deref (course_objs h) x) k.
Proof.
  intros (_ & Hc & _) Hk. unfold deref.
  apply (f_equal (fun l => l !! x)) in Hc. rewrite !list_lookup_fmap in Hc.
  destruct (course_objs h' !! x) as [c'|], (course_objs h !! x) as [c|];
    cbn in Hc; try done.
  cbn. apply Hk. congruence.
Qed.

Lemma deref_student_persisted {B} (h h' : Heap) (x : addr) (k k' : Student -> result B) :
  same_persisted h h' ->
  (forall s s', persisted_student s' = persisted_student s -> k' s' = k s) ->
  rbind (deref (student_objs h') x) k' = rbind (deref (student_objs h) x) k.
Proof.
  intros (_ & _ & Hs) Hk. unfold deref.
  apply (f_equal (fun l => l !! x)) in Hs. rewrite !list_lookup_fmap in Hs.
  destruct (student_objs h' !! x) as [s'|], (student_objs h !! x) as [s|];
    cbn in Hs; try done.
  cbn. apply Hk. congruence.
Qed.

Lemma Course_to_dict_persisted (h h' : Heap) (c c' : Course) :
  same_persisted h h' -> persisted_course c' = persisted_course c ->
  Course_to_dict h' c' = Course_to_dict h c.
Proof.
  intros (Hi & _ & _) (Hn & Hcode & Hin & Hu & _)%persisted_course_fields.
  unfold Course_to_dict. by rewrite Hi, Hn, Hcode, Hin, Hu.
Qed.

Lemma saved_document_persisted (h h' : Heap) (a : PlatformAdmin) :
  same_persisted h h' -> saved_document h' a = saved_document h a.
Proof.
  intros Hp. pose proof Hp as (Hi & _ & _). unfold saved_document.
  assert (Hcd : forall x, rbind (deref (course_objs h') x) (Course_to_dict h')
                          = rbind (deref (course_objs h) x) (Course_to_dict h)).
  { intros x. apply deref_course_persisted; [done|].
    intros c c'. by apply Course_to_dict_persisted. }
  assert (Hss : rmap (fun x => s <- deref (student_objs h') x ;; Student_to_dict h' s)
                     (students a)
                = rmap (fun x => s <- deref (student_objs h) x ;; Student_to_dict h s)
                       (students a)).
  { apply rmap_ext. intros x. apply deref_student_persisted; [done|].
    intros s s' (Hpe & Hid & Hy & Hpr & Hg & Hb & He)%persisted_student_fields.
    unfold Student_to_dict. rewrite Hpe, Hid, Hy, Hpr, Hg, Hb, He.
    by rewrite (rmap_ext _ _ _ Hcd). }
  assert (His : rmap (fun x => i <- deref (instructor_objs h') x ;; Instructor_to_dict h' i)
                     (instructors a)
                = rmap (fun x => i <- deref (instructor_objs h) x ;; Instructor_to_dict h i)
                       (instructors a)).
  { apply rmap_ext. intros x. rewrite Hi. destruct (deref (instructor_objs h) x); [|done].
    cbn. unfold Instructor_to_dict. f_equal. apply rmap_ext. intros y.
    apply deref_course_persisted; [done|].
    intros c c' (_ & Hcode & _)%persisted_course_fields. by rewrite Hcode. }
  assert (Hcs : rmap (fun x => c <- deref (course_objs h') x ;; Course_to_dict h' c) (courses a)
                = rmap (fun x => c <- deref (course_objs h) x ;; Course_to_dict h c)
                       (courses a)).
  { by apply rmap_ext. }
  assert (Hes : enrollment_rows h' (students a) = enrollment_rows h (students a)).
  { unfold enrollment_rows. f_equal. apply rmap_ext. intros x.
    apply deref_student_persisted; [done|].
    intros s s' (_ & Hid & _ & _ & _ & _ & He)%persisted_student_fields.
    rewrite Hid, He. apply rmap_ext. intros y.
    apply deref_course_persisted; [done|].
    intros c c' (_ & Hcode & _)%persisted_course_fields. by rewrite Hcode. }
  assert (Hsch : schedule_rows h' (courses a) = schedule_rows h (courses a)).
  { unfold schedule_rows. f_equal. apply rmap_ext. intros x.
    apply deref_course_persisted; [done|].
    intros c c' (_ & Hcode & _ & _ & Hsc)%persisted_course_fields. by rewrite Hcode, Hsc. }
  by rewrite Hss, His, Hcs, Hes, Hsch.
Qed.

Lemma same_persisted_update_student (h : Heap) (a : addr) (l : list pyval) :
  same_persisted h (update_student a (set_s_grades l) h).
Proof.
  unfold update_student. destruct (student_objs h !! a) as [s|] eqn:Hs; [|done].
  split_and!; [done|done|]. cbn. rewrite list_fmap_insert.
  apply list_insert_id. by rewrite list_lookup_fmap, Hs.
Qed.

Lemma same_persisted_update_course (h : Heap) (a : addr)
    (l : list (pyval * string * Grade)) :
  same_persisted h (update_course a (set_c_grades l) h).
Proof.
  unfold update_course. destruct (course_objs h !! a) as [c|] eqn:Hc; [|done].
  split_and!; [done| |done]. cbn. rewrite list_fmap_insert.
  apply list_insert_id. by rewrite list_lookup_fmap, Hc.
Qed.

Lemma same_persisted_update_assignment (h : Heap) (a : addr) (f : Assignment -> Assignment) :
  same_persisted h (update_assignment a f h).
Proof. unfold update_assignment. by destruct (assignment_objs h !! a). Qed.

(** X23. Grades are never saved: whatever [Student.add_grade],
    [Course.add_grade] or [Assignment.add_grade] is called with, and whether
    the call returns or raises, the document that [save_data] writes
    afterwards is the one it would have written before the call. *)
Theorem grades_are_never_saved (h : Heap) (out : list Line) (adm : PlatformAdmin) :
  (forall self course grade,
     saved_document (final (Student_add_grade self course grade h)) adm
     = saved_document h adm) /\
  (forall self g,
     saved_document (fst (final (Course_add_grade self g (h, out)))) adm
     = saved_document h adm) /\
  (forall self grade fb sid,
     saved_document (fst (final (Assignment_add_grade self grade fb sid (h, out)))) adm
     = saved_document h adm).
Proof.
  split_and!.
  - intros self course grade. apply saved_document_persisted.
    unfold Student_add_grade, deref. rewrite bind_get.
    destruct (course_objs h !! course) as [c|]; [|done]. rewrite bind_lift_Ok.
    destruct (student_objs h !! self) as [s|]; [|done]. rewrite bind_lift_Ok.
    apply same_persisted_update_student.
  - intros self g. apply saved_document_persisted.
    unfold Course_add_grade, deref. rewrite bind_get. cbn [fst snd].
    destruct (course_objs h !! self) as [c|]; [|done]. rewrite bind_lift_Ok.
    destruct (student_objs h !! g_student g) as [s|]; [|done]. rewrite bind_lift_Ok.
    destruct (assignment_objs h !! g_assignment g) as [a|]; [|done]. rewrite bind_lift_Ok.
    destruct (hashable (student_id s)); cbn [negb]; [|done].
    destruct (existsb _ (c_grades c)); [done|].
    rewrite bind_on_state_modify, say_run. cbn [final fst snd].
    apply same_persisted_update_course.
  - intros self grade fb sid. apply saved_document_persisted.
    unfold Assignment_add_grade.
    destruct (Qle_bool 0 grade && Qle_bool grade 100); cbn [negb]; [|done].
    rewrite bind_get. cbn [fst snd]. unfold deref.
    destruct (assignment_objs h !! self) as [a|]; [|done]. rewrite bind_lift_Ok.
    destruct (next_where _ (a_grades a)) as [[x|]|e]; [done| |done].
    rewrite bind_lift_Ok, bind_on_state_modify, say_run. cbn [final fst snd].
    apply same_persisted_update_assignment.
Qed.

(** ** Signing in as administrator *)

Lemma next_where_Some {A} (test : A -> result bool) (l : list A) (x : A) :
  next_where test l = Ok (Some x) -> x ∈ l /\ test x = Ok true.
Proof.
  induction l as [|y l IH]; cbn; [discriminate|].
  destruct (test y) as [[]|e] eqn:Hy; cbn; [| |discriminate].
  - intros [= <-]. split; [constructor|done].
  - intros [Hx Ht]%IH. split; [by constructor|done].
Qed.

Lemma saved_document_keys (h : Heap) (a : PlatformAdmin) (doc : pyval) :
  saved_document h a = Ok doc ->
  exists ss is_ cs es sch,
    doc = PDict [("students", PList ss); ("instructors", PList is_); ("courses", PList cs);
                 ("enrollments", PList es); ("schedules", PList sch)].
Proof.
  unfold saved_document. intros H.
  apply rbind_Ok_inv in H as (ss & _ & H).
  apply rbind_Ok_inv in H as (is_ & _ & H).
  apply rbind_Ok_inv in H as (cs & _ & H).
  apply rbind_Ok_inv in H as (es & _ & H).
  apply rbind_Ok_inv in H as (sch & _ & H).
  injection H as <-. by exists ss, is_, cs, es, sch.
Qed.

(** X24. A file written by [save_data] holds no administrator account: once
    [save_data] has reported success for [data.json], [admin_login] on that
    file denies access for every email and password. *)
Theorem saved_file_admits_no_administrator
    (w w2 : Platform) (email password : string) (out : list Line) :
  printed (save_data "data.json" w) = [MsgSaved "data.json"] ->
  disk w2 "data.json" = disk (final (save_data "data.json" w)) "data.json" ->
  admin_login email password (w2, out) = Run (w2, out ++ [LineLoginDenied]) [] (Ok false).
Proof.
  unfold save_data, try_except. rewrite bind_get.
  destruct (saved_document (heap (repo w)) (admin (repo w))) as [doc|e] eqn:Hdoc.
  2:{ rewrite bind_lift_Raise. cbn. discriminate. }
  rewrite bind_lift_Ok, bind_modify. cbn [print outcome final printed write_file disk].
  rewrite String.eqb_refl. intros _ Hdisk.
  apply saved_document_keys in Hdoc as (ss & is_ & cs & es & sch & ->).
  unfold admin_login, try_except. rewrite bind_get. cbn [fst]. rewrite Hdisk.
  cbn [py_get dict_get assoc String.eqb Ascii.eqb Bool.eqb].
  by run_simp.
Qed.

Lemma saved_file_admits_no_administrator_witness :
  let s := Student_init (PStr "Ana") (PStr "ana@uni.edu") (PStr "09171234567") (PStr "Manila")
                        (PStr "S1") (PNum 1) (PStr "BSCS") (PNum 0) PNone None
                        (PStr "Student") in
  let accounts := PDict [("admins", PList [PDict [("email", PStr "root@uni.edu");
                                                  ("password", PStr "secret")]])] in
  let w := mkPlatform (mkRepo (mkHeap [] [] [s] []) (mkAdmin [0] [] [] []))
                      (fun _ => Document accounts) in
  let w1 := final (save_data "data.json" w) in
  admin_login "root@uni.edu" "secret" (w, [])
  = Run (w, [LineLoginSuccessful]) [] (Ok true) /\
  admin_login "root@uni.edu" "secret" (w1, [])
  = Run (w1, [LineLoginDenied]) [] (Ok false).
Proof.
  intros s accounts w w1. split; [reflexivity|].
  exact (saved_file_admits_no_administrator w w1 "root@uni.edu" "secret" []
           eq_refl eq_refl).
Defined.

(** X25. [admin_login] always returns normally, changes nothing and writes
    exactly one line; it returns [True] only with the line of a successful
    login, and only if [data.json] is a document whose ["admins"] holds an
    account with the email and the password given. *)
Theorem admin_login_never_raises
    (w : Platform) (email password : string) (out : list Line) :
  exists (b : bool) (l : Line),
    admin_login email password (w, out) = Run (w, out ++ [l]) [] (Ok b) /\
    (b = true <-> l = LineLoginSuccessful) /\
    (b = true ->
     exists data admins items account,
       disk w "data.json" = Document data /\
       py_get data "admins" (PList []) = Ok admins /\
       py_iter admins = Ok items /\
       account ∈ items /\
       admin_matches email password account = Ok true).
Proof.
  unfold admin_login. set (handler := fun e : exn => _).
  assert (Hfail : forall e : exn, exists l : Line,
            handler e (w, out) = Run (w, out ++ [l]) [] (Ok false) /\
            l <> LineLoginSuccessful).
  { intros e. subst handler. destruct e; eexists; by run_simp. }
  clearbody handler.
  assert (Hraise : forall (m : M (Console Platform) bool) e,
            m (w, out) = Run (w, out) [] (Raise e) ->
            exists (b : bool) (l : Line),
              try_except m handler (w, out) = Run (w, out ++ [l]) [] (Ok b) /\
              (b = true <-> l = LineLoginSuccessful) /\
              (b = true ->
               exists data admins items account,
                 disk w "data.json" = Document data /\
                 py_get data "admins" (PList []) = Ok admins /\
                 py_iter admins = Ok items /\
                 account ∈ items /\
                 admin_matches email password account = Ok true)).
  { intros m e Hm. destruct (Hfail e) as (l & Hl & Hne). exists false, l.
    rewrite (try_except_Raise _ _ _ _ _ _ Hm), Hl. by split_and!. }
  destruct (disk w "data.json") as [| |data] eqn:Hdisk.
  - exists false, LineNoDataFile. erewrite try_except_Ok; [|by rewrite bind_get; cbn [fst]; rewrite Hdisk; run_simp].
    by split_and!.
  - apply (Hraise _ JSONDecodeError). rewrite bind_get. cbn [fst]. by rewrite Hdisk.
  - destruct (py_get data "admins" (PList [])) as [admins|e] eqn:Hget.
    2:{ apply (Hraise _ e). rewrite bind_get. cbn [fst]. by rewrite Hdisk, Hget. }
    destruct (py_iter admins) as [items|e] eqn:Hiter.
    2:{ apply (Hraise _ e). rewrite bind_get. cbn [fst].
        by rewrite Hdisk, Hget, bind_lift_Ok, Hiter. }
    destruct (next_where (admin_matches email password) items) as [[account|]|e] eqn:Hnext.
    + exists true, LineLoginSuccessful.
      erewrite try_except_Ok;
        [|by rewrite bind_get; cbn [fst];
             rewrite Hdisk, Hget, bind_lift_Ok, Hiter, bind_lift_Ok, Hnext; run_simp].
      split_and!; [done|done|].
      intros _. apply next_where_Some in Hnext as [Hin Hm].
      by exists data, admins, items, account.
    + exists false, LineLoginDenied.
      erewrite try_except_Ok;
        [|by rewrite bind_get; cbn [fst];
             rewrite Hdisk, Hget, bind_lift_Ok, Hiter, bind_lift_Ok, Hnext; run_simp].
      by split_and!.
    + apply (Hraise _ e). rewrite bind_get. cbn [fst].
      by rewrite Hdisk, Hget, bind_lift_Ok, Hiter, bind_lift_Ok, Hnext.
Qed.

(** ** Discussion threads *)

Lemma add_post_run (now : Z) (person : Person) (message : string) (t : DiscussionThread) :
  DiscussionThread_add_post now person message t
  = if is_blank message then Run t [MsgEmptyPost] (Ok tt)
    else Run (mkThread (th_course t) (th_title t) (th_creator t)
                       (posts t ++ [mkPost (name person) (mkDatetime now None) message])
                       (th_timestamp t))
             [MsgPostAdded (name person) message] (Ok tt).
Proof.
  unfold DiscussionThread_add_post. destruct (is_blank message); [done|].
  by rewrite bind_modify.
Qed.

(** X26. The posts of a thread are the messages that are not blank, in the
    order of the calls: any sequence of [add_post] calls returns normally,
    appends one post per message that is not blank, with the name of the
    person, the clock reading of the call and the message as given, prints
    one message per call, and leaves the earlier posts and the other
    attributes of the thread as they were. *)
Theorem add_post_keeps_the_nonblank_messages
    (calls : list (Z * Person * string)) (t : DiscussionThread) :
  let r := for_each (fun c => DiscussionThread_add_post (fst (fst c)) (snd (fst c)) (snd c))
                    calls t in
  outcome r = Ok tt /\
  posts (final r)
  = posts t ++ map (fun c => mkPost (name (snd (fst c))) (mkDatetime (fst (fst c)) None)
                                    (snd c))
                   (List.filter (fun c => negb (is_blank (snd c))) calls) /\
  length (printed r) = length calls /\
  th_course (final r) = th_course t /\ th_title (final r) = th_title t /\
  th_creator (final r) = th_creator t /\ th_timestamp (final r) = th_timestamp t.
Proof.
  revert t. induction calls as [|[[now person] message] calls IH]; intros t.
  - cbn. by rewrite app_nil_r.
  - cbn [for_each fst snd List.filter].
    pose proof (add_post_run now person message t) as Hrun.
    destruct (is_blank message); cbn [negb].
    + erewrite bind_run_Ok; [|exact Hrun]. cbn [final outcome printed].
      destruct (IH t) as (Ho & Hp & Hl & Hrest).
      split_and!; try done; try apply Hrest. cbn. by rewrite Hl.
    + erewrite bind_run_Ok; [|exact Hrun]. cbn [final outcome printed].
      set (t1 := mkThread _ _ _ _ _).
      destruct (IH t1) as (Ho & Hp & Hl & Hc & Hti & Hcr & Hts).
      split_and!; try done.
      * rewrite Hp. cbn. by rewrite <- app_assoc.
      * cbn. by rewrite Hl.
Qed.

(** ** Instructors as they are loaded *)

Lemma update_student_instructors (a : addr) (f : Student -> Student) (h : Heap) :
  instructor_objs (update_student a f h) = instructor_objs h.
Proof. unfold update_student. by destruct (student_objs h !! a). Qed.

Lemma load_after_instructors_keeps_instructor_side (data : pyval) :
  keeps instructor_side (load_courses data ;;; load_rest data).
Proof.
  unfold load_courses, load_course, load_rest, load_students, load_enrollments,
    load_enrollment, load_schedules, load_schedule.
  keeps_auto; try keeps_field;
    unfold on_objects; apply keeps_modify; intros s; unfold instructor_side;
    cbn [heap admin set_heap];
    by rewrite ?update_student_instructors, ?update_course_instructors.
Qed.

Lemma Instructor_kwargs_teaches_nothing (d : pyval) (i : Instructor) :
  Instructor_kwargs d = Ok i -> courses_taught i = [] /\ i_assignments i = [].
Proof.
  unfold Instructor_kwargs. destruct d as [| | | | |d]; try discriminate.
  destruct (forallb _ d); [|discriminate].
  destruct (assoc "name" d), (assoc "email" d), (assoc "contact_number" d),
    (assoc "address" d), (assoc "instructor_id" d); try discriminate.
  by intros [= <-].
Qed.

Lemma load_instructors_establishes (data : pyval) (s : Repo) :
  outcome (load_instructors data s) = Ok tt ->
  instructors_teach_nothing (final (load_instructors data s)).
Proof.
  unfold load_instructors.
  destruct (py_get data "instructors" (PList [])) as [recs|e]; [|done].
  rewrite bind_lift_Ok. destruct (py_iter recs) as [items|e]; [|done].
  rewrite bind_lift_Ok.
  destruct (rmap Instructor_kwargs items) as [objs|e] eqn:Hobjs; [|done].
  rewrite bind_lift_Ok, bind_get, on_objects_run. unfold on_admin, modify.
  cbn [final outcome admin heap set_admin set_heap instructors set_instructors
         instructor_objs set_instructor_objs].
  intros _ ia Hia. unfold fresh in Hia. apply elem_of_seq in Hia as [Hlo Hhi].
  apply rmap_Ok_Forall2 in Hobjs.
  destruct (objs !! (ia - length (instructor_objs (heap s)))) as [i|] eqn:Hi.
  2:{ apply lookup_ge_None in Hi. lia. }
  exists i. split.
  - cbn. rewrite lookup_app_r by lia. done.
  - destruct (Forall2_lookup_r _ _ _ _ _ Hobjs Hi) as (d & _ & Hd).
    by eapply Instructor_kwargs_teaches_nothing.
Qed.

Lemma instructor_side_teach_nothing (s s' : Repo) :
  instructor_side s = instructor_side s' ->
  instructors_teach_nothing s -> instructors_teach_nothing s'.
Proof.
  unfold instructor_side. intros [= Hi Ho] Hs ia Hia.
  rewrite <- Hi in Hia. rewrite <- Ho. by apply Hs.
Qed.

(** X27. [load_data] restores no instructor's courses: whenever the
    instructors phase completes, every instructor of the resulting
    collection is a live object whose [_courses_taught] and [_assignments]
    are empty, whatever courses of the document name the instructor and
    whether or not a later phase raises. *)
Theorem loaded_instructors_teach_nothing
    (w : Platform) (filename : string) (data : pyval) :
  disk w filename = Document data ->
  outcome (load_instructors data (repo w)) = Ok tt ->
  instructors_teach_nothing (repo (final (load_data filename w))).
Proof.
  intros Hdisk H1. rewrite (load_data_run w filename data Hdisk). cbn [final repo set_repo].
  unfold load_document.
  rewrite (bind_run_Ok _ _ (repo w) (final (load_instructors data (repo w)))
             (printed (load_instructors data (repo w))) tt)
    by (rewrite <- H1; symmetry; apply run_eta).
  cbn [final]. set (s1 := final (load_instructors data (repo w))).
  pose proof (load_instructors_establishes data (repo w) H1) as Hs1. fold s1 in Hs1.
  eapply instructor_side_teach_nothing; [|exact Hs1].
  symmetry. apply (load_after_instructors_keeps_instructor_side data s1).
Qed.

Lemma loaded_instructors_teach_nothing_witness :
  let irec := PDict [("instructor_id", PStr "I1"); ("name", PStr "Dr. Cruz");
                     ("email", PStr "cruz@uni.edu"); ("contact_number", PStr "09170000001");
                     ("address", PStr "Manila")] in
  let crec := PDict [("course_name", PStr "Logic"); ("course_code", PStr "C1");
                     ("instructor_id", PStr "I1"); ("units", PNum 3)] in
  let data := PDict [("instructors", PList [irec]); ("courses", PList [crec])] in
  let w := mkPlatform (mkRepo empty_heap PlatformAdmin_init) (fun _ => Document data) in
  instructors_teach_nothing (repo (final (load_data "data.json" w))).
Proof.
  intros irec crec data w.
  apply (loaded_instructors_teach_nothing w "data.json" data); reflexivity.
Defined.

(** ** A course record, loaded and saved *)

(** X28. A course record that [load_data] accepts is saved as it was read:
    when the instructor named by the record is found, the courses phase
    creates the course and appends it to the collection, and [to_dict] of
    the new course gives the record's name, code and units together with
    the id of the instructor found, which equals the record's. *)
Theorem loaded_course_saves_as_its_record
    (crec : list (string * pyval)) (s : Repo) (ia : addr) (cn cc un : pyval) :
  find_instructor (heap s) (instructors (admin s)) (dict_get crec "instructor_id" PNone)
  = Ok (Some ia) ->
  assoc "course_name" crec = Some cn ->
  assoc "course_code" crec = Some cc ->
  assoc "units" crec = Some un ->
  let r := load_course (PDict crec) s in
  let ca := length (course_objs (heap s)) in
  outcome r = Ok tt /\ printed r = [] /\
  courses (admin (final r)) = courses (admin s) ++ [ca] /\
  ia ∈ instructors (admin s) /\
  exists c i,
    course_objs (heap (final r)) !! ca = Some c /\
    instructor_objs (heap (final r)) !! ia = Some i /\
    py_eq (instructor_id i) (dict_get crec "instructor_id" PNone) = true /\
    Course_to_dict (heap (final r)) c
    = Ok (PDict [("course_name", cn); ("course_code", cc);
                 ("instructor_id", instructor_id i); ("units", un)]).
Proof.
  intros Hfind Hcn Hcc Hun r ca.
  pose proof Hfind as [Hin Htest]%next_where_Some.
  unfold deref in Htest.
  destruct (instructor_objs (heap s) !! ia) as [i|] eqn:Hi; [|discriminate].
  cbn [rbind] in Htest. injection Htest as Heq.
  assert (Hr : r = Run (mkRepo (set_course_objs (course_objs (heap s) ++ [Course_init cn cc ia un])
                                                (heap s))
                               (set_courses (courses (admin s) ++ [ca]) (admin s)))
                       [] (Ok tt)).
  { subst r. unfold load_course. cbn [py_get py_subscript]. run_simp.
    rewrite Hfind. run_simp. rewrite Hcn, Hcc, Hun. run_simp.
    unfold on_admin, modify. by cbn. }
  rewrite Hr. cbn [final outcome printed heap admin courses set_courses].
  split_and!; try done.
  exists (Course_init cn cc ia un), i. split_and!.
  - cbn. apply lookup_snoc.
  - done.
  - done.
  - unfold Course_to_dict, deref. cbn. by rewrite Hi.
Qed.

Lemma loaded_course_saves_as_its_record_witness :
  let i := Instructor_init (PStr "Dr. Cruz") (PStr "cruz@uni.edu") (PStr "09170000001")
                           (PStr "Manila") (PNum 7) (PStr "Instructor") in
  let crec := [("course_name", PStr "Logic"); ("course_code", PStr "C1");
               ("instructor_id", PNum (14 # 2)); ("units", PNum 3)] in
  let s := mkRepo (mkHeap [i] [] [] []) (mkAdmin [] [0] [] []) in
  let r := load_course (PDict crec) s in
  outcome r = Ok tt /\ printed r = [] /\
  courses (admin (final r)) = [0] /\
  0 ∈ [0] /\
  exists c i',
    course_objs (heap (final r)) !! 0 = Some c /\
    instructor_objs (heap (final r)) !! 0 = Some i' /\
    py_eq (instructor_id i') (PNum (14 # 2)) = true /\
    Course_to_dict (heap (final r)) c
    = Ok (PDict [("course_name", PStr "Logic"); ("course_code", PStr "C1");
                 ("instructor_id", instructor_id i'); ("units", PNum 3)]).
Proof.
  intros i crec s.
  exact (loaded_course_saves_as_its_record crec s 0 (PStr "Logic") (PStr "C1") (PNum 3)
           eq_refl eq_refl eq_refl eq_refl).
Defined.

(** ** Assignments and the clock *)

(** X29. An assignment that [Course.assign_assignment] creates has a naive
    due date after the clock reading of the call: [is_overdue] never raises
    on it, is true exactly at the readings after the due date, and is false
    at the reading of the call.  The assignments that existed before are
    left as they were. *)
Theorem new_assignment_is_not_overdue
    (fromisoformat : string -> option datetime) (now : Z) (self : addr)
    (title description due_date : string) (h : Heap) :
  let r := Course_assign_assignment fromisoformat now self title description due_date h in
  assignment_objs (final r) <> assignment_objs h ->
  exists x,
    assignment_objs (final r) = assignment_objs h ++ [x] /\
    fromisoformat due_date = Some (Assignment_due_date x) /\
    Assignment_title x = title /\ a_course x = self /\
    (forall now', Assignment_is_overdue now' x
                  = Ok (Z.ltb (ticks (Assignment_due_date x)) now')) /\
    Assignment_is_overdue now x = Ok false.
Proof.
  intros r Hnew. subst r. revert Hnew. unfold Course_assign_assignment.
  destruct (fromisoformat due_date) as [due|]; [|done].
  unfold datetime_le, datetime_now. cbn [utcoffset ticks].
  destruct (utcoffset due) as [off|] eqn:Hoff; [done|].
  rewrite bind_lift_Ok. destruct (Z.leb (ticks due) now) eqn:Hle; [done|].
  rewrite bind_get. destruct (deref (course_objs h) self) as [c|e]; [|done].
  rewrite bind_lift_Ok.
  destruct (next_where _ (assignments c)) as [[dup|]|e]; [done| |done].
  rewrite bind_lift_Ok, !bind_modify. cbn [print final].
  intros _. exists (mkAssignment title description due self []).
  assert (Hobjs : assignment_objs
                    (update_course self (set_assignments (assignments c ++ [length (assignment_objs h)]))
                       (set_assignment_objs
                          (assignment_objs h ++ [mkAssignment title description due self []]) h))
                  = assignment_objs h ++ [mkAssignment title description due self []]).
  { unfold update_course. cbn. by destruct (course_objs h !! self). }
  rewrite Hobjs. unfold Assignment_is_overdue, datetime_gt, Assignment_due_date, Assignment_title.
  cbn. rewrite Hoff. split_and!; try done.
  f_equal. apply Z.ltb_ge. by apply Z.leb_gt in Hle; lia.
Qed.

Lemma new_assignment_is_not_overdue_witness :
  let parse := fun s : string =>
                 if String.eqb s "2031-01-01T00:00:00"
                 then Some (mkDatetime 1924991999000000 None) else None in
  let c := Course_init (PStr "Logic") (PStr "CS101") 0 (PNum 3) in
  let h := mkHeap [] [c] [] [] in
  let r := Course_assign_assignment parse 1762000000000000 0 "Essay" "Two pages"
                                    "2031-01-01T00:00:00" h in
  assignment_objs (final r) <> assignment_objs h /\
  exists x,
    assignment_objs (final r) = assignment_objs h ++ [x] /\
    parse "2031-01-01T00:00:00" = Some (Assignment_due_date x) /\
    Assignment_title x = "Essay" /\ a_course x = 0 /\
    (forall now', Assignment_is_overdue now' x
                  = Ok (Z.ltb (ticks (Assignment_due_date x)) now')) /\
    Assignment_is_overdue 1762000000000000 x = Ok false.
Proof.
  intros parse c h r.
  assert (Hnew : assignment_objs (final r) <> assignment_objs h) by discriminate.
  split; [exact Hnew|].
  exact (new_assignment_is_not_overdue parse 1762000000000000 0 "Essay" "Two pages"
           "2031-01-01T00:00:00" h Hnew).
Defined.

(** * Where the code misses a case *)

(** ** A due date with a UTC offset *)

(** C9 (the code as it is). [datetime.fromisoformat] accepts a due date
    written with a UTC offset; the comparison with the naive
    [datetime.now()], which stands outside the [try], then raises
    [TypeError].  Whether the date is in the past or not, nothing is
    reported and no object changes. *)
Theorem due_date_with_offset_raises_unreported
    (fromisoformat : string -> option datetime) (now : Z)
    (h : Heap) (self : addr) (title description due_date : string) (t off : Z) :
  fromisoformat due_date = Some (mkDatetime t (Some off)) ->
  Course_assign_assignment fromisoformat now self title description due_date h
  = Run h [] (Raise TypeError).
Proof.
  intros Hparse. unfold Course_assign_assignment. rewrite Hparse.
  unfold datetime_le, datetime_now. cbn [utcoffset]. by rewrite bind_lift_Raise.
Qed.

(** The failing input of C9: a past due date, written with the offset of
    UTC. *)
Lemma due_date_with_offset_raises_unreported_witness :
  let parse := fun s : string =>
                 if String.eqb s "2020-01-01T00:00:00+00:00"
                 then Some (mkDatetime 1577836800000000 (Some 0%Z)) else None in
  let c := Course_init (PStr "Logic") (PStr "CS101") 0 (PNum 3) in
  let h := mkHeap [] [c] [] [] in
  Course_assign_assignment parse 1750000000000000 0 "HW1" "sets"
                           "2020-01-01T00:00:00+00:00" h
  = Run h [] (Raise TypeError).
Proof.
  intros parse c h.
  exact (due_date_with_offset_raises_unreported parse 1750000000000000 h 0 "HW1" "sets"
           "2020-01-01T00:00:00+00:00" 1577836800000000 0 eq_refl).
Defined.

(** ** An instructor record in the saved layout *)

Lemma Instructor_kwargs_raises_TypeError (d : pyval) (e : exn) :
  Instructor_kwargs d = Raise e -> e = TypeError.
Proof.
  unfold Instructor_kwargs. destruct d as [| | | | |d]; try by intros [= <-].
  destruct (forallb _ d); [|by intros [= <-]].
  destruct (assoc "name" d), (assoc "email" d), (assoc "contact_number" d),
    (assoc "address" d), (assoc "instructor_id" d); by intros [= <-].
Qed.

Lemma rmap_kwargs_raises_TypeError (l : list pyval) (e : exn) :
  rmap Instructor_kwargs l = Raise e -> e = TypeError.
Proof.
  induction l as [|x l IH]; cbn [rmap]; [discriminate|].
  destruct (Instructor_kwargs x) as [i|e0] eqn:Hx; cbn [rbind].
  - destruct (rmap Instructor_kwargs l) as [is_|e1]; cbn [rbind]; [discriminate|].
    intros [= <-]. by apply IH.
  - intros [= <-]. by eapply Instructor_kwargs_raises_TypeError.
Qed.

Lemma Instructor_kwargs_unknown_key (d : list (string * pyval)) (k : string) :
  is_Some (assoc k d) -> str_in k instructor_params = false ->
  Instructor_kwargs (PDict d) = Raise TypeError.
Proof.
  intros Hk Hparam. unfold Instructor_kwargs.
  assert (Hall : forallb (fun kv => str_in (fst kv) instructor_params) d = false).
  { induction d as [|[k' v] d IH]; [by destruct Hk|].
    cbn [forallb fst]. cbn [assoc] in Hk.
    destruct (String.eqb k k') eqn:Hkk.
    - apply String.eqb_eq in Hkk as <-. by rewrite Hparam.
    - rewrite (IH Hk). apply andb_false_r. }
  by rewrite Hall.
Qed.

(** C7 (the code as it is). A document whose instructor records carry
    [courses_taught], as the documented layout has it and as [save_data]
    writes them, is not loaded at all: the constructor, called with the
    keys of the record as keyword arguments, raises [TypeError] in the
    instructors phase, the handler reports it and the
    repository is left as it was, so that no student and no course of the
    scenario exists afterwards.  This is the defect of C1. *)
Theorem instructor_in_saved_layout_stops_the_load
    (w : Platform) (filename : string) (top : list (string * pyval))
    (irecs : list pyval) (d : list (string * pyval)) :
  disk w filename = Document (PDict top) ->
  assoc "instructors" top = Some (PList irecs) ->
  PDict d ∈ irecs ->
  is_Some (assoc "courses_taught" d) ->
  load_data filename w = Run w [MsgLoadUnexpected TypeError] (Ok tt).
Proof.
  intros Hdisk Hget Hin Hkey.
  assert (Hraise : rmap Instructor_kwargs irecs = Raise TypeError).
  { destruct (rmap_raises Instructor_kwargs irecs (PDict d) Hin) as [e He].
    - exists TypeError. by apply (Instructor_kwargs_unknown_key d "courses_taught").
    - by rewrite He, (rmap_kwargs_raises_TypeError _ _ He). }
  rewrite (load_data_run w filename (PDict top) Hdisk).
  assert (Hrun : load_document (PDict top) (repo w) = Run (repo w) [] (Raise TypeError)).
  { unfold load_document. apply bind_run_Raise.
    unfold load_instructors. cbn [py_get]. unfold dict_get. rewrite Hget.
    run_simp. by rewrite Hraise. }
  rewrite Hrun. cbn. by destruct w.
Qed.

(** The failing input of C7: the scenario, with the instructor record in
    the layout of the saved file. *)
Lemma instructor_in_saved_layout_stops_the_load_witness :
  let irec := [("instructor_id", PStr "I1"); ("name", PStr "Dr. Cruz");
               ("email", PStr "cruz@uni.edu"); ("contact_number", PStr "09170000001");
               ("address", PStr "Manila"); ("role", PStr "Instructor");
               ("courses_taught", PList [PStr "C1"])] in
  let crec := [("course_name", PStr "Logic"); ("course_code", PStr "C1");
               ("instructor_id", PStr "I1"); ("units", PNum 3)] in
  let srec := [("name", PStr "Ana"); ("email", PStr "ana@uni.edu");
               ("contact_number", PStr "09171234567"); ("address", PStr "Manila");
               ("student_id", PStr "S1"); ("year_level", PNum 1); ("program", PStr "BSCS");
               ("gpa", PNum 0); ("birth_date", PNone);
               ("enrolled_courses", PList [PDict crec])] in
  let top := [("instructors", PList [PDict irec]); ("courses", PList [PDict crec]);
              ("students", PList [PDict srec]); ("enrollments", PList [])] in
  let w := mkPlatform (mkRepo empty_heap PlatformAdmin_init)
                      (fun _ => Document (PDict top)) in
  let r := load_data "data.json" w in
  r = Run w [MsgLoadUnexpected TypeError] (Ok tt) /\
  students (admin (repo (final r))) = [] /\ courses (admin (repo (final r))) = [].
Proof.
  intros irec crec srec top w r.
  assert (Hr : r = Run w [MsgLoadUnexpected TypeError] (Ok tt)).
  { apply (instructor_in_saved_layout_stops_the_load w "data.json" top [PDict irec] irec).
    - reflexivity.
    - reflexivity.
    - constructor.
    - by eexists. }
  by rewrite Hr.
Defined.

(** * The enrollments phase links both sides *)

Lemma from_dict_no_course (h : Heap) srec all :
  has_keys srec student_required = true ->
  assoc "enrolled_courses" srec = Some (PList []) ->
  exists st, Student_from_dict h (PDict srec) all = Ok st /\
             enrolled_courses st = [] /\
             assoc "student_id" srec = Some (student_id st).
Proof.
  intros Hreq Hec.
  unfold has_keys, student_required in Hreq. cbn [forallb] in Hreq.
  destruct (assoc "name" srec) as [v1|] eqn:E1; [|discriminate].
  destruct (assoc "email" srec) as [v2|] eqn:E2; [|discriminate].
  destruct (assoc "contact_number" srec) as [v3|] eqn:E3; [|discriminate].
  destruct (assoc "address" srec) as [v4|] eqn:E4; [|discriminate].
  destruct (assoc "student_id" srec) as [v5|] eqn:E5; [|discriminate].
  destruct (assoc "year_level" srec) as [v6|] eqn:E6; [|discriminate].
  destruct (assoc "program" srec) as [v7|] eqn:E7; [|discriminate].
  unfold Student_from_dict, py_subscript, py_get.
  rewrite E1, E2, E3, E4, E5, E6, E7. cbn [rbind].
  unfold dict_get. rewrite Hec. cbn [py_iter rbind enroll_listed].
  eexists. split; [reflexivity|]. by cbn.
Qed.

Lemma Student_enroll_again (nc : addr) (st : Student) :
  Student_enroll nc (Student_enroll nc st) = Student_enroll nc st.
Proof.
  unfold Student_enroll.
  destruct (addr_in nc (enrolled_courses st)) eqn:Hin; [by rewrite Hin|].
  cbn [enrolled_courses set_enrolled_courses].
  assert (Hin' : addr_in nc (enrolled_courses st ++ [nc]) = true).
  { apply addr_in_elem, elem_of_app. right. constructor. }
  by rewrite Hin'.
Qed.

(** One enrollment row whose student and course are found: both sides are
    updated, the student's by [Student.enroll], the course's by an
    unconditional [append]. *)
Lemma load_enrollment_found (row : list (string * pyval)) (s : Repo)
    (ns nc : addr) (st : Student) (c : Course) (sk rk : pyval) :
  students (admin s) = [ns] ->
  courses (admin s) = [nc] ->
  student_objs (heap s) !! ns = Some st ->
  course_objs (heap s) !! nc = Some c ->
  assoc "student_id" row = Some sk -> py_eq (student_id st) sk = true ->
  assoc "course_code" row = Some rk -> py_eq (course_code c) rk = true ->
  load_enrollment (PDict row) s
  = Run (set_heap (update_course nc (set_enrolled_students (enrolled_students c ++ [ns]))
                     (update_student ns (Student_enroll nc) (heap s))) s)
        [] (Ok tt).
Proof.
  intros Hss Hcs Hst Hc Hsk Hseq Hrk Hceq.
  unfold load_enrollment. rewrite bind_get. rewrite Hss, Hcs.
  unfold find_student, find_course. cbn [next_where py_subscript].
  unfold deref. rewrite Hst, Hc, Hsk, Hrk. cbn [rbind]. rewrite Hseq, Hceq.
  rewrite !bind_lift_Ok, on_objects_run.
  unfold on_objects, modify. cbn [heap set_heap].
  unfold update_course at 1. rewrite update_student_courses, Hc.
  unfold update_course. rewrite update_student_courses, Hc. done.
Qed.

Lemma load_enrollment_rows (row : list (string * pyval)) (ns nc : addr)
    (sk rk : pyval) (n : nat) :
  assoc "student_id" row = Some sk ->
  assoc "course_code" row = Some rk ->
  forall (s : Repo) (st : Student) (c : Course),
    students (admin s) = [ns] ->
    courses (admin s) = [nc] ->
    student_objs (heap s) !! ns = Some st ->
    course_objs (heap s) !! nc = Some c ->
    py_eq (student_id st) sk = true ->
    py_eq (course_code c) rk = true ->
    let r := for_each load_enrollment (replicate n (PDict row)) s in
    outcome r = Ok tt /\ printed r = [] /\
    admin (final r) = admin s /\
    exists st' c',
      student_objs (heap (final r)) !! ns = Some st' /\
      course_objs (heap (final r)) !! nc = Some c' /\
      enrolled_courses st'
      = (if Nat.eqb n 0 then enrolled_courses st
         else enrolled_courses (Student_enroll nc st)) /\
      enrolled_students c' = enrolled_students c ++ replicate n ns.
Proof.
  intros Hsk Hrk. induction n as [|n IH]; intros s st c Hss Hcs Hst Hc Hseq Hceq.
  - cbn. split_and!; try done. exists st, c. by rewrite app_nil_r.
  - cbn [replicate for_each].
    pose proof (load_enrollment_found row s ns nc st c sk rk Hss Hcs Hst Hc
                  Hsk Hseq Hrk Hceq) as Hstep.
    set (s1 := set_heap _ s) in Hstep.
    set (st1 := Student_enroll nc st).
    set (c1 := set_enrolled_students (enrolled_students c ++ [ns]) c).
    assert (Hst1 : student_objs (heap s1) !! ns = Some st1).
    { unfold s1. cbn [heap set_heap]. rewrite update_course_students.
      rewrite (update_student_lookup ns ns _ _ st Hst). by rewrite decide_True. }
    assert (Hc1 : course_objs (heap s1) !! nc = Some c1).
    { unfold s1. cbn [heap set_heap]. apply update_course_lookup.
      by rewrite update_student_courses. }
    assert (Hid1 : py_eq (student_id st1) sk = true).
    { unfold st1, Student_enroll. by destruct (addr_in nc (enrolled_courses st)). }
    destruct (IH s1 st1 c1 Hss Hcs Hst1 Hc1 Hid1 Hceq)
      as (Hok & Hpr & Hadm & st' & c' & Hs' & Hc' & Hen & Hes).
    cbn zeta. rewrite (bind_run_Ok _ _ _ _ _ _ Hstep).
    cbn [final printed outcome]. rewrite Hok, Hpr, Hadm.
    split_and!; try done. exists st', c'. split_and!; try done.
    + rewrite Hen. unfold st1. rewrite Student_enroll_again. by destruct (Nat.eqb n 0).
    + rewrite Hes. cbn [c1 enrolled_students set_enrolled_students].
      by rewrite <- app_assoc.
Qed.

(** X16. The enrollments phase links both sides, and only the course side
    repeats.  For a document with one instructor record that the
    constructor accepts, one course of that instructor, one student whose
    record lists that course or lists no course, and [n] copies of the
    enrollment row of that student and course, [load_data] yields a student
    enrolled exactly once in the course, as soon as the record lists it or
    there is a row, and a course whose [enrolled_students] holds the student
    [n] times. *)
Theorem enrollment_rows_link_both_sides
    (w : Platform) (filename : string) (top : list (string * pyval))
    (irec : pyval) (i1 : Instructor) (crec srec centry row : list (string * pyval))
    (cn cc un ck sk rk : pyval) (listed : bool) (n : nat) :
  disk w filename = Document (PDict top) ->
  assoc "instructors" top = Some (PList [irec]) ->
  Instructor_kwargs irec = Ok i1 ->
  assoc "courses" top = Some (PList [PDict crec]) ->
  assoc "course_name" crec = Some cn ->
  assoc "course_code" crec = Some cc ->
  assoc "units" crec = Some un ->
  py_eq (instructor_id i1) (dict_get crec "instructor_id" PNone) = true ->
  assoc "students" top = Some (PList [PDict srec]) ->
  has_keys srec student_required = true ->
  assoc "enrolled_courses" srec = Some (PList (if listed then [PDict centry] else [])) ->
  assoc "course_code" centry = Some ck ->
  py_eq cc ck = true ->
  assoc "enrollments" top = Some (PList (replicate n (PDict row))) ->
  assoc "student_id" row = Some sk ->
  (forall sid, assoc "student_id" srec = Some sid -> py_eq sid sk = true) ->
  assoc "course_code" row = Some rk ->
  py_eq cc rk = true ->
  let r := load_data filename w in
  let h' := heap (repo (final r)) in
  let self' := admin (repo (final r)) in
  exists (ca sa : addr) (s : Student) (c : Course),
    courses self' = [ca] /\ course_objs h' !! ca = Some c /\
    students self' = [sa] /\ student_objs h' !! sa = Some s /\
    enrolled_courses s = (if listed || negb (Nat.eqb n 0) then [ca] else []) /\
    enrolled_students c = replicate n sa.
Proof.
  intros Hdisk Hi Hi1 Hc Hcn Hcc Hun Hieq Hs Hreq Hec Hck Hceq He Hsk Hsid Hrk Hreq' r h' self'.
  set (s0 := repo w).
  set (ni := length (instructor_objs (heap s0))).
  set (nc := length (course_objs (heap s0))).
  set (ns := length (student_objs (heap s0))).
  pose proof (load_instructors_one top irec i1 s0 Hi Hi1) as H1.
  set (s1 := mkRepo _ _) in H1.
  pose proof (load_courses_one top crec i1 ni cn cc un s1 Hc eq_refl
                (lookup_snoc _ _) Hieq Hcn Hcc Hun) as H2.
  set (s2 := mkRepo _ _) in H2.
  assert (Hfrom : exists st, Student_from_dict (heap s2) (PDict srec) [nc] = Ok st /\
                             enrolled_courses st = (if listed then [nc] else []) /\
                             assoc "student_id" srec = Some (student_id st)).
  { destruct listed.
    - exact (from_dict_one_course (heap s2) srec centry ck nc (Course_init cn cc ni un)
               Hreq Hec Hck (lookup_snoc _ _) Hceq).
    - exact (from_dict_no_course (heap s2) srec [nc] Hreq Hec). }
  destruct Hfrom as (st & Hst & Hen & Hid).
  pose proof (load_students_one top srec st s2 Hs Hst) as H3.
  set (s3 := mkRepo _ _) in H3.
  set (s4 := set_admin (set_enrollments [] (admin s3)) s3).
  destruct (load_enrollment_rows row ns nc sk rk n Hsk Hrk
              s4 st (Course_init cn cc ni un) eq_refl eq_refl (lookup_snoc _ _)
              (lookup_snoc _ _) (Hsid _ Hid) Hreq')
    as (Hok & Hpr & Hadm & st' & c' & Hs' & Hc' & Hen' & Hes').
  set (r4 := for_each load_enrollment (replicate n (PDict row)) s4) in *.
  assert (H4 : load_enrollments (PDict top) s3 = Run (final r4) [] (Ok tt)).
  { unfold load_enrollments. rewrite on_admin_run. fold s4.
    cbn [py_get]. unfold dict_get. rewrite He. rewrite bind_lift_Ok.
    cbn [py_iter]. rewrite bind_lift_Ok. fold r4.
    rewrite <- Hok, <- Hpr. symmetry. apply run_eta. }
  set (z := load_schedules (PDict top) (final r4)).
  assert (Hrb : load_document (PDict top) s0 = Run (final z) (printed z) (outcome z)).
  { unfold load_document.
    rewrite (bind_run_Ok _ _ _ _ _ _ H1), (bind_run_Ok _ _ _ _ _ _ H2),
            (bind_run_Ok _ _ _ _ _ _ H3), (bind_run_Ok _ _ _ _ _ _ H4).
    done. }
  assert (Hrepo : repo (final r) = final z).
  { subst r. rewrite (load_data_run w filename (PDict top) Hdisk). fold s0.
    by rewrite Hrb. }
  pose proof (load_schedules_keeps_links (PDict top) (final r4)) as Hk. fold z in Hk.
  clearbody z r4. unfold links in Hk. subst h' self'. rewrite Hrepo.
  injection Hk as Ha Hio' Hso' Hco'. rewrite Ha, Hso', Hadm.
  assert (Hlook : exists c, course_objs (heap (final z)) !! nc = Some c /\
                            enrolled_students c = replicate n ns).
  { apply (f_equal (fun l => l !! nc)) in Hco'. rewrite !list_lookup_fmap, Hc' in Hco'.
    destruct (course_objs (heap (final z)) !! nc) as [c|]; [|discriminate].
    exists c. cbn in Hco'. injection Hco' as _ _ ->. by rewrite Hes'. }
  destruct Hlook as (c & Hcl & Hce).
  exists nc, ns, st', c. split_and!; try done.
  rewrite Hen'. destruct (Nat.eqb n 0); cbn [negb]; rewrite ?orb_false_r, ?orb_true_r.
  - by rewrite Hen.
  - unfold Student_enroll, addr_in. rewrite Hen.
    destruct listed; cbn [existsb orb app]; rewrite ?Nat.eqb_refl; cbn [orb]; [done|].
    done.
Qed.

Lemma enrollment_rows_link_both_sides_witness :
  let irec := PDict [("instructor_id", PStr "I1"); ("name", PStr "Dr. Cruz");
                     ("email", PStr "cruz@uni.edu"); ("contact_number", PStr "09170000001");
                     ("address", PStr "Manila")] in
  let crec := [("course_name", PStr "Logic"); ("course_code", PStr "C1");
               ("instructor_id", PStr "I1"); ("units", PNum 3)] in
  let srec := [("name", PStr "Ana"); ("email", PStr "ana@uni.edu");
               ("contact_number", PStr "09171234567"); ("address", PStr "Manila");
               ("student_id", PStr "S1"); ("year_level", PNum 1); ("program", PStr "BSCS");
               ("gpa", PNum 0); ("birth_date", PNone);
               ("enrolled_courses", PList [])] in
  let row := [("student_id", PStr "S1"); ("course_code", PStr "C1")] in
  let top := [("instructors", PList [irec]); ("courses", PList [PDict crec]);
              ("students", PList [PDict srec]);
              ("enrollments", PList (replicate 2 (PDict row)))] in
  let w := mkPlatform (mkRepo empty_heap PlatformAdmin_init)
                      (fun _ => Document (PDict top)) in
  let r := load_data "data.json" w in
  let h' := heap (repo (final r)) in
  let self' := admin (repo (final r)) in
  exists (ca sa : addr) (s : Student) (c : Course),
    courses self' = [ca] /\ course_objs h' !! ca = Some c /\
    students self' = [sa] /\ student_objs h' !! sa = Some s /\
    enrolled_courses s = [ca] /\
    enrolled_students c = replicate 2 sa.
Proof.
  intros irec crec srec row top w.
  apply (enrollment_rows_link_both_sides w "data.json" top irec
           (Instructor_init (PStr "Dr. Cruz") (PStr "cruz@uni.edu") (PStr "09170000001")
                            (PStr "Manila") (PStr "I1") (PStr "Instructor"))
           crec srec crec row (PStr "Logic") (PStr "C1") (PNum 3) (PStr "C1")
           (PStr "S1") (PStr "C1") false 2);
    try reflexivity.
  intros sid [= <-]. reflexivity.
Defined.

(** * The courses phase, record by record *)











